(** * Mode webhook examples: a shallow embedding and its checked properties

    The development follows the four Python modules of the repository:
    [hookrich] (payload enrichment through the Mode API), the two AWS Lambda
    entry points [post_to_destination] and [post_to_slack], and the CSV
    logger [log_usage_csv].

    [hookrich] and the two posting entry points are read as Python 3.  The
    CSV logger has one line that Python 2 and Python 3 run differently, and
    nothing in the repository says which of them runs it: its model takes
    the interpreter as a parameter.

    Python values that cross the module boundaries are JSON documents, so the
    embedding has one dynamic value type [json]; Python exceptions are the
    [Raise] outcome of a small state-and-exception monad whose state is the
    trace of input/output actions performed so far.  Library functions that
    the repository only calls ([requests], [json.loads], [json.dumps], the
    [repr] of containers, [os.environ]) are fields of a [world] record. *)

From Stdlib Require Import ZArith Lia Ascii String.
From stdpp Require Import base option list strings gmap pretty.

#[local] Set Warnings "-clear-no-such-hyp".

Local Open Scope string_scope.
Local Open Scope list_scope.
Local Open Scope Z_scope.

(** ** Python builtins used by the sources *)

Module Py.

(** *** Strings

    A [string] is the sequence of bytes of the UTF-8 encoding of a Python
    text, so that [.encode("utf-8")] is the identity on this representation. *)

Definition startswith (p s : string) : bool := String.prefix p s.

Fixpoint str_drop (n : nat) (s : string) : string :=
  match n, s with
  | O, _ => s
  | S _, "" => ""
  | S k, String _ s' => str_drop k s'
  end.

Fixpoint str_take (n : nat) (s : string) : string :=
  match n, s with
  | O, _ => ""
  | S _, "" => ""
  | S k, String c s' => String c (str_take k s')
  end.

Fixpoint endswith_char (c : ascii) (s : string) : bool :=
  match s with
  | "" => false
  | String a "" => bool_decide (a = c)
  | String _ s' => endswith_char c s'
  end.

(** [sub in s]: does [sub] occur in [s]? *)
Fixpoint contains (sub s : string) : bool :=
  startswith sub s ||
  match s with
  | "" => false
  | String _ s' => contains sub s'
  end.

(** Prepend a character to the first piece of a split. *)
Definition cons_first (c : ascii) (ps : list string) : list string :=
  match ps with
  | [] => [String c ""]
  | p :: ps' => String c p :: ps'
  end.

(** [s.split(sep, maxsplit)] for a non-empty separator: a left-to-right scan
    for non-overlapping occurrences; [skip] counts the characters of a matched
    separator that are still to be passed over, [n] the splits still allowed. *)
Fixpoint split_go (sep : string) (n skip : nat) (s : string) : list string :=
  match s with
  | "" => [""]
  | String c s' =>
      match skip with
      | S k => split_go sep n k s'
      | O =>
          match n with
          | S n' =>
              if startswith sep s
              then "" :: split_go sep n' (Nat.pred (String.length sep)) s'
              else cons_first c (split_go sep n 0 s')
          | O => cons_first c (split_go sep O 0 s')
          end
      end
  end.

Definition split_max (sep : string) (maxsplit : nat) (s : string) : list string :=
  split_go sep maxsplit 0 s.

(** [s.split(sep)]: no bound on the number of splits (a string of length [k]
    has at most [k] occurrences of a non-empty separator). *)
Definition split (sep s : string) : list string :=
  split_go sep (String.length s) 0 s.

(** [s.replace(old, new)] for a non-empty [old]. *)
Fixpoint replace_go (old new : string) (skip : nat) (s : string) : string :=
  match s with
  | "" => ""
  | String c s' =>
      match skip with
      | S k => replace_go old new k s'
      | O =>
          if startswith old s
          then new +:+ replace_go old new (Nat.pred (String.length old)) s'
          else String c (replace_go old new 0 s')
      end
  end.

Definition replace (old new s : string) : string := replace_go old new 0 s.

(** [sep.join(pieces)] *)
Fixpoint join (sep : string) (ps : list string) : string :=
  match ps with
  | [] => ""
  | [p] => p
  | p :: ps' => p +:+ sep +:+ join sep ps'
  end.

(** *** Exceptions and outcomes *)

Inductive exn :=
| KeyError (key : string)
| IndexError
| TypeError
| ValueError
| AttributeError
| UnboundLocalError (name : string)
| UnicodeEncodeError
| RequestException
| Exception (msg : string).

(** The result of running a piece of Python: a value, a raised exception, or
    [Diverge] when a loop was still running after the step budget. *)
Inductive outcome (A : Type) :=
| Ret (a : A)
| Raise (e : exn)
| Diverge.
Arguments Ret {A} a.
Arguments Raise {A} e.
Arguments Diverge {A}.

Definition obind {A B} (o : outcome A) (k : A → outcome B) : outcome B :=
  match o with
  | Ret a => k a
  | Raise e => Raise e
  | Diverge => Diverge
  end.

(** [l[i]] on a Python list, for [i >= 0]. *)
Definition list_getitem {A} (l : list A) (i : nat) : outcome A :=
  match l !! i with
  | Some x => Ret x
  | None => Raise IndexError
  end.

(** [l[-1]] *)
Definition list_last {A} (l : list A) : outcome A :=
  match last l with
  | Some x => Ret x
  | None => Raise IndexError
  end.

(** *** Dynamic values

    Everything the sources read from the network or from the Lambda event is
    a decoded JSON document.  Numbers are integers; values with a fractional
    part are outside the model. *)

#[warnings="-register-all"]
Inductive json :=
| JNull
| JBool (b : bool)
| JNum (n : Z)
| JStr (s : string)
| JArr (l : list json)
| JObj (m : gmap string json).

(** [v[key]] with a string key. *)
Definition getitem (key : string) (v : json) : outcome json :=
  match v with
  | JObj m =>
      match m !! key with
      | Some x => Ret x
      | None => Raise (KeyError key)
      end
  | _ => Raise TypeError
  end.

(** [v.get(key, default)] *)
Definition dict_get (key : string) (dflt : json) (v : json) : outcome json :=
  match v with
  | JObj m => Ret (default dflt (m !! key))
  | _ => Raise AttributeError
  end.

(** [v == 'literal'] *)
Definition eq_str (v : json) (lit : string) : bool :=
  match v with
  | JStr s => bool_decide (s = lit)
  | _ => false
  end.

(** The integer a value stands for in arithmetic and ordering ([bool] is a
    subclass of [int]); anything else is a [TypeError] in an ordering. *)
Definition as_int (v : json) : outcome Z :=
  match v with
  | JNum n => Ret n
  | JBool b => Ret (if b then 1 else 0)
  | _ => Raise TypeError
  end.

(** [v == n] for an integer literal [n]. *)
Definition eq_int (v : json) (n : Z) : bool :=
  match v with
  | JNum k => bool_decide (k = n)
  | JBool b => bool_decide ((if b then 1 else 0) = n)
  | _ => false
  end.

(** What a [for] loop over [v] visits. *)
Definition iter (v : json) : outcome (list json) :=
  match v with
  | JArr l => Ret l
  | JStr s => Ret ((λ c, JStr (String c "")) <$> list_ascii_of_string s)
  | JObj m => Ret (JStr <$> (map_to_list m).*1)
  | _ => Raise TypeError
  end.

(** [len(v)] *)
Definition len (v : json) : outcome Z :=
  match v with
  | JArr l => Ret (Z.of_nat (length l))
  | JStr s => Ret (Z.of_nat (String.length s))
  | JObj m => Ret (Z.of_nat (size m))
  | _ => Raise TypeError
  end.

(** [v.split(sep)[i]] *)
Definition split_item (sep : string) (i : nat) (v : json) : outcome json :=
  match v with
  | JStr s => obind (list_getitem (split sep s) i) (λ p, Ret (JStr p))
  | _ => Raise AttributeError
  end.

(** [v[n:]] *)
Definition slice_from (n : nat) (v : json) : outcome json :=
  match v with
  | JStr s => Ret (JStr (str_drop n s))
  | JArr l => Ret (JArr (drop n l))
  | _ => Raise TypeError
  end.

(** [os.path.join] of [posixpath]; a component that is not a string
    is a [TypeError]. *)
Definition join_step (path : string) (b : json) : outcome string :=
  match b with
  | JStr b =>
      if startswith "/" b then Ret b
      else if bool_decide (path = "") || endswith_char "/" path
           then Ret (path +:+ b)
           else Ret (path +:+ "/" +:+ b)
  | _ => Raise TypeError
  end.

Fixpoint path_join (path : string) (ps : list json) : outcome string :=
  match ps with
  | [] => Ret path
  | b :: ps' => obind (join_step path b) (λ path', path_join path' ps')
  end.

(** *** [datetime.strptime] and [timedelta]

    [strptime] turns the format into a regular expression, one group per
    directive, matched case-insensitively from the start of the text with
    backtracking; text left over after the match, and field values that are
    not a calendar date or a time of day, are a [ValueError].  The groups
    below are those of the directives of ['%Y-%m-%dT%H:%M:%S.%fZ']. *)

Definition cls := ascii → bool.

Definition in_range (lo hi : ascii) : cls :=
  λ c, (nat_of_ascii lo <=? nat_of_ascii c)%nat && (nat_of_ascii c <=? nat_of_ascii hi)%nat.
Definition digit : cls := in_range "0" "9".
Definition chr (a : ascii) : cls := λ c, bool_decide (c = a).
(** A literal letter of the format, under [re.IGNORECASE]. *)
Definition letter (upper lower : ascii) : cls :=
  λ c, bool_decide (c = upper) || bool_decide (c = lower).

(** One alternative of a group: a sequence of character classes. *)
Fixpoint match_seq (cs : list cls) (s : string) : option (string * string) :=
  match cs with
  | [] => Some ("", s)
  | p :: cs' =>
      match s with
      | "" => None
      | String c s' =>
          if p c
          then match match_seq cs' s' with
               | Some (m, rest) => Some (String c m, rest)
               | None => None
               end
          else None
      end
  end.

(** A group [(a1|a2|...)] followed by the rest of the expression [k]: the
    first alternative after which [k] succeeds wins. *)
Fixpoint match_alts {A} (alts : list (list cls))
    (k : string → string → option A) (s : string) : option A :=
  match alts with
  | [] => None
  | a :: alts' =>
      match match_seq a s with
      | Some (m, rest) =>
          match k m rest with
          | Some r => Some r
          | None => match_alts alts' k s
          end
      | None => match_alts alts' k s
      end
  end.

Definition re_Y : list (list cls) := [[digit; digit; digit; digit]].
Definition re_m : list (list cls) :=
  [[chr "1"; in_range "0" "2"]; [chr "0"; in_range "1" "9"]; [in_range "1" "9"]].
Definition re_d : list (list cls) :=
  [[chr "3"; in_range "0" "1"]; [in_range "1" "2"; digit]; [chr "0"; in_range "1" "9"];
   [in_range "1" "9"]; [chr " "; in_range "1" "9"]].
Definition re_H : list (list cls) :=
  [[chr "2"; in_range "0" "3"]; [in_range "0" "1"; digit]; [digit]].
Definition re_M : list (list cls) := [[in_range "0" "5"; digit]; [digit]].
Definition re_S : list (list cls) :=
  [[chr "6"; in_range "0" "1"]; [in_range "0" "5"; digit]; [digit]].
(** [[0-9]{1,6}], greedy *)
Definition re_f : list (list cls) :=
  [replicate 6 digit; replicate 5 digit; replicate 4 digit;
   replicate 3 digit; replicate 2 digit; [digit]].
Definition re_lit (c : cls) : list (list cls) := [[c]].

(** [int(text)] on the text of a group: decimal digits, blanks ignored. *)
Fixpoint int_go (acc : Z) (s : string) : Z :=
  match s with
  | "" => acc
  | String c s' =>
      if digit c
      then int_go (10 * acc + Z.of_nat (nat_of_ascii c - 48)) s'
      else int_go acc s'
  end.
Definition int_of (s : string) : Z := int_go 0 s.

(** The fraction group is padded with zeros on the right to six digits. *)
Definition pad6 (s : string) : string :=
  s +:+ str_take (6 - String.length s) "000000".

Record datetime := mk_datetime {
  year : Z; month : Z; day : Z;
  hour : Z; minute : Z; second : Z; microsecond : Z
}.

(** The match of the whole expression: field values and the unconverted
    rest of the text. *)
Definition match_iso (s : string) : option (datetime * string) :=
  match_alts re_Y (λ Y,
  match_alts (re_lit (chr "-")) (λ _,
  match_alts re_m (λ m,
  match_alts (re_lit (chr "-")) (λ _,
  match_alts re_d (λ d,
  match_alts (re_lit (letter "T" "t")) (λ _,
  match_alts re_H (λ H,
  match_alts (re_lit (chr ":")) (λ _,
  match_alts re_M (λ M,
  match_alts (re_lit (chr ":")) (λ _,
  match_alts re_S (λ S,
  match_alts (re_lit (chr ".")) (λ _,
  match_alts re_f (λ f,
  match_alts (re_lit (letter "Z" "z")) (λ _ rest,
    Some (mk_datetime (int_of Y) (int_of m) (int_of d)
                      (int_of H) (int_of M) (int_of S) (int_of (pad6 f)),
          rest))))))))))))))) s.

Definition is_leap (y : Z) : bool :=
  (y mod 4 =? 0) && (negb (y mod 100 =? 0) || (y mod 400 =? 0)).

Definition days_in_month (y m : Z) : Z :=
  if (m =? 2) && is_leap y then 29
  else nth (Z.to_nat m) [0; 31; 28; 31; 30; 31; 30; 31; 31; 30; 31; 30; 31] 0.

Definition days_before_year (y : Z) : Z :=
  let y' := y - 1 in y' * 365 + y' / 4 - y' / 100 + y' / 400.

Definition days_before_month (y m : Z) : Z :=
  nth (Z.to_nat m) [0; 0; 31; 59; 90; 120; 151; 181; 212; 243; 273; 304; 334] 0
  + (if (2 <? m) && is_leap y then 1 else 0).

(** [date.toordinal()] *)
Definition toordinal (t : datetime) : Z :=
  days_before_year (year t) + days_before_month (year t) (month t) + day t.

(** The checks of the [datetime] constructor. *)
Definition valid_datetime (t : datetime) : bool :=
  (1 <=? year t) && (year t <=? 9999) &&
  (1 <=? month t) && (month t <=? 12) &&
  (1 <=? day t) && (day t <=? days_in_month (year t) (month t)) &&
  (0 <=? hour t) && (hour t <=? 23) &&
  (0 <=? minute t) && (minute t <=? 59) &&
  (0 <=? second t) && (second t <=? 59) &&
  (0 <=? microsecond t) && (microsecond t <=? 999999).

(** [datetime.strptime(text, '%Y-%m-%dT%H:%M:%S.%fZ')] *)
Definition strptime_iso (text : json) : outcome datetime :=
  match text with
  | JStr s =>
      match match_iso s with
      | Some (t, "") => if valid_datetime t then Ret t else Raise ValueError
      | Some (_, String _ _) => Raise ValueError
      | None => Raise ValueError
      end
  | _ => Raise TypeError
  end.

Record timedelta := mk_timedelta {
  td_days : Z; td_seconds : Z; td_microseconds : Z
}.

(** The [timedelta] constructor normalises to
    [0 <= seconds < 86400] and [0 <= microseconds < 1000000]. *)
Definition new_timedelta (days seconds microseconds : Z) : timedelta :=
  let total := microseconds + 1000000 * (seconds + 86400 * days) in
  let rest := total mod (86400 * 1000000) in
  mk_timedelta (total / (86400 * 1000000)) (rest / 1000000) (rest mod 1000000).

(** [a - b] on two naive datetimes. *)
Definition datetime_sub (a b : datetime) : timedelta :=
  let secs t := second t + minute t * 60 + hour t * 3600 in
  new_timedelta (toordinal a - toordinal b) (secs a - secs b)
                (microsecond a - microsecond b).

(** [d[key]] where the key is itself a dynamic value: containers are
    unhashable, and a key that is not a string is never in a table whose keys
    are strings. *)
Definition table_getitem {A} (d : gmap string A) (key : json) (shown : string) : outcome A :=
  match key with
  | JStr s =>
      match d !! s with
      | Some x => Ret x
      | None => Raise (KeyError s)
      end
  | JArr _ | JObj _ => Raise TypeError
  | _ => Raise (KeyError shown)
  end.

(** A dict literal or a sequence of item assignments: later keys win. *)
Definition dict_of (items : list (string * json)) : gmap string json :=
  foldl (λ m kv, <[kv.1 := kv.2]> m) ∅ items.

Definition dict_of_strings (items : list (string * string)) : gmap string string :=
  foldl (λ m kv, <[kv.1 := kv.2]> m) ∅ items.

(** [d.update(e)] *)
Definition dict_update (d e : gmap string json) : gmap string json := e ∪ d.

(** *** The outside world *)

Inductive io_event :=
| HttpGet (url : string)
| HttpPost (url : string) (body : json)
| LogInfo (msg : string)
| LogError (msg : string)
| CsvWriteRow (file : string) (row : list string).

Record world := mk_world {
  (** [os.environ] *)
  environ : gmap string string;
  (** [requests.get(url, auth=...).json()]; [None] is a transport failure or
      a body that is not JSON *)
  http_get_json : string → option json;
  (** [requests.post(url, ...).text]; [None] is a transport failure *)
  http_post_text : string → json → option string;
  (** [json.loads] on a text; [None] is its [ValueError] *)
  json_loads : string → option json;
  (** [json.dumps] *)
  json_dumps : json → string;
  (** [repr] of a list or dict *)
  repr : json → string;
  (** [str(error)] of a caught exception *)
  exn_message : exn → string
}.

(** [str(v)], also what ['{}'.format(v)] inserts. *)
Definition str (W : world) (v : json) : string :=
  match v with
  | JStr s => s
  | JNum n => pretty n
  | JBool true => "True"
  | JBool false => "False"
  | JNull => "None"
  | _ => repr W v
  end.

(** [template.format] applied to [args], for a template whose only fields are [{}] and
    which has as many of them as there are arguments. *)
Fixpoint format_go (skip : bool) (template : string) (args : list string) : string :=
  match template with
  | "" => ""
  | String c t' =>
      if skip then format_go false t' args
      else if startswith "{}" template
      then match args with
           | a :: args' => a +:+ format_go true t' args'
           | [] => format_go true t' []
           end
      else String c (format_go false t' args)
  end.

Definition format (W : world) (template : string) (args : list json) : string :=
  format_go false template (str W <$> args).

(** [json.loads(v)]: a [TypeError] unless [v] is a text. *)
Definition loads (W : world) (v : json) : outcome json :=
  match v with
  | JStr s =>
      match json_loads W s with
      | Some x => Ret x
      | None => Raise ValueError
      end
  | _ => Raise TypeError
  end.

(** *** Computations: a trace of input/output actions and an outcome *)

Definition M (A : Type) : Type := list io_event → outcome A * list io_event.

Definition ret {A} (a : A) : M A := λ tr, (Ret a, tr).
Definition raise {A} (e : exn) : M A := λ tr, (Raise e, tr).
Definition diverge {A} : M A := λ tr, (Diverge, tr).
Definition bind {A B} (m : M A) (k : A → M B) : M B :=
  λ tr,
    match m tr with
    | (Ret a, tr') => k a tr'
    | (Raise e, tr') => (Raise e, tr')
    | (Diverge, tr') => (Diverge, tr')
    end.
Definition lift {A} (o : outcome A) : M A := λ tr, (o, tr).
Definition emit (ev : io_event) : M unit := λ tr, (Ret tt, tr ++ [ev]).

(** [try: m  except <handles>: h] *)
Definition try_except {A} (m : M A) (handles : exn → bool) (h : exn → M A) : M A :=
  λ tr,
    match m tr with
    | (Raise e, tr') => if handles e then h e tr' else (Raise e, tr')
    | r => r
    end.

#[global] Instance outcome_ret : MRet outcome := @Ret.
#[global] Instance outcome_bind : MBind outcome := λ A B k o, obind o k.
#[global] Instance M_ret : MRet M := @ret.
#[global] Instance M_bind : MBind M := λ A B k m, bind m k.

(** [os.environ[name]] *)
Definition getenv (W : world) (name : string) : outcome string :=
  match environ W !! name with
  | Some v => Ret v
  | None => Raise (KeyError name)
  end.

End Py.

(** ** [examples/enrichment/hookrich.py] *)

Module Hookrich.
Import Py.

Definition MODE_BASE_URL : string := "https://modeanalytics.com/".

Definition WEBHOOK_EVENTS : gmap string (gmap string string) :=
  let entry (url scope : string) : gmap string string :=
    <["scope" := scope]> (<["url" := url]> ∅) in
  <["report_created" := entry "report_url" "report"]> (
  <["report_run_started" := entry "report_run_url" "report_run"]> (
  <["report_run_completed" := entry "report_run_url" "report_run"]> (
  <["definition_created" := entry "definition_url" "definition"]> (
  <["definition_updated" := entry "definition_url" "definition"]> (
  <["new_database_connection" := entry "connection_url" "connection"]> (
  <["member_joined_organization" := entry "member_url" "membership"]> ∅)))))).

(** [table[key]] on an inner dict of [WEBHOOK_EVENTS]. *)
Definition entry_getitem (key : string) (e : gmap string string) : outcome string :=
  match e !! key with
  | Some v => Ret v
  | None => Raise (KeyError key)
  end.

(** *** [class EventURL] *)

Record EventURL := mk_EventURL { url : string; path : string }.

(** [EventURL.__init__]: [url.split(MODE_BASE_URL, 3)[-1]]; a value without
    a [split] method is an [AttributeError]. *)
Definition EventURL_init (v : json) : outcome EventURL :=
  match v with
  | JStr u =>
      p ← list_last (split_max MODE_BASE_URL 3 u);
      Ret (mk_EventURL u p)
  | _ => Raise AttributeError
  end.

Definition connection_url (e : EventURL) : string :=
  replace "/api/" "/organizations/" (url e).

Definition member_token (e : EventURL) : outcome string :=
  rest ← list_getitem (split "/memberships/" (path e)) 1;
  list_getitem (split "?embed[user]" rest) 0.

Definition report_url (e : EventURL) : outcome string :=
  list_getitem (split "/runs/" (url e)) 0.

Definition org (e : EventURL) : outcome string :=
  list_getitem (split "/" (path e)) 1.

(** *** Durations *)

Definition datetime_iso_convert (iso_string : json) : outcome datetime :=
  strptime_iso iso_string.

Definition report_run_duration (started_at completed_at : json) : outcome Z :=
  report_run_created_at ← datetime_iso_convert started_at;
  report_run_completed_at ← datetime_iso_convert completed_at;
  Ret (td_seconds (datetime_sub report_run_completed_at report_run_created_at)).

(** *** Counting failures in fetched pages

    The two nested loops of [consecutive_run_failures]; they perform no
    input or output. *)

(** The inner [for run in runs]: [true] when it left through [break]. *)
Fixpoint scan_runs (runs : list json) : outcome bool :=
  match runs with
  | [] => Ret false
  | run :: runs' =>
      state ← getitem "state" run;
      if eq_str state "succeeded" then Ret true else scan_runs runs'
  end.

(** The outer [for page in report_runs_data]. *)
Fixpoint count_pages (pages : list json) (consecutive_failure_count : Z) : outcome Z :=
  match pages with
  | [] => Ret consecutive_failure_count
  | page :: pages' =>
      embedded ← getitem "_embedded" page;
      runs ← getitem "report_runs" embedded;
      items ← iter runs;
      broke ← scan_runs items;
      if broke : bool then Ret consecutive_failure_count
      else n ← len runs; count_pages pages' (consecutive_failure_count + n)
  end.

Section WithWorld.
Context (W : world).
(** Step budget of the [while] loop of [get_report_runs]. *)
Context (fuel : nat).

Definition _mode_api_get (endpoint_url : string) : M json :=
  lift (getenv W "api_token");;
  lift (getenv W "api_password");;
  emit (HttpGet endpoint_url);;
  match http_get_json W endpoint_url with
  | Some body => ret body
  | None => raise RequestException
  end.

(** [MODE_BASE_URL + href] *)
Definition base_plus (href : json) : outcome string :=
  match href with
  | JStr h => Ret (MODE_BASE_URL +:+ h)
  | _ => Raise TypeError
  end.

(** The [while] loop of [get_report_runs], [n] iterations at most. *)
Fixpoint get_report_runs_loop (n : nat) (total_pages : json)
    (report_runs_data : json) (payload : list json) : M (list json) :=
  match n with
  | O => diverge
  | S n' =>
      go ← lift (pagination ← getitem "pagination" report_runs_data;
                 page ← getitem "page" pagination;
                 total ← as_int total_pages;
                 current ← as_int page;
                 Ret (current <? Z.min total 10));
      if go : bool then
        target ← lift (links ← getitem "_links" report_runs_data;
                       next_page ← getitem "next_page" links;
                       href ← getitem "href" next_page;
                       base_plus href);
        next ← _mode_api_get target;
        get_report_runs_loop n' total_pages next (payload ++ [next])
      else ret payload
  end.

Definition get_report_runs (url : string) : M (list json) :=
  report_runs_data ← _mode_api_get (url +:+ "/runs");
  total_pages ← lift (pagination ← getitem "pagination" report_runs_data;
                      getitem "total_pages" pagination);
  get_report_runs_loop fuel total_pages report_runs_data [report_runs_data].

Definition consecutive_run_failures (url : string) : M Z :=
  report_runs_data ← get_report_runs url;
  lift (count_pages report_runs_data 0).

(** A dict literal whose values are computed in order. *)
Fixpoint build_dict (items : list (string * M json)) (acc : list (string * json))
    : M (gmap string json) :=
  match items with
  | [] => ret (dict_of acc)
  | (k, m) :: items' => v ← m; build_dict items' (acc ++ [(k, v)])
  end.

(** [{'key': data['key']}] *)
Definition copy (data : json) (key : string) : string * M json :=
  (key, lift (getitem key data)).
(** [{'key': data['_links']['key']}] *)
Definition copy_link (data : json) (key : string) : string * M json :=
  (key, lift (links ← getitem "_links" data; getitem key links)).
(** [data['_links'][name]['href']] *)
Definition link_href (data : json) (name : string) : outcome json :=
  links ← getitem "_links" data;
  link ← getitem name links;
  getitem "href" link.

(** [{name: inner}] *)
Definition namespaced (name : string) (inner : gmap string json) : gmap string json :=
  {[ name := JObj inner ]}.

(** The functions below are called with a text or with an [EventURL]; where
    the callee only sends the address ([requests] takes [str(url)]) or
    appends to it ([EventURL.__add__]), both behave as the text [url]. *)

Definition get_report_run_info (url : string) : M (gmap string json) :=
  report_run_data ← _mode_api_get url;
  results ← _mode_api_get (url +:+ "/results/content.json");
  inner ← build_dict [
    ("executed_by", lift (h ← link_href report_run_data "executed_by"; split_item "/" 2 h));
    copy_link report_run_data "account";
    copy_link report_run_data "share";
    copy_link report_run_data "report";
    copy_link report_run_data "query_runs";
    copy_link report_run_data "python_cell_runs";
    copy report_run_data "state";
    copy report_run_data "parameters";
    copy report_run_data "python_state";
    copy report_run_data "created_at";
    copy report_run_data "completed_at";
    copy report_run_data "form_fields";
    ("execution_duration",
       lift (created_at ← getitem "created_at" report_run_data;
             completed_at ← getitem "completed_at" report_run_data;
             d ← report_run_duration created_at completed_at;
             Ret (JNum d)));
    copy report_run_data "token";
    ("results", ret results);
    ("url", lift (h ← link_href report_run_data "web_external_url"; split_item "?" 0 h))
  ] [];
  ret (namespaced "report_run" inner).

(** [os.path.join(MODE_BASE_URL, data['_links']['self']['href'][5:])] *)
Definition self_url (data : json) : outcome json :=
  h ← link_href data "self";
  tail ← slice_from 5 h;
  u ← path_join MODE_BASE_URL [tail];
  Ret (JStr u).

Definition get_report_info (url : string) : M (gmap string json) :=
  data ← _mode_api_get url;
  inner ← build_dict [
    copy data "name";
    copy data "id";
    ("creator", lift (h ← link_href data "creator"; split_item "/" 2 h));
    copy data "created_at";
    copy data "edited_at";
    copy data "theme_id";
    copy data "archived";
    copy data "account_id";
    copy data "account_username";
    copy data "full_width";
    copy data "manual_run_disabled";
    copy data "run_privately";
    copy data "is_embedded";
    copy data "is_signed";
    copy data "shared";
    copy data "last_successfully_run_at";
    ("consecutive_run_failures", n ← consecutive_run_failures url; ret (JNum n));
    copy data "last_successful_run_token";
    copy data "last_run_at";
    copy data "description";
    copy_link data "report_schedules";
    copy_link data "report_subscriptions";
    copy data "public";
    copy data "account_id";
    ("url", lift (self_url data));
    copy data "space_token";
    copy data "web_preview_image"
  ] [];
  ret (namespaced "report" inner).

Definition get_space_info (url : string) : M (gmap string json) :=
  space_data ← _mode_api_get url;
  inner ← build_dict [
    copy space_data "id";
    copy space_data "name";
    copy space_data "space_type";
    copy space_data "description";
    copy space_data "state";
    ("url", lift (self_url space_data));
    copy space_data "restricted"
  ] [];
  ret (namespaced "space" inner).

Definition get_definition_info (url : EventURL) : M (gmap string json) :=
  definition_data ← _mode_api_get (Hookrich.url url);
  inner ← build_dict [
    copy definition_data "id";
    copy definition_data "name";
    copy definition_data "created_at";
    copy definition_data "data_source_id";
    copy definition_data "description";
    copy definition_data "source";
    copy definition_data "token";
    ("creator", lift (h ← link_href definition_data "creator"; slice_from 5 h));
    ("url", lift (o ← org url;
                  token ← getitem "token" definition_data;
                  u ← path_join MODE_BASE_URL
                        [JStr "editor"; JStr o; JStr "definitions"; token];
                  Ret (JStr u)))
  ] [];
  ret (namespaced "definition" inner).

Definition get_connection_info (url : EventURL) : M (gmap string json) :=
  connection_data ← _mode_api_get (Hookrich.url url);
  inner ← build_dict (
    (copy connection_data <$> [
      "id"; "name"; "account_id"; "account_username"; "adapter"; "asleep";
      "bridged"; "created_at"; "custom_attributes"; "database"; "default";
      "default_for_organization_id"; "description"; "display_name";
      "has_expensive_schema_updates"; "host"; "ldap"; "organization_token";
      "port"; "provider"; "public"; "queryable"; "ssl"; "token"; "updated_at";
      "username"; "vendor"; "warehouse"])
    ++ [("url", ret (JStr (connection_url url)))]) [];
  ret (namespaced "connection" inner).

Definition get_org_info (organization : json) : M (gmap string json) :=
  endpoint ← lift (path_join MODE_BASE_URL [JStr "api"; organization]);
  org_data ← _mode_api_get endpoint;
  inner ← build_dict (
    (copy org_data <$> [
      "id"; "name"; "token"; "user"; "username"; "plan_code";
      "private_definition_count"; "private_definition_limit"; "space_count";
      "trial_state"])
    ++ [("url", lift (u ← path_join MODE_BASE_URL [organization]; Ret (JStr u)))]) [];
  ret (namespaced "organization" inner).

Definition get_user_info (username : json) : M (gmap string json) :=
  endpoint ← lift (path_join MODE_BASE_URL [JStr "api"; username]);
  user_data ← _mode_api_get endpoint;
  inner ← build_dict [
    ("email", lift (dict_get "email" (JStr "") user_data));
    ("email_verified", lift (dict_get "email_verified" (JStr "") user_data));
    copy user_data "id";
    copy user_data "name";
    copy user_data "token";
    copy user_data "user";
    copy user_data "username";
    ("url", lift (u ← path_join MODE_BASE_URL [username]; Ret (JStr u)))
  ] [];
  ret (namespaced "user" inner).

Definition get_membership_info (url : EventURL) : M (gmap string json) :=
  endpoint ← lift (o ← org url;
                   t ← member_token url;
                   path_join MODE_BASE_URL
                     [JStr "api"; JStr o; JStr "memberships"; JStr t]);
  membership_data ← _mode_api_get endpoint;
  links ← lift (getitem "_links" membership_data);
  organization ← lift (l ← getitem "organization" links;
                       h ← getitem "href" l; slice_from 5 h);
  username ← lift (l ← getitem "user" links;
                   h ← getitem "href" l; slice_from 5 h);
  membership_token ← lift (l ← getitem "self" links;
                           h ← getitem "href" l; split_item "/memberships/" 1 h);
  inner ← build_dict [
    copy membership_data "admin";
    copy membership_data "limited";
    ("token", ret membership_token)
  ] [];
  let membership_info := namespaced "membership" inner in
  user_info ← get_user_info username;
  let membership_info := dict_update membership_info user_info in
  org_info ← get_org_info organization;
  let membership_info := dict_update membership_info org_info in
  ret membership_info.

(** [os.path.join(MODE_BASE_URL, 'api', event_url.org, 'spaces',
    payload['report']['space_token'])] *)
Definition space_endpoint (event_url : EventURL) (payload : gmap string json)
    : outcome string :=
  o ← org event_url;
  report ← getitem "report" (JObj payload);
  space_token ← getitem "space_token" report;
  path_join MODE_BASE_URL [JStr "api"; JStr o; JStr "spaces"; space_token].

Definition enrich_payload (event_name event_url : json) : M (gmap string json) :=
  event_url ← lift (EventURL_init event_url);
  scope ← lift (entry ← table_getitem WEBHOOK_EVENTS event_name (str W event_name);
                entry_getitem "scope" entry);
  if bool_decide (scope = "report_run") then
    payload ← get_report_run_info (url event_url);
    r ← lift (report_url event_url);
    info ← get_report_info r;
    let payload := dict_update payload info in
    space_endpoint_url ← lift (space_endpoint event_url payload);
    info ← get_space_info space_endpoint_url;
    ret (dict_update payload info)
  else if bool_decide (scope = "report") then
    payload ← get_report_info (url event_url);
    space_endpoint_url ← lift (space_endpoint event_url payload);
    info ← get_space_info space_endpoint_url;
    ret (dict_update payload info)
  else if bool_decide (scope = "membership") then
    get_membership_info event_url
  else if bool_decide (scope = "connection") then
    get_connection_info event_url
  else if bool_decide (scope = "definition") then
    get_definition_info event_url
  else raise (UnboundLocalError "payload").

End WithWorld.
End Hookrich.

(** ** [examples/aws_lambda/post_to_destination.py] *)

Module PostToDestination.
Import Py.

Section WithWorld.
Context (W : world) (fuel : nat).

(** [_response]: the keyword arguments become the encoded body. *)
Definition _response (resp : list (string * json)) : json :=
  JObj {[ "body" := JStr (json_dumps W (JObj (dict_of resp))) ]}.

Definition post_to_destination (event_name event_url : json) : M json :=
  payload ← Hookrich.enrich_payload W fuel event_name event_url;
  let payload := <["event_name" := event_name]> payload in
  destination ← lift (getenv W "destination_url");
  emit (HttpPost destination (JObj payload));;
  match http_post_text W destination (JObj payload) with
  | Some text => lift (loads W (JStr text))
  | None => raise RequestException
  end.

(** The first [try] block. *)
Definition read_event (event : json) : outcome (json * json) :=
  raw ← getitem "body" event;
  body ← loads W raw;
  event_name ← getitem "event" body;
  Ret (body, event_name).

(** The second [try] block. *)
Definition read_event_url (body event_name : json) : outcome json :=
  entry ← table_getitem Hookrich.WEBHOOK_EVENTS event_name (str W event_name);
  field ← Hookrich.entry_getitem "url" entry;
  getitem field body.

Definition error_response (msg : string) : M json :=
  emit (LogError msg);;
  ret (_response [("result", JStr "error"); ("message", JStr msg)]).

Definition lambda_function_handler (event context : json) : M json :=
  emit (LogInfo (format W "Received payload: {}" [event]));;
  match read_event event with
  | Raise TypeError | Raise (KeyError _) =>
      error_response (format W "Invalid webhook event: {}" [event])
  | Raise e => raise e
  | Diverge => diverge
  | Ret (body, event_name) =>
      match read_event_url body event_name with
      | Raise (KeyError _) =>
          error_response (format W "Unsupported event type: {}" [event_name])
      | Raise e => raise e
      | Diverge => diverge
      | Ret event_url =>
          try_except
            (response ← post_to_destination event_name event_url;
             ret (_response [("result", JStr "success"); ("response", response)]))
            (λ _, true)
            (λ error, error_response (exn_message W error))
      end
  end.

End WithWorld.
End PostToDestination.

(** ** [examples/aws_lambda/post_to_slack.py] *)

Module PostToSlack.
Import Py.

Definition alerts_report_id : Z := 643059.
Definition alerts_field : string := "total_amt_usd".
Definition alerts_threshold : Z := 1000.

Section WithWorld.
Context (W : world) (fuel : nat).

Definition _response (resp : list (string * json)) : json :=
  JObj {[ "body" := JStr (json_dumps W (JObj (dict_of resp))) ]}.

(** [payload[a][b]] *)
Definition pget (payload : gmap string json) (a b : string) : outcome json :=
  d ← getitem a (JObj payload);
  getitem b d.

(** The single attachment every builder returns. *)
Definition attachment (message color title : string) (more : list (string * json)) : json :=
  JArr [JObj (dict_of ([
    ("fallback", JStr message);
    ("color", JStr color);
    ("author_name", JStr "Mode");
    ("author_link", JStr "https://modeanalytics.com/");
    ("title", JStr title);
    ("text", JStr message)] ++ more))].

Definition field_entry (title : string) (value : json) : json :=
  JObj (dict_of [("title", JStr title); ("value", value)]).

Definition definition_created_message (payload : gmap string json) : outcome json :=
  definition_creator ← pget payload "definition" "creator";
  definition_url ← pget payload "definition" "url";
  definition_name ← pget payload "definition" "name";
  let message := format W "{} just created the <{}|{}> definition."
                   [definition_creator; definition_url; definition_name] in
  Ret (attachment message "good" "New Definition :plus1:" []).

Definition definition_updated_message (payload : gmap string json) : outcome json :=
  definition_url ← pget payload "definition" "url";
  definition_name ← pget payload "definition" "name";
  let message := format W "The <{}|{}> definition was just updated."
                   [definition_url; definition_name] in
  Ret (attachment message "warning" "Definition Updated :heavy_exclamation_mark:" []).

Definition member_joined_organization_message (payload : gmap string json) : outcome json :=
  member_name ← pget payload "user" "name";
  member_url ← pget payload "user" "url";
  org_name ← pget payload "organization" "name";
  org_url ← pget payload "organization" "url";
  let message := format W "Say hi! <{}|{}> just joined the <{}|{}> organization."
                   [member_url; member_name; org_url; org_name] in
  Ret (attachment message "good" "New Org Member :wave:" []).

Definition new_database_connection_message (payload : gmap string json) : outcome json :=
  connection_url ← pget payload "connection" "url";
  connection_name ← pget payload "connection" "name";
  connection_vendor ← pget payload "connection" "vendor";
  connection_provider ← pget payload "connection" "provider";
  let message := format W "The <{}|{}> data source was just connected."
                   [connection_url; connection_name] in
  Ret (attachment message "good" "New Data Source :plus1:"
         [("fields", JArr [field_entry "Vendor" connection_vendor;
                           field_entry "Provider" connection_provider])]).

Definition report_created_message (payload : gmap string json) : outcome json :=
  report_url ← pget payload "report" "url";
  report_name ← pget payload "report" "name";
  report_creator ← pget payload "report" "creator";
  space_name ← pget payload "space" "name";
  space_url ← pget payload "space" "url";
  let message := format W "{} just created the <{}|{}> report in the <{}|{}> space."
                   [report_creator; report_url; report_name; space_url; space_name] in
  Ret (attachment message "good" "New Report Created :plus1:" []).

(** The [for row in ...] loop of the alert branch.  The local variable
    [attachments] is [None] while it is unbound. *)
Fixpoint alert_rows (message : string) (rows : list json) (attachments : option json)
    : outcome (option json) :=
  match rows with
  | [] => Ret attachments
  | row :: rows' =>
      observed ← getitem alerts_field row;
      n ← as_int observed;
      if alerts_threshold <? n
      then Ret (Some (attachment message "warning"
                        "Threshold Alert :heavy_exclamation_mark:"
                        [("fields", JArr [field_entry "Observed Value" observed;
                                          field_entry "Threshold Value" (JNum alerts_threshold)])]))
      else alert_rows message rows' attachments
  end.

Definition report_run_completed_message (payload : gmap string json) : outcome json :=
  report_url ← pget payload "report" "url";
  report_name ← pget payload "report" "name";
  report_run_executor ← pget payload "report_run" "executed_by";
  space_name ← pget payload "space" "name";
  space_url ← pget payload "space" "url";
  let common := [report_run_executor; report_url; report_name; space_url; space_name] in
  state ← pget payload "report_run" "state";
  watched ← (if eq_str state "succeeded"
             then id ← pget payload "report" "id"; Ret (eq_int id alerts_report_id)
             else Ret false);
  attachments ←
    (if watched : bool then
       results ← pget payload "report_run" "results";
       rows ← iter results;
       alert_rows
         (format W "Heads up! {} just ran the <{}|{}> report in the <{}|{}> space and it succeeded, but the {} field exceeded the alert threshold."
            (common ++ [JStr alerts_field]))
         rows None
     else
       state ← pget payload "report_run" "state";
       if eq_str state "succeeded" then
         report_run_duration ← pget payload "report_run" "execution_duration";
         Ret (Some (attachment
           (format W "Good news! {} just ran the <{}|{}> report in the <{}|{}> space and it succeeded. It took {} seconds to run."
              (common ++ [report_run_duration]))
           "good" "Successful Report Run :success:" []))
       else
         state ← pget payload "report_run" "state";
         if eq_str state "failed" then
           report_consecutive_run_failures ← pget payload "report" "consecutive_run_failures";
           Ret (Some (attachment
             (format W "Oh no! {} just ran the <{}|{}> report in the <{}|{}> space and it failed. It has failed the last {} run(s)."
                (common ++ [report_consecutive_run_failures]))
             "danger" "Failed Report Run :sad-error:" []))
         else Ret None);
  match attachments with
  | Some a => Ret a
  | None => Raise (UnboundLocalError "attachments")
  end.

Definition build_slack_message (event_name : json) (payload : gmap string json)
    : outcome json :=
  if eq_str event_name "report_run_completed" then report_run_completed_message payload
  else if eq_str event_name "report_created" then report_created_message payload
  else if eq_str event_name "member_joined_organization"
       then member_joined_organization_message payload
  else if eq_str event_name "definition_created" then definition_created_message payload
  else if eq_str event_name "definition_updated" then definition_updated_message payload
  else if eq_str event_name "new_database_connection"
       then new_database_connection_message payload
  else Raise (Exception (format W "Unsupported event type: {}" [event_name])).

Definition post_to_slack (event_name event_url : json) : M string :=
  payload ← Hookrich.enrich_payload W fuel event_name event_url;
  let payload := <["event_name" := event_name]> payload in
  slack_attachments ← lift (build_slack_message event_name payload);
  let slack_payload :=
    JObj (dict_of [("attachments", slack_attachments); ("username", JStr "Mode")]) in
  hook ← lift (getenv W "slack_webhook_url");
  emit (HttpPost hook slack_payload);;
  match http_post_text W hook slack_payload with
  | Some text => ret text
  | None => raise RequestException
  end.

Definition read_event (event : json) : outcome (json * json) :=
  raw ← getitem "body" event;
  body ← loads W raw;
  event_name ← getitem "event" body;
  Ret (body, event_name).

Definition read_event_url (body event_name : json) : outcome json :=
  entry ← table_getitem Hookrich.WEBHOOK_EVENTS event_name (str W event_name);
  field ← Hookrich.entry_getitem "url" entry;
  getitem field body.

Definition error_response (msg : string) : M json :=
  emit (LogError msg);;
  ret (_response [("result", JStr "error"); ("message", JStr msg)]).

Definition lambda_function_handler (event context : json) : M json :=
  emit (LogInfo (format W "Received payload {}" [event]));;
  match read_event event with
  | Raise TypeError | Raise (KeyError _) =>
      error_response (format W "Invalid webhook event: {}" [event])
  | Raise e => raise e
  | Diverge => diverge
  | Ret (body, event_name) =>
      match read_event_url body event_name with
      | Raise (KeyError _) =>
          error_response (format W "Unsupported event type: {}" [event_name])
      | Raise e => raise e
      | Diverge => diverge
      | Ret event_url =>
          try_except
            (response ← post_to_slack event_name event_url;
             ret (_response [("result", JStr "success"); ("response", JStr response)]))
            (λ _, true)
            (λ error, error_response (exn_message W error))
      end
  end.

End WithWorld.
End PostToSlack.

(** ** [examples/aws_lambda/log_usage_csv.py]

    Nothing in the repository says which interpreter runs this module, and
    its line 45 behaves differently under the two.  Under Python 2 [encode]
    gives a byte string, on which [replace] with text arguments works, and
    [str] of a text encodes it as ASCII and fails on any other character.
    Under Python 3 [encode] gives a [bytes] object, whose [replace] refuses
    text arguments with a [TypeError], and [str] never fails.  The
    interpreter is a parameter of the model.  A cell is the byte string that
    [encode] returns; how [csv] would write a [bytes] cell under Python 3
    plays no part, since no row is ever complete there. *)

Module LogUsageCsv.
Import Py.

Inductive interpreter := Python2 | Python3.

(** The line feed character. *)
Definition nl : string := String "010"%char "".

Definition columns_list : list string :=
  ["query_token"; "state"; "created_at"; "completed_at"; "raw_source"; "parameters"].

(** [text.encode("utf-8").replace('\n', ' ').replace('    ', '')] *)
Definition clean_source (text : string) : string :=
  replace "    " "" (replace nl " " text).

Definition is_ascii (s : string) : bool :=
  forallb (λ c, (nat_of_ascii c <? 128)%nat) (list_ascii_of_string s).

Section WithWorld.
Context (W : world) (py : interpreter).

(** The module reads [token] and [password] from the environment when it is
    imported. *)
Definition module_globals : outcome (string * string) :=
  token ← getenv W "api_token";
  password ← getenv W "api_password";
  Ret (token, password).

(** [str(v).encode("utf-8")]; the result is the byte string. *)
Definition str_encoded (v : json) : outcome string :=
  match py, v with
  | Python2, JStr s => if is_ascii s then Ret s else Raise UnicodeEncodeError
  | _, _ => Ret (str W v)
  end.

(** [text.encode("utf-8").replace(a, b)] for texts [a] and [b]: the
    replacement under Python 2, a [TypeError] under Python 3. *)
Definition encoded_replace (result : string) : outcome string :=
  match py with
  | Python2 => Ret result
  | Python3 => Raise TypeError
  end.

(** One cell of the list comprehension; a value without [encode] is an
    [AttributeError]. *)
Definition cell (query : json) (col : string) : outcome string :=
  if bool_decide (col = "raw_source") then
    v ← getitem col query;
    match v with
    | JStr text => encoded_replace (clean_source text)
    | _ => Raise AttributeError
    end
  else
    v ← getitem col query;
    str_encoded v.

Fixpoint cells (query : json) (cols : list string) : outcome (list string) :=
  match cols with
  | [] => Ret []
  | col :: cols' =>
      c ← cell query col;
      cs ← cells query cols';
      Ret (c :: cs)
  end.

(** The [for query in ...] loop; [data] is the list being appended to. *)
Fixpoint rows_of (queries : list json) (data : list (list string))
    : outcome (list (list string)) :=
  match queries with
  | [] => Ret data
  | query :: queries' =>
      row ← cells query columns_list;
      rows_of queries' (data ++ [row])
  end.

Definition get_queries_info (run_url : json) : M (list (list string)) :=
  query_runs_url ← lift (match run_url with
                         | JStr u => Ret (u +:+ "/query_runs")
                         | _ => Raise TypeError
                         end);
  emit (HttpGet query_runs_url);;
  queries_res ← match http_get_json W query_runs_url with
                | Some body => ret body
                | None => raise RequestException
                end;
  lift (embedded ← getitem "_embedded" queries_res;
        query_runs ← getitem "query_runs" embedded;
        queries ← iter query_runs;
        rows_of queries []).

Fixpoint log_to_csv (queries_info : list (list string)) : M unit :=
  match queries_info with
  | [] => ret tt
  | line :: rest => emit (CsvWriteRow "file_name.csv" line);; log_to_csv rest
  end.

Definition lambda_handler (event context : json) : M json :=
  body ← lift (raw ← dict_get "body" (JStr "{}") event; loads W raw);
  event_name ← lift (dict_get "event" (JStr "") body);
  run_url ← lift (dict_get "report_run_url" (JStr "") body);
  (if eq_str event_name "report_run_completed"
   then queries_info ← get_queries_info run_url; log_to_csv queries_info
   else ret tt);;
  ret (JObj {[ "body" := JStr "success" ]}).

End WithWorld.
End LogUsageCsv.

(** ** A sample deployment

    One concrete [world]: an organisation [acme] with a report whose run
    history has two pages, a membership, a data source and a definition,
    together with a small JSON decoder.  The examples and the instances of
    the general theorems below are evaluated in it. *)

Module Sample.
Import Py.

(** The double quote character. *)
Definition dq : ascii := "034"%char.
Definition quoted (s : string) : string := String dq (s +:+ String dq "").

(** *** A decoder for JSON texts without escapes, fractions or exponents *)

Fixpoint skip_ws (s : string) : string :=
  match s with
  | String c s' =>
      if bool_decide (c = " "%char) || bool_decide (c = "010"%char)
         || bool_decide (c = "009"%char) || bool_decide (c = "013"%char)
      then skip_ws s' else s
  | "" => ""
  end.

(** The characters up to the closing quote. *)
Fixpoint parse_chars (s : string) : option (string * string) :=
  match s with
  | "" => None
  | String c s' =>
      if bool_decide (c = dq) then Some ("", s')
      else if bool_decide (c = "\"%char) then None
      else '(t, rest) ← parse_chars s'; Some (String c t, rest)
  end.

Fixpoint parse_digits (s : string) : string * string :=
  match s with
  | String c s' =>
      if digit c then let '(d, rest) := parse_digits s' in (String c d, rest)
      else ("", s)
  | "" => ("", "")
  end.

Definition parse_number (s : string) : option (json * string) :=
  let '(neg, s1) := match s with
                    | String "-" s' => (true, s')
                    | _ => (false, s)
                    end in
  let '(d, rest) := parse_digits s1 in
  if bool_decide (d = "") then None
  else Some (JNum (if neg : bool then - int_of d else int_of d), rest).

Definition parse_literal (s : string) : option (json * string) :=
  if startswith "true" s then Some (JBool true, str_drop 4 s)
  else if startswith "false" s then Some (JBool false, str_drop 5 s)
  else if startswith "null" s then Some (JNull, str_drop 4 s)
  else parse_number s.

Fixpoint parse_value (n : nat) (s : string) : option (json * string) :=
  match n with
  | O => None
  | S n' =>
      match skip_ws s with
      | String "{" s1 =>
          match skip_ws s1 with
          | String "}" s2 => Some (JObj ∅, s2)
          | s2 => parse_members n' s2 ∅
          end
      | String "[" s1 =>
          match skip_ws s1 with
          | String "]" s2 => Some (JArr [], s2)
          | s2 => parse_elements n' s2 []
          end
      | String c s1 =>
          if bool_decide (c = dq)
          then '(t, rest) ← parse_chars s1; Some (JStr t, rest)
          else parse_literal (String c s1)
      | "" => None
      end
  end
with parse_members (n : nat) (s : string) (acc : gmap string json)
    : option (json * string) :=
  match n with
  | O => None
  | S n' =>
      match skip_ws s with
      | String c s1 =>
          if bool_decide (c = dq) then
            '(k, s2) ← parse_chars s1;
            match skip_ws s2 with
            | String ":" s3 =>
                '(v, s4) ← parse_value n' s3;
                match skip_ws s4 with
                | String "," s5 => parse_members n' s5 (<[k := v]> acc)
                | String "}" s5 => Some (JObj (<[k := v]> acc), s5)
                | _ => None
                end
            | _ => None
            end
          else None
      | "" => None
      end
  end
with parse_elements (n : nat) (s : string) (acc : list json)
    : option (json * string) :=
  match n with
  | O => None
  | S n' =>
      '(v, s1) ← parse_value n' s;
      match skip_ws s1 with
      | String "," s2 => parse_elements n' s2 (acc ++ [v])
      | String "]" s2 => Some (JArr (acc ++ [v]), s2)
      | _ => None
      end
  end.

Definition decode (s : string) : option json :=
  '(v, rest) ← parse_value (S (String.length s)) s;
  if bool_decide (skip_ws rest = "") then Some v else None.

(** *** Encoders, enough for the outbound error and success bodies *)

Definition show_atom (v : json) : string :=
  match v with
  | JStr s => quoted s
  | JNum n => pretty n
  | JBool true => "true"
  | JBool false => "false"
  | JNull => "null"
  | JArr _ => "[...]"
  | JObj _ => "{...}"
  end.

Definition encode (v : json) : string :=
  match v with
  | JObj m =>
      "{" +:+ join ", " ((λ kv, quoted kv.1 +:+ ": " +:+ show_atom kv.2) <$> map_to_list m) +:+ "}"
  | JArr l => "[" +:+ join ", " (show_atom <$> l) +:+ "]"
  | _ => show_atom v
  end.

Definition message_of (e : exn) : string :=
  match e with
  | KeyError k => "'" +:+ k +:+ "'"
  | IndexError => "list index out of range"
  | TypeError => "unsupported operand"
  | ValueError => "invalid value"
  | AttributeError => "object has no such attribute"
  | UnboundLocalError name =>
      "local variable '" +:+ name +:+ "' referenced before assignment"
  | UnicodeEncodeError => "'ascii' codec can't encode character"
  | RequestException => "request failed"
  | Exception msg => msg
  end.

(** *** The documents served by the platform *)

Definition obj (items : list (string * json)) : json := JObj (dict_of items).
Definition href (h : string) : json := obj [("href", JStr h)].
Definition fields_of (keys : list string) (v : json) : list (string * json) :=
  (λ k, (k, v)) <$> keys.

Definition run_url : string := "https://modeanalytics.com/api/acme/reports/r1/runs/run1".
Definition report_address : string := "https://modeanalytics.com/api/acme/reports/r1".
Definition space_address : string := "https://modeanalytics.com/api/acme/spaces/sp1".
Definition member_url : string :=
  "https://modeanalytics.com/api/acme/memberships/m1?embed[user]".
Definition connection_address : string :=
  "https://modeanalytics.com/api/acme/data_sources/ds1".
Definition definition_address : string :=
  "https://modeanalytics.com/api/acme/definitions/d1".

Definition report_run_doc (state : string) : json :=
  obj [("_links", obj [("executed_by", href "/api/alice");
                       ("account", href "/api/acme");
                       ("share", href "/api/acme/reports/r1/runs/run1/share");
                       ("report", href "/api/acme/reports/r1");
                       ("query_runs", href "/api/acme/reports/r1/runs/run1/query_runs");
                       ("python_cell_runs", href "/api/acme/reports/r1/runs/run1/python_cell_runs");
                       ("web_external_url",
                          href "https://modeanalytics.com/acme/reports/r1/runs/run1?run=now")]);
       ("state", JStr state);
       ("parameters", obj []);
       ("python_state", JStr "none");
       ("created_at", JStr "2020-01-01T00:00:00.000000Z");
       ("completed_at", JStr "2020-01-01T00:00:10.000000Z");
       ("form_fields", JArr []);
       ("token", JStr "run1")].

Definition results_doc : json :=
  JArr [obj [("total_amt_usd", JNum 500)]; obj [("total_amt_usd", JNum 900)]].

Definition report_doc : json :=
  obj ([("name", JStr "Revenue"); ("id", JNum 643059);
        ("_links", obj [("creator", href "/api/bob");
                        ("self", href "/api/acme/reports/r1");
                        ("report_schedules", href "/api/acme/reports/r1/schedules");
                        ("report_subscriptions", href "/api/acme/reports/r1/subscriptions")]);
        ("space_token", JStr "sp1")]
       ++ fields_of ["created_at"; "edited_at"; "last_successfully_run_at"; "last_run_at"]
            (JStr "2020-01-01T00:00:00.000000Z")
       ++ fields_of ["theme_id"; "account_id"] (JNum 7)
       ++ fields_of ["archived"; "full_width"; "manual_run_disabled"; "run_privately";
                     "is_embedded"; "is_signed"; "shared"; "public"] (JBool false)
       ++ fields_of ["account_username"; "last_successful_run_token"; "description";
                     "web_preview_image"] (JStr "acme")).

Definition run (state : string) : json := obj [("state", JStr state)].

Definition runs_page (page total_pages : Z) (runs : list json) (next : option string) : json :=
  obj ([("pagination", obj [("page", JNum page); ("total_pages", JNum total_pages)]);
        ("_embedded", obj [("report_runs", JArr runs)])]
       ++ match next with
          | Some h => [("_links", obj [("next_page", href h)])]
          | None => [("_links", obj [])]
          end).

Definition runs_page_1 : json :=
  runs_page 1 2 [run "failed"; run "failed"] (Some "api/acme/reports/r1/runs?page=2").
Definition runs_page_2 : json :=
  runs_page 2 2 [run "failed"; run "succeeded"; run "failed"] None.

Definition space_doc : json :=
  obj [("id", JNum 11); ("name", JStr "Finance"); ("space_type", JStr "custom");
       ("description", JStr ""); ("state", JStr "active");
       ("_links", obj [("self", href "/api/acme/spaces/sp1")]);
       ("restricted", JBool false)].

Definition membership_doc : json :=
  obj [("admin", JBool false); ("limited", JBool false);
       ("_links", obj [("organization", href "/api/acme");
                       ("user", href "/api/alice");
                       ("self", href "/api/acme/memberships/m1")])].

Definition user_doc : json :=
  obj ([("id", JNum 3); ("email", JStr "alice@example.com")]
       ++ fields_of ["name"; "token"; "user"; "username"] (JStr "alice")).

Definition org_doc : json :=
  obj (fields_of ["id"; "private_definition_count"; "private_definition_limit";
                  "space_count"] (JNum 5)
       ++ fields_of ["name"; "token"; "user"; "username"; "plan_code"; "trial_state"]
            (JStr "acme")).

Definition connection_doc : json :=
  obj (fields_of ["id"; "account_id"; "default_for_organization_id"; "port"] (JNum 5432)
       ++ fields_of ["asleep"; "bridged"; "default"; "has_expensive_schema_updates";
                     "ldap"; "public"; "queryable"; "ssl"] (JBool false)
       ++ fields_of ["name"; "account_username"; "adapter"; "created_at";
                     "custom_attributes"; "database"; "description"; "display_name";
                     "host"; "organization_token"; "provider"; "token"; "updated_at";
                     "username"; "vendor"; "warehouse"] (JStr "pg")).

Definition definition_doc : json :=
  obj ([("id", JNum 9); ("data_source_id", JNum 5432);
        ("_links", obj [("creator", href "/api/bob")])]
       ++ fields_of ["name"; "created_at"; "description"; "source"] (JStr "select 1")
       ++ [("token", JStr "d1")]).

Definition query_runs_doc : json :=
  obj [("_embedded", obj [("query_runs",
     JArr [obj [("query_token", JStr "q1"); ("state", JStr "succeeded");
                ("created_at", JStr "2020-01-01T00:00:00.000000Z");
                ("completed_at", JStr "2020-01-01T00:00:10.000000Z");
                ("raw_source", JStr ("select a,  b" +:+ LogUsageCsv.nl +:+ "    from t"));
                ("parameters", JNull)]])])].

(** The platform: a table from address to document. *)
Definition documents (run_state : string) : gmap string json :=
  dict_of [
    (run_url, report_run_doc run_state);
    (run_url +:+ "/results/content.json", results_doc);
    (run_url +:+ "/query_runs", query_runs_doc);
    (report_address, report_doc);
    (report_address +:+ "/runs", runs_page_1);
    ("https://modeanalytics.com/api/acme/reports/r1/runs?page=2", runs_page_2);
    (space_address, space_doc);
    ("https://modeanalytics.com/api/acme/memberships/m1", membership_doc);
    ("https://modeanalytics.com/api/alice", user_doc);
    ("https://modeanalytics.com/api/acme", org_doc);
    (connection_address, connection_doc);
    (definition_address, definition_doc)
  ].

Definition sample_world (run_state : string) : world := {|
  environ := dict_of_strings [("api_token", "t0k3n"); ("api_password", "s3cr3t");
                              ("destination_url", "https://example.com/hook");
                              ("slack_webhook_url", "https://hooks.slack.com/services/T/B/X")];
  http_get_json := λ u, documents run_state !! u;
  http_post_text := λ _ _, Some "ok";
  json_loads := decode;
  json_dumps := encode;
  repr := encode;
  exn_message := message_of
|}.

(** A report with a long run history: [count] pages of one failed run each,
    every page announcing [total] pages. *)
Definition history_address (k : nat) : string :=
  match k with
  | 1%nat => report_address +:+ "/runs"
  | _ => "https://modeanalytics.com/api/acme/reports/r1/runs?page=" +:+ pretty k
  end.

Definition history_page (total : Z) (k : nat) : json :=
  runs_page (Z.of_nat k) total [run "failed"]
    (Some ("api/acme/reports/r1/runs?page=" +:+ pretty (S k))).

Definition history (total : Z) (count : nat) : list json :=
  history_page total <$> seq 1 count.

Definition long_history_world (total : Z) (count : nat) : world := {|
  environ := environ (sample_world "failed");
  http_get_json := λ u,
    dict_of ((λ k, (history_address k, history_page total k)) <$> seq 1 count) !! u;
  http_post_text := λ _ _, Some "ok";
  json_loads := decode;
  json_dumps := encode;
  repr := encode;
  exn_message := message_of
|}.

(** The payload [enrich_payload] builds for a completed run of the sample
    report, with the [event_name] the dispatchers add. *)
Definition run_completed_payload (run_state : string) : gmap string json :=
  match (Hookrich.enrich_payload (sample_world run_state) 10
           (JStr "report_run_completed") (JStr run_url) []).1 with
  | Ret payload => <["event_name" := JStr "report_run_completed"]> payload
  | _ => ∅
  end.

(** A webhook event as the Lambda host passes it. *)
Definition event_with_body (body : string) : json := obj [("body", JStr body)].

Definition run_completed_body : string :=
  "{" +:+ quoted "event" +:+ ": " +:+ quoted "report_run_completed" +:+ ", "
      +:+ quoted "report_run_url" +:+ ": " +:+ quoted run_url +:+ "}".

End Sample.

(** ** Notions used to state the properties *)

Module Spec.
Import Py.

(** Position of the first occurrence of [sub] in [s]. *)
Fixpoint find (sub s : string) : option nat :=
  if startswith sub s then Some O
  else match s with
       | "" => None
       | String _ s' => S <$> find sub s'
       end.

(** The text before the first occurrence of [sub], all of [s] when there is
    none. *)
Definition before (sub s : string) : string :=
  match find sub s with
  | Some i => str_take i s
  | None => s
  end.

(** The text after the first occurrence of [sub], if there is one. *)
Definition after (sub s : string) : option string :=
  match find sub s with
  | Some i => Some (str_drop (i + String.length sub) s)
  | None => None
  end.

(** A query-run record of the platform, by the six columns the logger
    reads: the texts of five of them as [str] gives them, and the source
    text. *)
Record query_run := mk_query_run {
  query_token : string;
  state : string;
  created_at : string;
  completed_at : string;
  raw_source : string;
  parameters : string
}.

(** The document [q] carries the record [r], the module read as Python 2:
    the five columns that go through [str] as it gives them there. *)
Definition carries (W : world) (q : json) (r : query_run) : Prop :=
  ∃ m, q = JObj m
     ∧ (∃ v, m !! "query_token" = Some v ∧ LogUsageCsv.str_encoded W LogUsageCsv.Python2 v = Ret (query_token r))
     ∧ (∃ v, m !! "state" = Some v ∧ LogUsageCsv.str_encoded W LogUsageCsv.Python2 v = Ret (state r))
     ∧ (∃ v, m !! "created_at" = Some v ∧ LogUsageCsv.str_encoded W LogUsageCsv.Python2 v = Ret (created_at r))
     ∧ (∃ v, m !! "completed_at" = Some v
             ∧ LogUsageCsv.str_encoded W LogUsageCsv.Python2 v = Ret (completed_at r))
     ∧ m !! "raw_source" = Some (JStr (raw_source r))
     ∧ (∃ v, m !! "parameters" = Some v ∧ LogUsageCsv.str_encoded W LogUsageCsv.Python2 v = Ret (parameters r)).

(** The row written for a record, the module read as Python 2. *)
Definition row (r : query_run) : list string :=
  [query_token r; state r; created_at r; completed_at r;
   LogUsageCsv.clean_source (raw_source r); parameters r].

(** Microseconds from the start of day 0 of the proleptic calendar. *)
Definition epoch_microseconds (t : datetime) : Z :=
  (toordinal t * 86400 + hour t * 3600 + minute t * 60 + second t) * 1000000
  + microsecond t.

(** The whole number of seconds from [a] to [b]. *)
Definition whole_seconds_between (a b : datetime) : Z :=
  (epoch_microseconds b - epoch_microseconds a) / 1000000.

(** A page of run history carries the runs with the given states. *)
Definition has_runs (page : json) (states : list string) : Prop :=
  ∃ runs,
    (embedded ← getitem "_embedded" page; getitem "report_runs" embedded) = Ret (JArr runs)
    ∧ Forall2 (λ r s, getitem "state" r = Ret (JStr s)) runs states.

Definition succeeded (s : string) : bool := bool_decide (s = "succeeded").

(** The runs of a page before its first success. *)
Fixpoint failures_before_success (states : list string) : Z :=
  match states with
  | [] => 0
  | s :: states' => if succeeded s then 0 else 1 + failures_before_success states'
  end.

(** The count as the specification words it: a page without success adds
    all its runs and the walk goes on; a page with a success adds the runs
    before that success and ends the walk. *)
Fixpoint spec_consecutive_failures (pages : list (list string)) : Z :=
  match pages with
  | [] => 0
  | p :: pages' =>
      if existsb succeeded p then failures_before_success p
      else Z.of_nat (length p) + spec_consecutive_failures pages'
  end.

(** The count of whole pages without success that precede the first page
    with one. *)
Fixpoint whole_failed_pages (pages : list (list string)) : Z :=
  match pages with
  | [] => 0
  | p :: pages' =>
      if existsb succeeded p then 0
      else Z.of_nat (length p) + whole_failed_pages pages'
  end.

(** The page number a page of run history reports. *)
Definition page_number (page : json) : outcome json :=
  pagination ← getitem "pagination" page; getitem "page" pagination.

(** The number of pages a page of run history reports. *)
Definition total_pages (page : json) : outcome json :=
  pagination ← getitem "pagination" page; getitem "total_pages" pagination.

(** The address behind the [next_page] link of a page. *)
Definition next_address (page : json) : outcome string :=
  links ← getitem "_links" page;
  next_page ← getitem "next_page" links;
  href ← getitem "href" next_page;
  Hookrich.base_plus href.

(** The platform serves [pages] one after the other from address [u]: each
    is the document behind the [next_page] link of the one before, and the
    [k]-th reports page number [k]. *)
Fixpoint serves (W : world) (u : string) (k : Z) (pages : list json) : Prop :=
  match pages with
  | [] => True
  | page :: pages' =>
      http_get_json W u = Some page
      ∧ page_number page = Ret (JNum k)
      ∧ match pages' with
        | [] => True
        | _ => ∃ u', next_address page = Ret u' ∧ serves W u' (k + 1) pages'
        end
  end.

(** The addresses of the pages served from [u]. *)
Fixpoint addresses (u : string) (pages : list json) : list string :=
  match pages with
  | [] => []
  | page :: pages' =>
      u :: match next_address page with
           | Ret u' => addresses u' pages'
           | _ => []
           end
  end.












(** The five fields every branch of [report_run_completed_message] reads
    first. *)
Definition has_common_fields (payload : gmap string json) : Prop :=
  (∃ x, PostToSlack.pget payload "report" "url" = Ret x)
  ∧ (∃ x, PostToSlack.pget payload "report" "name" = Ret x)
  ∧ (∃ x, PostToSlack.pget payload "report_run" "executed_by" = Ret x)
  ∧ (∃ x, PostToSlack.pget payload "space" "name" = Ret x)
  ∧ (∃ x, PostToSlack.pget payload "space" "url" = Ret x).

(** The characters of a text. *)
Definition chars (s : string) : list ascii := list_ascii_of_string s.

End Spec.

(** ** Notions for the properties of the dispatchers *)

Module Traces.
Import Py.

(** A computation that sends GET requests and does nothing else, whatever
    its outcome. *)
Definition only_gets {A} (m : M A) : Prop :=
  ∀ tr, ∃ urls, (m tr).2 = tr ++ (HttpGet <$> urls).

(** A computation that raises before doing anything. *)
Definition fails_first {A} (m : M A) : Prop := ∀ tr, ∃ e, m tr = (Raise e, tr).

(** The values of the fields every branch of the run message reads first. *)
Definition common_fields (payload : gmap string json)
    (executor url name space_url space_name : json) : Prop :=
  PostToSlack.pget payload "report" "url" = Ret url
  ∧ PostToSlack.pget payload "report" "name" = Ret name
  ∧ PostToSlack.pget payload "report_run" "executed_by" = Ret executor
  ∧ PostToSlack.pget payload "space" "name" = Ret space_name
  ∧ PostToSlack.pget payload "space" "url" = Ret space_url.

End Traces.

(** ** The fields of the enriched payload *)

Module Fields.
Import Py.

(** [payload[name]] is an object with exactly the fields [fields]. *)
Definition holds (payload : gmap string json) (name : string) (fields : list string)
    : Prop :=
  ∃ inner, payload !! name = Some (JObj inner) ∧ dom inner = list_to_set fields.

Definition report_run_fields : list string :=
  ["executed_by"; "account"; "share"; "report"; "query_runs"; "python_cell_runs";
   "state"; "parameters"; "python_state"; "created_at"; "completed_at";
   "form_fields"; "execution_duration"; "token"; "results"; "url"].

Definition report_fields : list string :=
  ["name"; "id"; "creator"; "created_at"; "edited_at"; "theme_id"; "archived";
   "account_id"; "account_username"; "full_width"; "manual_run_disabled";
   "run_privately"; "is_embedded"; "is_signed"; "shared";
   "last_successfully_run_at"; "consecutive_run_failures";
   "last_successful_run_token"; "last_run_at"; "description"; "report_schedules";
   "report_subscriptions"; "public"; "url"; "space_token"; "web_preview_image"].

Definition space_fields : list string :=
  ["id"; "name"; "space_type"; "description"; "state"; "url"; "restricted"].

Definition definition_fields : list string :=
  ["id"; "name"; "created_at"; "data_source_id"; "description"; "source"; "token";
   "creator"; "url"].

Definition connection_fields : list string :=
  ["id"; "name"; "account_id"; "account_username"; "adapter"; "asleep"; "bridged";
   "created_at"; "custom_attributes"; "database"; "default";
   "default_for_organization_id"; "description"; "display_name";
   "has_expensive_schema_updates"; "host"; "ldap"; "organization_token"; "port";
   "provider"; "public"; "queryable"; "ssl"; "token"; "updated_at"; "username";
   "vendor"; "warehouse"; "url"].

Definition organization_fields : list string :=
  ["id"; "name"; "token"; "user"; "username"; "plan_code";
   "private_definition_count"; "private_definition_limit"; "space_count";
   "trial_state"; "url"].

Definition user_fields : list string :=
  ["email"; "email_verified"; "id"; "name"; "token"; "user"; "username"; "url"].

Definition membership_fields : list string := ["admin"; "limited"; "token"].

(** The objects of the enriched payload and their fields, by scope. *)
Definition scope_fields (scope : string) : list (string * list string) :=
  if bool_decide (scope = "report_run")
  then [("report_run", report_run_fields); ("report", report_fields);
        ("space", space_fields)]
  else if bool_decide (scope = "report")
  then [("report", report_fields); ("space", space_fields)]
  else if bool_decide (scope = "membership")
  then [("membership", membership_fields); ("user", user_fields);
        ("organization", organization_fields)]
  else if bool_decide (scope = "connection") then [("connection", connection_fields)]
  else if bool_decide (scope = "definition") then [("definition", definition_fields)]
  else [].

End Fields.

(** ** Further sample cases *)

Module Cases.
Import Py.

(** The sample deployment with an empty environment. *)
Definition bare_world : world := {|
  environ := ∅;
  http_get_json := http_get_json (Sample.sample_world "succeeded");
  http_post_text := λ _ _, Some "ok";
  json_loads := Sample.decode;
  json_dumps := Sample.encode;
  repr := Sample.encode;
  exn_message := Sample.message_of
|}.

(** A platform that numbers the pages of a run history from 0: the page
    at the [k]-th address reports page number [k - 1]. *)
Definition zero_based_page (total : Z) (k : nat) : json :=
  Sample.runs_page (Z.of_nat k - 1) total [Sample.run "failed"]
    (Some ("api/acme/reports/r1/runs?page=" +:+ pretty (S k))).

Definition zero_based_world (total : Z) (count : nat) : world := {|
  environ := environ (Sample.sample_world "failed");
  http_get_json := λ u,
    dict_of ((λ k, (Sample.history_address k, zero_based_page total k)) <$> seq 1 count)
      !! u;
  http_post_text := λ _ _, Some "ok";
  json_loads := Sample.decode;
  json_dumps := Sample.encode;
  repr := Sample.encode;
  exn_message := Sample.message_of
|}.

(** The body of a webhook event whose [event] field is the JSON text
    [event]. *)
Definition body_of (event : string) : string :=
  "{" +:+ Sample.quoted "event" +:+ ": " +:+ event +:+ "}".

Definition deleted_body : string := body_of (Sample.quoted "report_deleted").
Definition created_body : string := body_of (Sample.quoted "report_created").
Definition list_body : string := body_of "[1]".

(** The object a body decodes to. *)
Definition decoded (body : string) : gmap string json :=
  match Sample.decode body with
  | Some (JObj m) => m
  | _ => ∅
  end.

(** A row of results. *)
Definition amount (n : Z) : json := Sample.obj [("total_amt_usd", JNum n)].

(** An enriched payload of a completed run, reduced to the fields the
    message builder reads. *)
Definition run_payload (id : Z) (state : string) (rows : list json) : gmap string json :=
  dict_of [
    ("report", Sample.obj [("url", JStr "https://modeanalytics.com/acme/reports/r1");
                           ("name", JStr "Revenue");
                           ("id", JNum id);
                           ("consecutive_run_failures", JNum 2)]);
    ("report_run", Sample.obj [("executed_by", JStr "alice");
                               ("state", JStr state);
                               ("execution_duration", JNum 10);
                               ("results", JArr rows)]);
    ("space", Sample.obj [("name", JStr "Finance");
                          ("url", JStr "https://modeanalytics.com/acme/spaces/sp1")])
  ].

End Cases.

(** * Properties *)

(** ** Strings: [split] against first occurrences *)

Section Strings.
Import Py Spec.
#[local] Arguments startswith : simpl never.

Lemma startswith_nil_l s : startswith "" s = true.
Proof. by destruct s. Qed.

Lemma startswith_cons a p b s :
  startswith (String a p) (String b s) = bool_decide (a = b) && startswith p s.
Proof.
  unfold startswith; simpl.
  destruct (Ascii.ascii_dec a b) as [->|Hne].
  - by rewrite bool_decide_eq_true_2.
  - by rewrite bool_decide_eq_false_2.
Qed.

Lemma app_cons a p s : String a p +:+ s = String a (p +:+ s).
Proof. done. Qed.

Lemma startswith_app p s : startswith p (p +:+ s) = true.
Proof.
  induction p as [|a p IH]; [apply startswith_nil_l|].
  rewrite app_cons, startswith_cons, IH. by rewrite bool_decide_eq_true_2.
Qed.

Lemma startswith_split p s :
  startswith p s = true → s = p +:+ str_drop (String.length p) s.
Proof.
  revert s. induction p as [|a p IH]; intros [|b s]; try done.
  rewrite startswith_cons. intros [Hab Hp]%andb_prop.
  apply bool_decide_eq_true_1 in Hab as ->.
  rewrite app_cons. simpl. f_equal. by apply IH.
Qed.

Lemma startswith_nil_r p : p ≠ "" → startswith p "" = false.
Proof. by destruct p. Qed.

Lemma str_take_drop n s : str_take n s +:+ str_drop n s = s.
Proof.
  revert s. induction n as [|n IH]; intros [|c s]; try done.
  simpl. by rewrite app_cons, IH.
Qed.

Lemma find_None_contains sub s : find sub s = None ↔ contains sub s = false.
Proof.
  induction s as [|c s IH]; simpl.
  - destruct (startswith sub ""); simpl; split; congruence.
  - destruct (startswith sub (String c s)); simpl; [split; congruence|].
    rewrite <- IH. destruct (find sub s); simpl; split; congruence.
Qed.

(** The first occurrence cuts the text in three. *)
Lemma find_Some_split sub s i :
  find sub s = Some i →
  s = str_take i s +:+ sub +:+ str_drop (i + String.length sub) s.
Proof.
  revert i. induction s as [|c s IH]; intros i; simpl.
  - destruct (startswith sub "") eqn:E; [|done].
    intros [= <-]. by apply startswith_split in E.
  - destruct (startswith sub (String c s)) eqn:E.
    + intros [= <-]. by apply startswith_split in E.
    + destruct (find sub s) as [j|]; [|done]. intros [= <-].
      simpl. rewrite app_cons. f_equal. by apply IH.
Qed.

Lemma startswith_take p n s :
  startswith p (str_take n s) = true → startswith p s = true.
Proof.
  revert n s. induction p as [|a p IH]; intros n s; [intros _; apply startswith_nil_l|].
  destruct n as [|n], s as [|b s]; try done.
  simpl str_take. rewrite !startswith_cons.
  intros [-> Hp]%andb_prop. simpl. by eapply IH.
Qed.

(** There is no occurrence before the first one. *)
Lemma find_take_first sub s i :
  sub ≠ "" → find sub s = Some i → find sub (str_take i s) = None.
Proof.
  intros Hsub. revert i. induction s as [|c s IH]; intros i; simpl.
  - by rewrite startswith_nil_r.
  - destruct (startswith sub (String c s)) eqn:E.
    + intros [= <-]. simpl. by rewrite startswith_nil_r.
    + destruct (find sub s) as [j|] eqn:Hj; [|done]. intros [= <-].
      simpl. rewrite (IH j eq_refl).
      destruct (startswith sub (String c (str_take j s))) eqn:E'; [|done].
      apply (startswith_take sub (S j) (String c s)) in E'. congruence.
Qed.

(** A prefix of a text without occurrence has none. *)
Lemma find_take_None sub s n :
  sub ≠ "" → find sub s = None → find sub (str_take n s) = None.
Proof.
  intros Hsub. revert n. induction s as [|c s IH]; intros n; simpl.
  - destruct n; simpl; by rewrite startswith_nil_r.
  - destruct (startswith sub (String c s)) eqn:E; [done|].
    destruct (find sub s) eqn:Hj; [done|]. intros _.
    destruct n as [|n]; simpl; [by rewrite startswith_nil_r|].
    rewrite (IH n eq_refl).
    destruct (startswith sub (String c (str_take n s))) eqn:E'; [|done].
    apply (startswith_take sub (S n) (String c s)) in E'. congruence.
Qed.

Lemma before_app_after sub s rest :
  after sub s = Some rest → s = before sub s +:+ sub +:+ rest.
Proof.
  unfold after, before. destruct (find sub s) as [i|] eqn:E; [|done].
  intros [= <-]. by apply find_Some_split.
Qed.

Lemma before_clean sub s : sub ≠ "" → contains sub (before sub s) = false.
Proof.
  intros Hsub. apply find_None_contains. unfold before.
  destruct (find sub s) as [i|] eqn:E; [by apply find_take_first|done].
Qed.

Lemma before_clean_other sub sub' s :
  sub ≠ "" → contains sub s = false → contains sub (before sub' s) = false.
Proof.
  intros Hsub Hs%find_None_contains. apply find_None_contains. unfold before.
  destruct (find sub' s); [by apply find_take_None|done].
Qed.

Lemma split_go_skip sep n skip s :
  split_go sep n skip s = split_go sep n 0 (str_drop skip s).
Proof.
  revert skip. induction s as [|c s IH]; intros [|k]; try done. simpl. apply IH.
Qed.

Lemma split_go_more sep n skip s :
  (String.length s - skip ≤ n)%nat →
  split_go sep (S n) skip s = split_go sep n skip s.
Proof.
  revert n skip. induction s as [|c s IH]; intros n skip Hn; [done|].
  destruct skip as [|k]; simpl in *.
  - destruct n as [|n]; [lia|].
    destruct (startswith sep (String c s)).
    + f_equal. apply IH. lia.
    + f_equal. apply IH. lia.
  - apply IH. lia.
Qed.

Lemma split_go_enough sep n s :
  (String.length s ≤ n)%nat →
  split_go sep n 0 s = split sep s.
Proof.
  unfold split. induction 1 as [|n Hn IH]; [done|].
  rewrite split_go_more; [done|lia].
Qed.

Lemma str_drop_length n s : (String.length (str_drop n s) ≤ String.length s - n)%nat.
Proof.
  revert s. induction n as [|n IH]; intros [|c s]; simpl; try lia. apply IH.
Qed.

(** [split] cuts at the first occurrence and goes on in the rest. *)
Lemma split_eq sep s :
  sep ≠ "" →
  split sep s =
    match find sep s with
    | None => [s]
    | Some i => str_take i s :: split sep (str_drop (i + String.length sep) s)
    end.
Proof.
  intros Hsep. unfold split at 1.
  induction s as [|c s IH]; simpl.
  - by rewrite startswith_nil_r.
  - destruct (startswith sep (String c s)) eqn:E.
    + destruct sep as [|a sep]; [done|]. simpl.
      f_equal. rewrite split_go_skip. apply split_go_enough.
      pose proof (str_drop_length (String.length sep) s). lia.
    + rewrite split_go_more by lia. rewrite IH.
      destruct (find sep s) as [i|]; simpl; [|done].
      f_equal.
Qed.

End Strings.

(** ** The event URL parser *)

Section EventURLProps.
Import Py Spec Hookrich.

Lemma list_getitem_head {A} (x : A) l : list_getitem (x :: l) 0 = Ret x.
Proof. done. Qed.

Lemma list_getitem_tail {A} (x : A) l i : list_getitem (x :: l) (S i) = list_getitem l i.
Proof. done. Qed.

(** The first piece of a split is the text before the first separator. *)
Lemma split_first sep s :
  sep ≠ "" → list_getitem (split sep s) 0 = Ret (before sep s).
Proof.
  intros Hsep. rewrite split_eq by done. unfold before.
  by destruct (find sep s).
Qed.

(** The second piece, when there is one, is the first piece of what follows
    the first separator. *)
Lemma split_second sep s :
  sep ≠ "" →
  list_getitem (split sep s) 1 =
    match after sep s with
    | Some rest => Ret (before sep rest)
    | None => Raise IndexError
    end.
Proof.
  intros Hsep. rewrite split_eq by done. unfold after.
  destruct (find sep s); [|done].
  rewrite list_getitem_tail. by apply split_first.
Qed.

(** C9, as stated, fails: an address that has the [/memberships/] marker
    but not the [?embed[user]] marker raises nothing; [member_token] returns
    everything after the first marker. *)
Lemma member_token_without_embed_marker :
  ∃ e, EventURL_init (JStr "https://modeanalytics.com/api/acme/memberships/m1") = Ret e
     ∧ contains "/memberships/" (path e) = true
     ∧ contains "?embed[user]" (path e) = false
     ∧ member_token e = Ret "m1".
Proof. eexists. repeat split; vm_compute; reflexivity. Qed.

(** [member_token] in terms of first occurrences. *)
Lemma member_token_eq (e : EventURL) :
  member_token e =
    match after "/memberships/" (path e) with
    | None => Raise IndexError
    | Some rest => Ret (before "?embed[user]" (before "/memberships/" rest))
    end.
Proof.
  unfold member_token. rewrite split_second by done.
  destruct (after "/memberships/" (path e)); [|done].
  by apply split_first.
Qed.

(** X24: whenever [member_token] returns, the token lies between the
    markers: it holds neither [/memberships/] nor [?embed[user]]. *)
Lemma member_token_clean (e : EventURL) t :
  member_token e = Ret t →
  contains "/memberships/" t = false ∧ contains "?embed[user]" t = false.
Proof.
  rewrite member_token_eq.
  destruct (after "/memberships/" (path e)); [|done]. intros [= <-]. split.
  - apply before_clean_other; [done|]. by apply before_clean.
  - by apply before_clean.
Qed.

(** C9, amended: [member_token] raises [IndexError] exactly when the path
    has no [/memberships/] marker; otherwise it returns the text that follows
    the first [/memberships/] marker, up to the next [/memberships/] or
    [?embed[user]] marker, or to the end of the path when neither follows. *)
Theorem member_token_first_marker (e : EventURL) :
  (member_token e = Raise IndexError ↔ contains "/memberships/" (path e) = false) ∧
  member_token e =
    match after "/memberships/" (path e) with
    | None => Raise IndexError
    | Some rest => Ret (before "?embed[user]" (before "/memberships/" rest))
    end.
Proof.
  split; [|apply member_token_eq].
  rewrite member_token_eq, <- find_None_contains. unfold after.
  destruct (find "/memberships/" (path e)); split; congruence.
Qed.

(** The other accessors never fail on the first piece of a split; [org]
    needs a second path segment. *)
Lemma report_url_before (e : EventURL) :
  report_url e = Ret (before "/runs/" (url e)).
Proof. unfold report_url. by apply split_first. Qed.

Lemma org_second_segment (e : EventURL) :
  org e = match after "/" (path e) with
          | Some rest => Ret (before "/" rest)
          | None => Raise IndexError
          end.
Proof. unfold org. by apply split_second. Qed.

End EventURLProps.

(** ** The CSV logger *)

Section CsvProps.
Import Py Spec LogUsageCsv.
#[local] Arguments startswith : simpl never.

Lemma chars_app s1 s2 : chars (s1 +:+ s2) = chars s1 ++ chars s2.
Proof.
  induction s1 as [|c s1 IH]; [done|].
  rewrite app_cons. unfold chars in *. simpl. by rewrite IH.
Qed.

Lemma contains_char a s : contains (String a "") s = false ↔ a ∉ chars s.
Proof.
  induction s as [|c s IH]; simpl.
  - split; [intros _; apply not_elem_of_nil|done].
  - unfold chars; simpl. rewrite startswith_cons, startswith_nil_l, andb_true_r.
    rewrite not_elem_of_cons, orb_false_iff, IH.
    by rewrite bool_decide_eq_false.
Qed.

(** [replace] invents no character. *)
Lemma replace_go_chars old new skip s c :
  c ∈ chars (replace_go old new skip s) → c ∈ chars new ∨ c ∈ chars s.
Proof.
  revert skip. induction s as [|b s IH]; intros skip; simpl.
  - intros H. by right.
  - destruct skip as [|k].
    + destruct (startswith old (String b s)).
      * rewrite chars_app, elem_of_app. intros [H|H]; [by left|].
        apply IH in H as [H|H]; [by left|]. right. apply elem_of_cons. by right.
      * unfold chars at 1; simpl. rewrite elem_of_cons.
        intros [->|H]; [right; apply elem_of_cons; by left|].
        apply IH in H as [H|H]; [by left|]. right. apply elem_of_cons. by right.
    + intros H. apply IH in H as [H|H]; [by left|].
      right. apply elem_of_cons. by right.
Qed.

(** Replacing a character removes it, unless the replacement brings it back. *)
Lemma replace_char_gone a new s :
  a ∉ chars new → a ∉ chars (replace (String a "") new s).
Proof.
  intros Hnew. unfold replace. induction s as [|b s IH]; simpl.
  - apply not_elem_of_nil.
  - rewrite startswith_cons, startswith_nil_l, andb_true_r.
    case_bool_decide as Hab.
    + rewrite chars_app, elem_of_app. intros [H|H]; [done|]. by apply IH.
    + unfold chars at 1; simpl. rewrite not_elem_of_cons. split; [done|]. apply IH.
Qed.

Lemma clean_source_no_newline text : contains nl (clean_source text) = false.
Proof.
  unfold clean_source, nl. apply contains_char.
  intros H. apply replace_go_chars in H as [H|H].
  - by apply elem_of_nil in H.
  - revert H. apply replace_char_gone.
    unfold chars; simpl. rewrite not_elem_of_cons. split; [done|apply not_elem_of_nil].
Qed.

Lemma cells_carries W q r : carries W q r → cells W Python2 q columns_list = Ret (row r).
Proof.
  intros (m & -> & (v1 & H1 & E1) & (v2 & H2 & E2) & (v3 & H3 & E3)
            & (v4 & H4 & E4) & H5 & (v6 & H6 & E6)).
  unfold columns_list, row. cbn [cells]. unfold cell.
  repeat match goal with
         | |- context [bool_decide (?a = ?b)] =>
             let v := eval vm_compute in (bool_decide (a = b)) in
             change (bool_decide (a = b)) with v
         end.
  cbn [getitem]. rewrite H1, H2, H3, H4, H5, H6.
  cbn [mbind outcome_bind obind]. rewrite E1, E2, E3, E4, E6. done.
Qed.

Lemma rows_of_carries W queries recs data :
  Forall2 (carries W) queries recs →
  rows_of W Python2 queries data = Ret (data ++ (row <$> recs)).
Proof.
  intros H. revert data.
  induction H as [|q r queries recs Hq _ IH]; intros data; cbn [rows_of].
  - simpl. by rewrite app_nil_r.
  - rewrite (cells_carries W q r Hq). cbn [mbind outcome_bind obind].
    rewrite IH. simpl. by rewrite <- app_assoc.
Qed.

Lemma log_to_csv_trace rows tr :
  log_to_csv rows tr = (Ret tt, tr ++ (CsvWriteRow "file_name.csv" <$> rows)).
Proof.
  revert tr. induction rows as [|r rows IH]; intros tr; simpl.
  - by rewrite app_nil_r.
  - unfold mbind, M_bind, bind, emit. rewrite IH. by rewrite <- app_assoc.
Qed.

(** C8: the code departs from the claim, whichever interpreter runs it.  In
    the sample deployment the completed run has one query run, whose source
    text is ["select a,  b" + newline + "    from t"].  Read as Python 3, the
    [replace] of line 45 raises [TypeError]: after its one request the handler
    raises, and no row is appended.  Read as Python 2, one row is appended,
    and its [raw_source] cell keeps the run of two spaces of ["a,  b"]: the
    newline became a space and one block of four spaces was removed. *)
Theorem csv_logger_misses_the_claim :
  let W := Sample.sample_world "succeeded" in
  let event := Sample.event_with_body Sample.run_completed_body in
  let request :=
    HttpGet "https://modeanalytics.com/api/acme/reports/r1/runs/run1/query_runs" in
  lambda_handler W Python3 event JNull [] = (Raise TypeError, [request])
  ∧ lambda_handler W Python2 event JNull []
    = (Ret (JObj {[ "body" := JStr "success" ]}),
       [request;
        CsvWriteRow "file_name.csv"
          ["q1"; "succeeded"; "2020-01-01T00:00:00.000000Z";
           "2020-01-01T00:00:10.000000Z"; "select a,  b from t"; "None"]])
  ∧ contains "  " "select a,  b from t" = true.
Proof. cbv zeta. repeat split; vm_compute; reflexivity. Qed.

(** Read as Python 2, and when every fetched record carries the six columns
    ([raw_source] a text, the others values whose [str] is ASCII): one row
    is appended for each record, in fetch order, with the columns
    [query_token], [state], [created_at], [completed_at], [raw_source],
    [parameters] in that order; in the [raw_source] cell every newline is
    replaced by a space and then every block of four consecutive spaces,
    scanning from the left, is removed, so that the cell holds no newline. *)
Lemma csv_one_row_per_record W (u : string) doc queries recs tr :
  http_get_json W (u +:+ "/query_runs") = Some doc →
  (embedded ← getitem "_embedded" doc; getitem "query_runs" embedded) = Ret (JArr queries) →
  Forall2 (carries W) queries recs →
  (queries_info ← get_queries_info W Python2 (JStr u); log_to_csv queries_info) tr
  = (Ret tt,
     tr ++ HttpGet (u +:+ "/query_runs")
        :: (CsvWriteRow "file_name.csv" <$> (row <$> recs)))
  ∧ Forall (λ r, ∃ cell,
              row r !! 4%nat = Some cell
              ∧ cell = replace "    " "" (replace nl " " (raw_source r))
              ∧ contains nl cell = false) recs.
Proof.
  intros Hget Hdoc Hrecs. split.
  - unfold get_queries_info, mbind, M_bind, bind, lift, emit. simpl.
    rewrite Hget. unfold ret.
    destruct (getitem "_embedded" doc) as [embedded| |]; try done. simpl in Hdoc.
    simpl. rewrite Hdoc. simpl.
    rewrite (rows_of_carries W queries recs [] Hrecs). simpl.
    rewrite log_to_csv_trace. by rewrite <- app_assoc.
  - apply Forall_forall. intros r _. eexists. split; [done|]. split; [done|].
    apply clean_source_no_newline.
Qed.

End CsvProps.

(** ** Durations *)

Section DurationProps.
Import Py Spec Hookrich.

(** [timedelta.seconds] is the number of whole seconds modulo one day. *)
Lemma datetime_sub_seconds (a b : datetime) :
  td_seconds (datetime_sub b a) = whole_seconds_between a b mod 86400.
Proof.
  unfold datetime_sub, new_timedelta, whole_seconds_between, epoch_microseconds.
  cbn [td_seconds].
  set (total := microsecond b - microsecond a
                + 1000000 * (second b + minute b * 60 + hour b * 3600
                             - (second a + minute a * 60 + hour a * 3600)
                             + 86400 * (toordinal b - toordinal a))).
  replace ((toordinal b * 86400 + hour b * 3600 + minute b * 60 + second b) * 1000000
           + microsecond b
           - ((toordinal a * 86400 + hour a * 3600 + minute a * 60 + second a) * 1000000
              + microsecond a)) with total by (unfold total; ring).
  replace (86400 * 1000000) with (1000000 * 86400) by reflexivity.
  rewrite Z.rem_mul_r by lia.
  rewrite (Z.mul_comm 1000000 (_ mod 86400)), Z.div_add by lia.
  rewrite (Z.div_small (total mod 1000000)); [lia|].
  apply Z.mod_pos_bound. lia.
Qed.

(** On two parsed timestamps the code returns the whole seconds between
    them modulo 86400. *)
Lemma report_run_duration_parsed started_at completed_at ta tb :
  datetime_iso_convert started_at = Ret ta →
  datetime_iso_convert completed_at = Ret tb →
  report_run_duration started_at completed_at
  = Ret (whole_seconds_between ta tb mod 86400).
Proof.
  intros Ha Hb. unfold report_run_duration. rewrite Ha, Hb.
  cbn [mbind outcome_bind obind]. by rewrite datetime_sub_seconds.
Qed.

(** X25: for two timestamps in the fixed format, the second one less than
    a day after the first, [report_run_duration] is the whole number of
    seconds between them; a fraction of a second is dropped. *)
Lemma report_run_duration_within_a_day started_at completed_at ta tb :
  datetime_iso_convert started_at = Ret ta →
  datetime_iso_convert completed_at = Ret tb →
  0 ≤ whole_seconds_between ta tb < 86400 →
  report_run_duration started_at completed_at = Ret (whole_seconds_between ta tb).
Proof.
  intros Ha Hb Hrange. rewrite (report_run_duration_parsed _ _ ta tb Ha Hb).
  by rewrite Z.mod_small.
Qed.

(** What the parser takes and what it refuses: fields need no padding and
    the two letters no capitals; a calendar date and a time of day are
    required, and nothing may follow the [Z]. *)
Example datetime_iso_convert_examples :
  datetime_iso_convert (JStr "2020-01-01T00:00:10.000000Z")
  = Ret (mk_datetime 2020 1 1 0 0 10 0)
  ∧ datetime_iso_convert (JStr "2020-1-1t0:0:7.5z")
    = Ret (mk_datetime 2020 1 1 0 0 7 500000)
  ∧ datetime_iso_convert (JStr "2020-01- 5T00:00:00.0Z")
    = Ret (mk_datetime 2020 1 5 0 0 0 0)
  ∧ (λ s, datetime_iso_convert (JStr s))
      <$> ["2020-02-30T00:00:10.000000Z"; "2020-02-29T23:59:60.999999Z";
           "2020-02-29 23:59:59"; "2020-02-29T23:59:59.999999Zx";
           "0000-01-01T00:00:00.0Z"; "2020-01-01T00:00:00.1234567Z";
           "2020-13-01T00:00:00.0Z"; "2020-01-32T00:00:00.0Z";
           "2020-01-01T24:00:00.0Z"; ""]
    = replicate 10 (Raise ValueError).
Proof. repeat split; vm_compute; reflexivity. Qed.

(** A text the format does not match is a [ValueError], and the error of
    either conversion is the result of the duration. *)
Lemma datetime_iso_convert_no_match (s : string) :
  match_iso s = None → datetime_iso_convert (JStr s) = Raise ValueError.
Proof. unfold datetime_iso_convert, strptime_iso. by intros ->. Qed.

Lemma report_run_duration_propagates started_at completed_at e :
  (datetime_iso_convert started_at = Raise e
   → report_run_duration started_at completed_at = Raise e)
  ∧ (∀ ta, datetime_iso_convert started_at = Ret ta
           → datetime_iso_convert completed_at = Raise e
           → report_run_duration started_at completed_at = Raise e).
Proof.
  unfold report_run_duration. split.
  - by intros ->.
  - by intros ta -> ->.
Qed.

(** The example of the specification. *)
Example report_run_duration_ten_seconds :
  report_run_duration (JStr "2020-01-01T00:00:00.000000Z")
                      (JStr "2020-01-01T00:00:10.000000Z") = Ret 10.
Proof. vm_compute. reflexivity. Qed.

(** A text that is not a timestamp fails to parse, and the error is the
    result of the duration. *)
Example report_run_duration_parse_error :
  report_run_duration (JStr "2020-01-01 00:00:00") (JStr "2020-01-01T00:00:10.000000Z")
  = Raise ValueError
  ∧ report_run_duration (JStr "2020-01-01T00:00:00.000000Z") (JStr "yesterday")
    = Raise ValueError
  ∧ report_run_duration (JStr "2020-02-30T00:00:00.000000Z")
                        (JStr "2020-03-01T00:00:00.000000Z") = Raise ValueError.
Proof. repeat split; vm_compute; reflexivity. Qed.

(** C4: the code departs from the claim.  Both timestamps are in the fixed
    format and one day and ten seconds apart, that is 86410 whole seconds;
    [report_run_duration] returns 10, the [seconds] component of the
    difference, and drops the day. *)
Theorem report_run_duration_drops_days :
  ∃ ta tb,
    datetime_iso_convert (JStr "2020-01-01T00:00:00.000000Z") = Ret ta
    ∧ datetime_iso_convert (JStr "2020-01-02T00:00:10.000000Z") = Ret tb
    ∧ whole_seconds_between ta tb = 86410
    ∧ report_run_duration (JStr "2020-01-01T00:00:00.000000Z")
                          (JStr "2020-01-02T00:00:10.000000Z") = Ret 10.
Proof. do 2 eexists. repeat split; vm_compute; reflexivity. Qed.

End DurationProps.

(** ** The consecutive-failure counter, on pages already fetched *)

Section CounterProps.
Import Py Spec Hookrich.

Lemma scan_runs_states runs states :
  Forall2 (λ r s, getitem "state" r = Ret (JStr s)) runs states →
  scan_runs runs = Ret (existsb succeeded states).
Proof.
  induction 1 as [|r s runs states Hr _ IH]; [done|].
  cbn [scan_runs existsb]. rewrite Hr. cbn [mbind outcome_bind obind eq_str].
  unfold succeeded at 1. by destruct (bool_decide (s = "succeeded")).
Qed.

(** What the two loops compute: the sizes of the pages that precede the
    first page with a success; that page itself adds nothing. *)
Lemma count_pages_whole_pages pages states n :
  Forall2 has_runs pages states →
  count_pages pages n = Ret (n + whole_failed_pages states).
Proof.
  intros H. revert n.
  induction H as [|page p pages states (runs & Hruns & Hstates) _ IH]; intros n.
  - simpl. f_equal. lia.
  - cbn [count_pages whole_failed_pages].
    destruct (getitem "_embedded" page) as [embedded| |]; try done.
    cbn [mbind outcome_bind obind] in *. rewrite Hruns.
    cbn [iter len mbind outcome_bind obind].
    rewrite (scan_runs_states runs p Hstates). cbn [mbind outcome_bind obind].
    destruct (existsb succeeded p).
    + f_equal. lia.
    + rewrite IH. f_equal.
      rewrite (Forall2_length _ _ _ Hstates). lia.
Qed.

(** The count of the specification is never below the code's, and the two
    differ as soon as the first page with a success starts with a failure. *)
Lemma whole_failed_pages_le pages :
  whole_failed_pages pages ≤ spec_consecutive_failures pages.
Proof.
  induction pages as [|p pages IH]; simpl; [lia|].
  destruct (existsb succeeded p); [|lia].
  clear. induction p as [|s p IH]; simpl; [lia|]. destruct (succeeded s); lia.
Qed.

End CounterProps.

(** ** Computations: inversion and evaluation *)

Section MonadProps.
Import Py.

Lemma bind_Ret_inv {A B} (m : M A) (k : A → M B) tr b tr' :
  (m ≫= k) tr = (Ret b, tr') →
  ∃ a tr1, m tr = (Ret a, tr1) ∧ k a tr1 = (Ret b, tr').
Proof.
  unfold mbind, M_bind, bind. destruct (m tr) as [[a|e|] tr1]; try done. eauto.
Qed.

Lemma bind_Ret_run {A B} (m : M A) (k : A → M B) tr a tr1 :
  m tr = (Ret a, tr1) → (m ≫= k) tr = k a tr1.
Proof. unfold mbind, M_bind, bind. by intros ->. Qed.

Lemma lift_Ret_inv {A} (o : outcome A) tr a tr' :
  lift o tr = (Ret a, tr') → o = Ret a ∧ tr' = tr.
Proof. unfold lift. by intros [= -> ->]. Qed.

Lemma ret_inv {A} (x a : A) tr tr' : ret x tr = (Ret a, tr') → x = a ∧ tr' = tr.
Proof. unfold ret. by intros [= -> ->]. Qed.

Lemma obind_Ret_inv {A B} (o : outcome A) (k : A → outcome B) b :
  o ≫= k = Ret b → ∃ a, o = Ret a ∧ k a = Ret b.
Proof. destruct o as [a|e|]; try done. eauto. Qed.

End MonadProps.

(** ** The pagination walker *)

Section PaginationProps.
Import Py Spec Hookrich.
Context (W : world).
Hypothesis api_token_set : is_Some (environ W !! "api_token").
Hypothesis api_password_set : is_Some (environ W !! "api_password").

Lemma mode_api_get_run u tr :
  _mode_api_get W u tr =
    (match http_get_json W u with
     | Some body => Ret body
     | None => Raise RequestException
     end, tr ++ [HttpGet u]).
Proof.
  destruct api_token_set as [t Ht], api_password_set as [p Hp].
  unfold _mode_api_get, mbind, M_bind, bind, lift, emit, getenv.
  rewrite Ht, Hp. by destruct (http_get_json W u).
Qed.

(** The loop, entered on page [k] with [j] pages still to fetch. *)
Lemma get_report_runs_loop_fetches total j :
  ∀ n page rest u k payload tr,
    serves W u k (page :: rest) →
    Z.of_nat j = Z.max 0 (Z.min total 10 - k) →
    (j < n)%nat →
    (j ≤ length rest)%nat →
    get_report_runs_loop W n (JNum total) page payload tr
    = (Ret (payload ++ take j rest),
       tr ++ (HttpGet <$> take j (tail (addresses u (page :: rest))))).
Proof.
  induction j as [|j IH]; intros n page rest u k payload tr (Hget & Hnum & Hnext) Hj Hn Hlen.
  - destruct n as [|n]; [lia|]. cbn [get_report_runs_loop].
    unfold page_number in Hnum.
    destruct (getitem "pagination" page) as [pagination| |]; try done.
    cbn [mbind outcome_bind obind] in Hnum.
    unfold mbind at 1, M_bind, bind, lift.
    cbn [mbind outcome_bind obind]. rewrite Hnum.
    cbn [mbind outcome_bind obind as_int].
    replace (k <? Z.min total 10) with false by (symmetry; apply Z.ltb_ge; lia).
    unfold ret. by rewrite !take_0, !app_nil_r.
  - destruct n as [|n]; [lia|]. cbn [get_report_runs_loop].
    unfold page_number in Hnum.
    destruct (getitem "pagination" page) as [pagination| |] eqn:Hpag; try done.
    cbn [mbind outcome_bind obind] in Hnum.
    unfold mbind at 1, M_bind, bind, lift.
    cbn [mbind outcome_bind obind]. rewrite Hnum.
    cbn [mbind outcome_bind obind as_int].
    replace (k <? Z.min total 10) with true by (symmetry; apply Z.ltb_lt; lia).
    destruct rest as [|page' rest]; [simpl in Hlen; lia|].
    destruct Hnext as (u' & Hu' & Hserves).
    unfold next_address in Hu'.
    unfold mbind at 1, M_bind, bind, lift. rewrite Hu'.
    rewrite (bind_Ret_run _ _ _ page' (tr ++ [HttpGet u'])).
    2:{ rewrite mode_api_get_run. destruct Hserves as (-> & _). done. }
    rewrite (IH n page' rest u' (k + 1)); [|done|lia|lia|simpl in Hlen; lia].
    f_equal.
    + by rewrite <- app_assoc.
    + rewrite <- app_assoc. f_equal.
      cbn [addresses tail]. unfold next_address. rewrite Hu'.
      destruct Hserves as (_ & _ & _). by cbn [addresses tail take fmap list_fmap].
Qed.

Lemma addresses_length u k pages :
  serves W u k pages → length (addresses u pages) = length pages.
Proof.
  revert u k. induction pages as [|page pages IH]; intros u k; [done|].
  intros (_ & _ & Hnext). cbn [addresses length]. f_equal.
  destruct pages as [|page' pages]; [by destruct (next_address page)|].
  destruct Hnext as (u' & -> & Hserves). by eapply IH.
Qed.

(** The run of the walker on a history served page by page. *)
Lemma get_report_runs_run fuel url pages first total tr :
  serves W (url +:+ "/runs") 1 pages →
  head pages = Some first →
  total_pages first = Ret (JNum total) →
  (Z.to_nat (Z.max 1 (Z.min total 10)) ≤ length pages)%nat →
  (10 ≤ fuel)%nat →
  get_report_runs W fuel url tr
  = (Ret (take (Z.to_nat (Z.max 1 (Z.min total 10))) pages),
     tr ++ (HttpGet <$> take (Z.to_nat (Z.max 1 (Z.min total 10)))
                          (addresses (url +:+ "/runs") pages))).
Proof.
  intros Hserves Hfirst Htotal Hlen Hfuel.
  set (n := Z.to_nat (Z.max 1 (Z.min total 10))) in *.
  destruct pages as [|page rest]; [done|]. injection Hfirst as ->.
  unfold get_report_runs.
  rewrite (bind_Ret_run _ _ _ first (tr ++ [HttpGet (url +:+ "/runs")])).
  2:{ rewrite mode_api_get_run. by destruct Hserves as (-> & _). }
  unfold total_pages in Htotal.
  unfold mbind at 1, M_bind, bind, lift. rewrite Htotal.
  rewrite (get_report_runs_loop_fetches total (n - 1) fuel first rest
             (url +:+ "/runs") 1); [|done|lia|lia|simpl in Hlen; lia].
  assert (0 < n)%nat as Hn by lia. clearbody n.
  destruct n as [|m]; [lia|]. replace (S m - 1)%nat with m by lia.
  cbn [take addresses tail fmap list_fmap]. by rewrite <- app_assoc.
Qed.

(** C5, amended: the walker requests the first page and then follows the
    [next_page] links while the page number the last page reports is below
    [min(total_pages, 10)].  With the API credentials set, on a run history
    served page by page through the [next_page] links, the [k]-th page
    reporting page number [k], and at least [max(1, min(total_pages, 10))]
    pages served, it makes exactly [max(1, min(total_pages, 10))] requests,
    in page order, and returns the pages fetched in that order: never more
    than 10, and exactly 3 when [total_pages] is 3. *)
Theorem get_report_runs_bounded fuel url pages first total tr :
  serves W (url +:+ "/runs") 1 pages →
  head pages = Some first →
  total_pages first = Ret (JNum total) →
  (Z.to_nat (Z.max 1 (Z.min total 10)) ≤ length pages)%nat →
  (10 ≤ fuel)%nat →
  ∃ requests,
    get_report_runs W fuel url tr
    = (Ret (take (Z.to_nat (Z.max 1 (Z.min total 10))) pages),
       tr ++ (HttpGet <$> requests))
    ∧ requests = take (Z.to_nat (Z.max 1 (Z.min total 10))) (addresses (url +:+ "/runs") pages)
    ∧ length requests = Z.to_nat (Z.max 1 (Z.min total 10))
    ∧ (length requests ≤ 10)%nat
    ∧ (total = 3 → length requests = 3%nat).
Proof.
  intros Hserves Hfirst Htotal Hlen Hfuel.
  assert (length (take (Z.to_nat (Z.max 1 (Z.min total 10)))
                    (addresses (url +:+ "/runs") pages))
          = Z.to_nat (Z.max 1 (Z.min total 10))) as Hreq.
  { rewrite length_take, (addresses_length _ 1) by done. lia. }
  eexists. split; [by apply (get_report_runs_run fuel url pages first total tr)|].
  split; [reflexivity|]. split; [done|]. split.
  - rewrite Hreq. lia.
  - intros ->. by rewrite Hreq.
Qed.

(** X26: the failure counter on a history served page by page: the sum of
    the sizes of the fetched pages that precede the first fetched page with
    a success; the runs of that page, and of the pages beyond the tenth, are
    not counted. *)
Lemma consecutive_run_failures_whole_pages fuel url pages first total states tr :
  serves W (url +:+ "/runs") 1 pages →
  head pages = Some first →
  total_pages first = Ret (JNum total) →
  (Z.to_nat (Z.max 1 (Z.min total 10)) ≤ length pages)%nat →
  (10 ≤ fuel)%nat →
  Forall2 has_runs pages states →
  (consecutive_run_failures W fuel url tr).1
  = Ret (whole_failed_pages (take (Z.to_nat (Z.max 1 (Z.min total 10))) states)).
Proof.
  intros Hserves Hfirst Htotal Hlen Hfuel Hstates.
  pose proof (get_report_runs_run fuel url pages first total tr
                Hserves Hfirst Htotal Hlen Hfuel) as Hrun.
  unfold consecutive_run_failures. rewrite (bind_Ret_run _ _ _ _ _ Hrun).
  unfold lift. cbn [fst].
  rewrite (count_pages_whole_pages _ (take (Z.to_nat (Z.max 1 (Z.min total 10))) states)).
  - f_equal.
  - by apply Forall2_take.
Qed.

End PaginationProps.

Section PaginationExamples.
Import Py Spec Hookrich.

(** With three pages announced, three requests. *)
Example get_report_runs_three_pages :
  get_report_runs (Sample.long_history_world 3 12) 10 Sample.report_address []
  = (Ret (Sample.history 3 3),
     [HttpGet "https://modeanalytics.com/api/acme/reports/r1/runs";
      HttpGet "https://modeanalytics.com/api/acme/reports/r1/runs?page=2";
      HttpGet "https://modeanalytics.com/api/acme/reports/r1/runs?page=3"]).
Proof. vm_compute. reflexivity. Qed.

(** With twelve pages announced and served, ten requests. *)
Example get_report_runs_capped :
  get_report_runs (Sample.long_history_world 12 12) 10 Sample.report_address []
  = (Ret (Sample.history 12 10),
     HttpGet <$> (Sample.history_address <$> seq 1 10)).
Proof. vm_compute. reflexivity. Qed.

(** C5, as stated, fails: the walker counts with the page numbers the
    platform reports, not with the requests it made.  On a history whose
    pages are numbered from 0, with twelve pages announced it makes eleven
    requests, and with three announced it makes four. *)
Lemma get_report_runs_trusts_page_numbers :
  get_report_runs (Cases.zero_based_world 12 12) 20 Sample.report_address []
  = (Ret (Cases.zero_based_page 12 <$> seq 1 11),
     HttpGet <$> (Sample.history_address <$> seq 1 11))
  ∧ get_report_runs (Cases.zero_based_world 3 4) 20 Sample.report_address []
    = (Ret (Cases.zero_based_page 3 <$> seq 1 4),
       HttpGet <$> (Sample.history_address <$> seq 1 4))
  ∧ page_number (Cases.zero_based_page 12 1) = Ret (JNum 0)
  ∧ total_pages (Cases.zero_based_page 12 1) = Ret (JNum 12)
  ∧ total_pages (Cases.zero_based_page 3 1) = Ret (JNum 3).
Proof. repeat split; vm_compute; reflexivity. Qed.

(** The bound rests on the page numbers: a history whose pages all report
    page number 1 keeps the walker going for as long as it is allowed to
    run. *)
Example get_report_runs_stuck_page_number :
  let stuck := Sample.runs_page 1 2 [] (Some "api/acme/reports/r1/runs") in
  let W := mk_world (environ (Sample.sample_world "failed")) (λ _, Some stuck)
             (λ _ _, None) (λ _, None) (λ _, "") (λ _, "") (λ _, "") in
  (get_report_runs W 50 Sample.report_address []).1 = Diverge
  ∧ length (get_report_runs W 50 Sample.report_address []).2 = 51%nat.
Proof. split; vm_compute; reflexivity. Qed.

(** C1: the code departs from the claim.  The sample report has the run
    history [[failed, failed], [failed, succeeded, failed]]; the count the
    claim describes is 3, and [consecutive_run_failures] returns 2: when the
    inner loop meets the success it leaves both loops without adding the runs
    that precede the success on that page. *)
Theorem consecutive_run_failures_misses_page_of_success :
  let W := Sample.sample_world "failed" in
  let history := [["failed"; "failed"]; ["failed"; "succeeded"; "failed"]] in
  get_report_runs W 10 Sample.report_address []
  = (Ret [Sample.runs_page_1; Sample.runs_page_2],
     [HttpGet "https://modeanalytics.com/api/acme/reports/r1/runs";
      HttpGet "https://modeanalytics.com/api/acme/reports/r1/runs?page=2"])
  ∧ Forall2 has_runs [Sample.runs_page_1; Sample.runs_page_2] history
  ∧ spec_consecutive_failures history = 3
  ∧ consecutive_run_failures W 10 Sample.report_address []
    = (Ret 2,
       [HttpGet "https://modeanalytics.com/api/acme/reports/r1/runs";
        HttpGet "https://modeanalytics.com/api/acme/reports/r1/runs?page=2"]).
Proof.
  cbv zeta. split; [vm_compute; reflexivity|]. split; [|split; vm_compute; reflexivity].
  repeat constructor.
  - eexists. split; [vm_compute; reflexivity|]. repeat constructor.
  - eexists. split; [vm_compute; reflexivity|]. repeat constructor.
Qed.

End PaginationExamples.

(** ** The enrichment aggregator *)

Section EnrichProps.
Import Py Spec Hookrich.
Context (W : world) (fuel : nat).

Lemma split_go_nonempty sep n skip s : split_go sep n skip s ≠ [].
Proof.
  revert n skip. induction s as [|c s IH]; intros n skip; [done|].
  destruct skip as [|k]; cbn [split_go]; [|apply IH].
  destruct n as [|n].
  - specialize (IH O O). by destruct (split_go sep 0 0 s).
  - destruct (startswith sep (String c s)); [done|].
    specialize (IH (S n) O). by destruct (split_go sep (S n) 0 s).
Qed.

(** Every text is the address of an [EventURL]. *)
Lemma EventURL_init_text u : ∃ p, EventURL_init (JStr u) = Ret (mk_EventURL u p).
Proof.
  unfold EventURL_init, list_last, split_max.
  destruct (last (split_go MODE_BASE_URL 3 0 u)) as [p|] eqn:E.
  - by exists p.
  - apply last_None in E. by apply split_go_nonempty in E.
Qed.


(** C7: for an event name that is not in the static table, [enrich_payload]
    raises the [KeyError] of the failed table lookup before any request is
    made; whatever the address, it raises and returns no payload. *)
Theorem enrich_payload_unknown_event (name : string) tr :
  WEBHOOK_EVENTS !! name = None →
  (∀ u : string,
     enrich_payload W fuel (JStr name) (JStr u) tr = (Raise (KeyError name), tr))
  ∧ (∀ v : json, ∃ e, enrich_payload W fuel (JStr name) v tr = (Raise e, tr)).
Proof.
  intros Hname.
  assert (∀ u : string,
     enrich_payload W fuel (JStr name) (JStr u) tr = (Raise (KeyError name), tr)) as Htext.
  { intros u. destruct (EventURL_init_text u) as [p Hp].
    unfold enrich_payload, mbind at 1, M_bind, bind, lift. rewrite Hp.
    unfold mbind at 1, M_bind, bind, lift, table_getitem. by rewrite Hname. }
  split; [done|].
  intros v. destruct v as [| | |u| |]; try by (eexists; reflexivity).
  eexists. apply Htext.
Qed.









Lemma dict_of_snoc items k v : dict_of (items ++ [(k, v)]) = <[k := v]> (dict_of items).
Proof. unfold dict_of. by rewrite foldl_app. Qed.

Lemma dict_of_dom items : dom (dict_of items) = list_to_set items.*1.
Proof.
  induction items as [|[k v] items IH] using rev_ind; [apply dom_empty_L|].
  rewrite dict_of_snoc, dom_insert_L, IH, fmap_app, list_to_set_app_L.
  simpl. clear. set_solver.
Qed.

(** A dict literal evaluates its items in order, and holds the value of
    each. *)
Lemma build_dict_values items acc tr d tr' :
  build_dict items acc tr = (Ret d, tr') →
  ∃ vals,
    d = dict_of (acc ++ vals)
    ∧ Forall2 (λ (item : string * M json) (kv : string * json),
                 kv.1 = item.1 ∧ ∃ t1 t2, item.2 t1 = (Ret kv.2, t2)) items vals.
Proof.
  revert acc tr. induction items as [|[k m] items IH]; intros acc tr; cbn [build_dict].
  - intros [<- _]%ret_inv. exists []. by rewrite app_nil_r.
  - intros (v & tr1 & Hm & (vals & -> & Hvals)%IH)%bind_Ret_inv.
    exists ((k, v) :: vals). split; [by rewrite <- app_assoc|].
    constructor; [|done]. split; [done|]. by exists tr, tr1.
Qed.

Lemma build_dict_keys (items : list (string * M json)) (vals : list (string * json)) :
  Forall2 (λ (item : string * M json) (kv : string * json),
             kv.1 = item.1 ∧ ∃ t1 t2, item.2 t1 = (Ret kv.2, t2)) items vals →
  vals.*1 = items.*1.
Proof.
  induction 1 as [|item kv items vals [Hk _] _ IH]; [done|].
  cbn [fmap list_fmap]. by rewrite Hk, IH.
Qed.

Lemma build_dict_dom items tr d tr' :
  build_dict items [] tr = (Ret d, tr') → dom d = list_to_set items.*1.
Proof.
  intros (vals & -> & Hvals)%build_dict_values. rewrite dict_of_dom. cbn [app].
  by rewrite (build_dict_keys _ _ Hvals).
Qed.

Lemma dict_of_lookup_last pre k v post :
  k ∉ post.*1 → dict_of (pre ++ (k, v) :: post) !! k = Some v.
Proof.
  induction post as [|[k' v'] post IH] using rev_ind; intros Hk.
  - by rewrite dict_of_snoc, lookup_insert_eq.
  - rewrite fmap_app, not_elem_of_app in Hk. destruct Hk as [Hk Hk'].
    change (pre ++ (k, v) :: post ++ [(k', v')])
      with (pre ++ ((k, v) :: post) ++ [(k', v')]).
    rewrite app_assoc, dict_of_snoc, lookup_insert_ne; [by apply IH|].
    intros ->. apply Hk'. simpl. set_solver.
Qed.

(** The value under a key that occurs once more only before position [i]. *)
Lemma build_dict_lookup items i k m tr d tr' :
  build_dict items [] tr = (Ret d, tr') →
  items !! i = Some (k, m) →
  k ∉ (drop (S i) items).*1 →
  ∃ v t1 t2, m t1 = (Ret v, t2) ∧ d !! k = Some v.
Proof.
  intros (vals & -> & Hvals)%build_dict_values Hi Hk. cbn [app].
  destruct (Forall2_lookup_l _ _ _ _ _ Hvals Hi) as ([k' v] & Hv & Hk' & t1 & t2 & Hm).
  cbn [fst snd] in *. subst k'.
  exists v, t1, t2. split; [done|].
  rewrite <- (take_drop_middle vals i (k, v) Hv).
  apply dict_of_lookup_last.
  by rewrite !fmap_drop, (build_dict_keys _ _ Hvals) in *.
Qed.















End EnrichProps.

(** ** The chat message builder *)

Section SlackProps.
Import Py Spec PostToSlack.
Context (W : world).

(** Rows at or under the threshold leave [attachments] as it was. *)
Lemma alert_rows_under_threshold message rows attachments :
  Forall (λ row, ∃ n, getitem alerts_field row = Ret (JNum n) ∧ n ≤ alerts_threshold) rows →
  alert_rows message rows attachments = Ret attachments.
Proof.
  induction 1 as [|row rows (n & Hrow & Hn) _ IH]; [done|].
  cbn [alert_rows]. rewrite Hrow. cbn [mbind outcome_bind obind as_int].
  by replace (alerts_threshold <? n) with false by (symmetry; apply Z.ltb_ge; lia).
Qed.

(** C3: the code departs from the claim.  For a watched report whose run
    succeeded and whose rows all stay at or under the threshold, the builder
    does not return: the loop never binds [attachments], and
    [return attachments] raises [UnboundLocalError]. *)
Theorem report_run_completed_under_threshold_unbound payload rows :
  has_common_fields payload →
  pget payload "report_run" "state" = Ret (JStr "succeeded") →
  pget payload "report" "id" = Ret (JNum alerts_report_id) →
  pget payload "report_run" "results" = Ret (JArr rows) →
  Forall (λ row, ∃ n, getitem alerts_field row = Ret (JNum n) ∧ n ≤ alerts_threshold) rows →
  report_run_completed_message W payload = Raise (UnboundLocalError "attachments").
Proof.
  intros ([? H1] & [? H2] & [? H3] & [? H4] & [? H5]) Hstate Hid Hres Hrows.
  unfold report_run_completed_message.
  rewrite H1, H2, H3, H4, H5, Hstate. cbn [mbind outcome_bind obind eq_str].
  rewrite bool_decide_eq_true_2 by done. rewrite Hid.
  cbn [mbind outcome_bind obind eq_int]. rewrite bool_decide_eq_true_2 by done.
  rewrite Hres. cbn [mbind outcome_bind obind iter].
  by rewrite alert_rows_under_threshold.
Qed.

(** C10: with a state that is neither ["succeeded"] nor ["failed"] no branch
    binds [attachments] and the builder raises [UnboundLocalError]; whenever
    the builder returns, the state is one of the two. *)
Theorem report_run_completed_other_state payload state :
  has_common_fields payload →
  pget payload "report_run" "state" = Ret state →
  eq_str state "succeeded" = false →
  eq_str state "failed" = false →
  report_run_completed_message W payload = Raise (UnboundLocalError "attachments")
  ∧ (∀ (p : gmap string json) a,
       report_run_completed_message W p = Ret a →
       ∃ s, pget p "report_run" "state" = Ret s
          ∧ (eq_str s "succeeded" = true ∨ eq_str s "failed" = true)).
Proof.
  intros ([? H1] & [? H2] & [? H3] & [? H4] & [? H5]) Hstate Hs Hf. split.
  - unfold report_run_completed_message.
    rewrite H1, H2, H3, H4, H5, Hstate. cbn [mbind outcome_bind obind].
    rewrite Hs. cbn [mbind outcome_bind obind]. by rewrite Hf.
  - clear. intros p a. unfold report_run_completed_message.
    intros (? & _ & H)%obind_Ret_inv.
    apply obind_Ret_inv in H as (? & _ & H).
    apply obind_Ret_inv in H as (? & _ & H).
    apply obind_Ret_inv in H as (? & _ & H).
    apply obind_Ret_inv in H as (? & _ & H).
    apply obind_Ret_inv in H as (s & Hs & H).
    exists s. split; [done|].
    destruct (eq_str s "succeeded") eqn:E1; [by left|].
    cbn [mbind outcome_bind obind] in H. rewrite Hs in H.
    cbn [mbind outcome_bind obind] in H. rewrite E1 in H.
    destruct (eq_str s "failed") eqn:E2; [by right|]. done.
Qed.

End SlackProps.

(** ** The Lambda entry points *)

Section HandlerProps.
Import Py Spec.
Context (W : world) (fuel : nat).

(** C2: the code departs from the claim.  When the body is a text that
    [json.loads] rejects, the [ValueError] is not among the exceptions of the
    first [try] block, [(TypeError, KeyError)]: both entry points raise it
    instead of returning an error result.  Nothing was requested: the trace
    holds the log line only. *)
Theorem handlers_raise_on_invalid_json event context (body : string) tr :
  getitem "body" event = Ret (JStr body) →
  json_loads W body = None →
  PostToDestination.lambda_function_handler W fuel event context tr
  = (Raise ValueError, tr ++ [LogInfo (format W "Received payload: {}" [event])])
  ∧ PostToSlack.lambda_function_handler W fuel event context tr
    = (Raise ValueError, tr ++ [LogInfo (format W "Received payload {}" [event])]).
Proof.
  intros Hbody Hloads. split.
  - unfold PostToDestination.lambda_function_handler, PostToDestination.read_event.
    unfold mbind at 1, M_bind, bind, emit. rewrite Hbody.
    cbn [mbind outcome_bind obind loads]. by rewrite Hloads.
  - unfold PostToSlack.lambda_function_handler, PostToSlack.read_event.
    unfold mbind at 1, M_bind, bind, emit. rewrite Hbody.
    cbn [mbind outcome_bind obind loads]. by rewrite Hloads.
Qed.

(** X23: an event without body, with a body that is not a text, or whose
    decoded body has no [event] field, gets the error result
    [Invalid webhook event: <event>] from both entry points, and no request
    is made. *)
Lemma handlers_report_missing_event event context tr :
  (PostToDestination.read_event W event = Raise TypeError
   ∨ ∃ k, PostToDestination.read_event W event = Raise (KeyError k)) →
  let msg := format W "Invalid webhook event: {}" [event] in
  PostToDestination.lambda_function_handler W fuel event context tr
  = (Ret (PostToDestination._response W [("result", JStr "error"); ("message", JStr msg)]),
     tr ++ [LogInfo (format W "Received payload: {}" [event]); LogError msg])
  ∧ PostToSlack.lambda_function_handler W fuel event context tr
    = (Ret (PostToSlack._response W [("result", JStr "error"); ("message", JStr msg)]),
       tr ++ [LogInfo (format W "Received payload {}" [event]); LogError msg]).
Proof.
  intros Hread msg.
  assert (PostToSlack.read_event W event = PostToDestination.read_event W event) as Hsame
    by done.
  split.
  - unfold PostToDestination.lambda_function_handler.
    unfold mbind at 1, M_bind, bind, emit.
    destruct Hread as [->| [k ->]];
      unfold PostToDestination.error_response, mbind, M_bind, bind, emit, ret;
      by rewrite <- app_assoc.
  - unfold PostToSlack.lambda_function_handler.
    unfold mbind at 1, M_bind, bind, emit. rewrite Hsame.
    destruct Hread as [->| [k ->]];
      unfold PostToSlack.error_response, mbind, M_bind, bind, emit, ret;
      by rewrite <- app_assoc.
Qed.

End HandlerProps.

(** * Further properties *)

(** ** Enrichment only reads *)

Section OnlyGets.
Import Py Spec Hookrich Traces.
Context (W : world) (fuel : nat).

Lemma only_gets_ret {A} (a : A) : only_gets (ret a).
Proof. intros tr. exists []. by rewrite app_nil_r. Qed.

Lemma only_gets_raise {A} e : only_gets (@raise A e).
Proof. intros tr. exists []. by rewrite app_nil_r. Qed.

Lemma only_gets_diverge {A} : only_gets (@diverge A).
Proof. intros tr. exists []. by rewrite app_nil_r. Qed.

Lemma only_gets_lift {A} (o : outcome A) : only_gets (lift o).
Proof. intros tr. exists []. by rewrite app_nil_r. Qed.

Lemma only_gets_bind {A B} (m : M A) (k : A → M B) :
  only_gets m → (∀ a, only_gets (k a)) → only_gets (m ≫= k).
Proof.
  intros Hm Hk tr. unfold mbind, M_bind, bind.
  destruct (Hm tr) as [urls Hurls].
  destruct (m tr) as [[a|e|] tr1]; simpl in Hurls; subst.
  - destruct (Hk a (tr ++ (HttpGet <$> urls))) as [urls' ->].
    exists (urls ++ urls'). by rewrite fmap_app, app_assoc.
  - by exists urls.
  - by exists urls.
Qed.

Lemma only_gets_mode_api_get u : only_gets (_mode_api_get W u).
Proof.
  intros tr. unfold _mode_api_get, mbind, M_bind, bind, lift, emit.
  destruct (getenv W "api_token"); [|exists []; by rewrite app_nil_r..].
  destruct (getenv W "api_password"); [|exists []; by rewrite app_nil_r..].
  exists [u]. by destruct (http_get_json W u).
Qed.

Lemma only_gets_build_dict items acc :
  Forall (λ item : string * M json, only_gets item.2) items →
  only_gets (build_dict items acc).
Proof.
  intros H. revert acc. induction H as [|[k m] items Hm _ IH]; intros acc.
  - apply only_gets_ret.
  - cbn [build_dict]. apply only_gets_bind; [done|]. intros v. apply IH.
Qed.

Lemma only_gets_loop n total data payload :
  only_gets (get_report_runs_loop W n total data payload).
Proof.
  revert data payload. induction n as [|n IH]; intros data payload.
  - apply only_gets_diverge.
  - cbn [get_report_runs_loop].
    apply only_gets_bind; [apply only_gets_lift|]. intros [|].
    + apply only_gets_bind; [apply only_gets_lift|]. intros target.
      apply only_gets_bind; [apply only_gets_mode_api_get|]. intros next. apply IH.
    + apply only_gets_ret.
Qed.

Lemma only_gets_consecutive_run_failures u :
  only_gets (consecutive_run_failures W fuel u).
Proof.
  unfold consecutive_run_failures, get_report_runs.
  apply only_gets_bind; [|intros; apply only_gets_lift].
  apply only_gets_bind; [apply only_gets_mode_api_get|]. intros data.
  apply only_gets_bind; [apply only_gets_lift|]. intros total. apply only_gets_loop.
Qed.

Ltac gets :=
  repeat first
    [ apply only_gets_ret | apply only_gets_raise | apply only_gets_lift
    | apply only_gets_mode_api_get
    | apply only_gets_consecutive_run_failures
    | apply only_gets_bind; [|intros ?]
    | apply only_gets_build_dict
    | apply Forall_nil_2
    | apply Forall_cons_2; cbn [snd copy copy_link]
    | apply Forall_app_2
    | apply Forall_fmap, Forall_forall; intros ? _; cbn [snd copy compose] ].

Lemma only_gets_get_report_run_info u : only_gets (get_report_run_info W u).
Proof. unfold get_report_run_info. gets. Qed.

Lemma only_gets_get_report_info u : only_gets (get_report_info W fuel u).
Proof. unfold get_report_info. gets. Qed.

Lemma only_gets_get_space_info u : only_gets (get_space_info W u).
Proof. unfold get_space_info. gets. Qed.

Lemma only_gets_get_definition_info e : only_gets (get_definition_info W e).
Proof. unfold get_definition_info. gets. Qed.

Lemma only_gets_get_connection_info e : only_gets (get_connection_info W e).
Proof. unfold get_connection_info. gets. Qed.

Lemma only_gets_get_org_info o : only_gets (get_org_info W o).
Proof. unfold get_org_info. gets. Qed.

Lemma only_gets_get_user_info u : only_gets (get_user_info W u).
Proof. unfold get_user_info. gets. Qed.

Lemma only_gets_get_membership_info e : only_gets (get_membership_info W e).
Proof.
  unfold get_membership_info. gets.
Qed.

Lemma only_gets_enrich_payload event_name event_url :
  only_gets (enrich_payload W fuel event_name event_url).
Proof.
  unfold enrich_payload. gets.
  repeat case_bool_decide; gets;
    first [ apply only_gets_get_report_run_info | apply only_gets_get_report_info
          | apply only_gets_get_membership_info
          | apply only_gets_get_connection_info | apply only_gets_get_definition_info
          | idtac ].
  all: gets; first [ apply only_gets_get_report_info | apply only_gets_get_space_info | idtac ].
  all: gets; try apply only_gets_get_space_info.
Qed.

End OnlyGets.

Section EnrichReads.
Import Py Spec Hookrich Traces.
Context (W : world) (fuel : nat).

(** X1: whatever its arguments and whatever its outcome, [enrich_payload]
    only sends GET requests: it posts nothing, logs nothing and writes no
    file. *)
Theorem enrich_payload_only_requests event_name event_url tr :
  ∃ urls,
    (enrich_payload W fuel event_name event_url tr).2 = tr ++ (HttpGet <$> urls).
Proof. apply only_gets_enrich_payload. Qed.

Lemma fails_first_bind {A B} (m : M A) (k : A → M B) :
  fails_first m → fails_first (m ≫= k).
Proof.
  intros Hm tr. destruct (Hm tr) as [e He].
  exists e. unfold mbind, M_bind, bind. by rewrite He.
Qed.

Lemma fails_first_lift_bind {A B} (o : outcome A) (k : A → M B) :
  o ≠ Diverge → (∀ a, fails_first (k a)) → fails_first (lift o ≫= k).
Proof.
  intros Ho Hk tr. unfold mbind, M_bind, bind, lift.
  destruct o as [a|e|]; [apply Hk|by exists e|done].
Qed.

Lemma list_getitem_returns {A} (l : list A) i : list_getitem l i ≠ Diverge.
Proof. unfold list_getitem. by destruct (l !! i). Qed.

Lemma obind_returns {A B} (o : outcome A) (k : A → outcome B) :
  o ≠ Diverge → (∀ a, k a ≠ Diverge) → o ≫= k ≠ Diverge.
Proof. intros Ho Hk. destruct o; [apply Hk|done|done]. Qed.

Lemma path_join_returns path ps : path_join path ps ≠ Diverge.
Proof.
  revert path. induction ps as [|b ps IH]; intros path; [done|].
  cbn [path_join]. apply obind_returns; [|intros; apply IH].
  destruct b; try done. unfold join_step.
  destruct (startswith "/" s); [done|].
  by destruct (bool_decide (path = "") || endswith_char "/" path).
Qed.

Lemma EventURL_init_returns v : EventURL_init v ≠ Diverge.
Proof.
  destruct v; try done. unfold EventURL_init.
  apply obind_returns; [|done]. unfold list_last. by destruct (last _).
Qed.

Lemma scope_lookup_returns event_name shown :
  (entry ← table_getitem WEBHOOK_EVENTS event_name shown; entry_getitem "scope" entry)
  ≠ Diverge.
Proof.
  apply obind_returns.
  - unfold table_getitem. destruct event_name; try done.
    by destruct (WEBHOOK_EVENTS !! s).
  - intros entry. unfold entry_getitem. by destruct (entry !! "scope").
Qed.

Hypothesis no_credentials :
  environ W !! "api_token" = None ∨ environ W !! "api_password" = None.

Lemma mode_api_get_fails_first u : fails_first (_mode_api_get W u).
Proof.
  intros tr. unfold _mode_api_get, mbind, M_bind, bind, lift, getenv.
  destruct (environ W !! "api_token") eqn:Ht; [|by eexists].
  destruct no_credentials as [?|Hp]; [done|]. rewrite Hp. by eexists.
Qed.

(** X2: when the environment lacks [api_token] or [api_password],
    [enrich_payload] raises before any request is sent. *)
Theorem enrich_payload_without_credentials event_name event_url tr :
  ∃ e, enrich_payload W fuel event_name event_url tr = (Raise e, tr).
Proof.
  revert tr. change (fails_first (enrich_payload W fuel event_name event_url)).
  unfold enrich_payload.
  apply fails_first_lift_bind; [apply EventURL_init_returns|]. intros e.
  apply fails_first_lift_bind; [apply scope_lookup_returns|]. intros scope.
  repeat case_bool_decide.
  - apply fails_first_bind. unfold get_report_run_info.
    apply fails_first_bind, mode_api_get_fails_first.
  - apply fails_first_bind. unfold get_report_info.
    apply fails_first_bind, mode_api_get_fails_first.
  - unfold get_membership_info.
    apply fails_first_lift_bind.
    { apply obind_returns; [apply list_getitem_returns|]. intros o.
      apply obind_returns; [|intros; apply path_join_returns].
      unfold member_token.
      apply obind_returns; intros; apply list_getitem_returns. }
    intros endpoint. apply fails_first_bind, mode_api_get_fails_first.
  - unfold get_connection_info. apply fails_first_bind, mode_api_get_fails_first.
  - unfold get_definition_info. apply fails_first_bind, mode_api_get_fails_first.
  - intros tr. by eexists.
Qed.

End EnrichReads.

(** ** The dispatchers *)

Section Dispatchers.
Import Py Spec Hookrich Traces.
Context (W : world) (fuel : nat).

(** X3: [post_to_destination] posts at most once, after all its requests
    and only when the enrichment returned; the post goes to
    [destination_url] and carries the enriched payload with [event_name] set
    to the event name it was given. *)
Theorem post_to_destination_posts_once event_name event_url tr :
  ∃ urls,
    ((PostToDestination.post_to_destination W fuel event_name event_url tr).2
       = tr ++ (HttpGet <$> urls)
     ∧ ∀ r, (PostToDestination.post_to_destination W fuel event_name event_url tr).1
            ≠ Ret r)
    ∨ (∃ destination payload,
         environ W !! "destination_url" = Some destination
         ∧ enrich_payload W fuel event_name event_url tr
           = (Ret payload, tr ++ (HttpGet <$> urls))
         ∧ (PostToDestination.post_to_destination W fuel event_name event_url tr).2
           = (tr ++ (HttpGet <$> urls))
               ++ [HttpPost destination (JObj (<["event_name" := event_name]> payload))]).
Proof.
  destruct (only_gets_enrich_payload W fuel event_name event_url tr) as [urls Hurls].
  exists urls. unfold PostToDestination.post_to_destination, mbind, M_bind, bind.
  destruct (enrich_payload W fuel event_name event_url tr) as [[p|e|] tr1];
    simpl in Hurls; subst tr1; [|by left..].
  unfold lift, getenv, emit.
  destruct (environ W !! "destination_url") as [dest|] eqn:Hdest; [|by left].
  right. exists dest, p. split; [done|]. split; [done|].
  by destruct (http_post_text W dest _).
Qed.

(** X4: [post_to_slack] posts at most once, after all its requests and
    only when the enrichment returned and a message was built; the post goes
    to [slack_webhook_url] and carries the built attachments under the
    sender name [Mode]. *)
Theorem post_to_slack_posts_once event_name event_url tr :
  ∃ urls,
    ((PostToSlack.post_to_slack W fuel event_name event_url tr).2
       = tr ++ (HttpGet <$> urls)
     ∧ ∀ r, (PostToSlack.post_to_slack W fuel event_name event_url tr).1 ≠ Ret r)
    ∨ (∃ hook payload attachments,
         environ W !! "slack_webhook_url" = Some hook
         ∧ enrich_payload W fuel event_name event_url tr
           = (Ret payload, tr ++ (HttpGet <$> urls))
         ∧ PostToSlack.build_slack_message W event_name
             (<["event_name" := event_name]> payload) = Ret attachments
         ∧ (PostToSlack.post_to_slack W fuel event_name event_url tr).2
           = (tr ++ (HttpGet <$> urls))
               ++ [HttpPost hook
                     (JObj (dict_of [("attachments", attachments);
                                     ("username", JStr "Mode")]))]).
Proof.
  destruct (only_gets_enrich_payload W fuel event_name event_url tr) as [urls Hurls].
  exists urls. unfold PostToSlack.post_to_slack, mbind, M_bind, bind.
  destruct (enrich_payload W fuel event_name event_url tr) as [[p|e|] tr1];
    simpl in Hurls; subst tr1; [|by left..].
  unfold lift, getenv, emit.
  destruct (PostToSlack.build_slack_message W event_name _) as [a|e|] eqn:Hbuild;
    [|by left..].
  destruct (environ W !! "slack_webhook_url") as [hook|] eqn:Hhook; [|by left].
  right. exists hook, p, a. split; [done|]. split; [done|]. split; [done|].
  by destruct (http_post_text W hook _).
Qed.

(** The kinds of event the message builder knows. *)
Lemma build_slack_message_unknown (name : string) payload :
  name ∉ ["report_run_completed"; "report_created"; "member_joined_organization";
          "definition_created"; "definition_updated"; "new_database_connection"] →
  PostToSlack.build_slack_message W (JStr name) payload
  = Raise (Exception (format W "Unsupported event type: {}" [JStr name])).
Proof.
  intros Hname. unfold PostToSlack.build_slack_message. cbn [eq_str].
  repeat (case_bool_decide as Hn; [subst; exfalso; apply Hname; set_solver|clear Hn]).
  done.
Qed.

(** X5: the static table lists [report_run_started], but the message builder
    has no branch for it: [post_to_slack] on such an event performs the
    requests of the enrichment and then fails; it never posts and never
    returns. *)
Theorem post_to_slack_report_run_started event_url tr :
  is_Some (WEBHOOK_EVENTS !! "report_run_started")
  ∧ ∃ urls,
      (PostToSlack.post_to_slack W fuel (JStr "report_run_started") event_url tr).2
        = tr ++ (HttpGet <$> urls)
      ∧ ∀ r, (PostToSlack.post_to_slack W fuel (JStr "report_run_started") event_url tr).1
             ≠ Ret r.
Proof.
  split; [by eexists|].
  destruct (only_gets_enrich_payload W fuel (JStr "report_run_started") event_url tr)
    as [urls Hurls].
  exists urls. unfold PostToSlack.post_to_slack, mbind, M_bind, bind.
  destruct (enrich_payload W fuel (JStr "report_run_started") event_url tr)
    as [[p|e|] tr1]; simpl in Hurls; subst tr1; [|done..].
  unfold lift. rewrite build_slack_message_unknown; [done|].
  set_solver.
Qed.

End Dispatchers.

(** ** The Lambda entry points, past the first stage *)

Section HandlerStages.
Import Py Spec Hookrich Traces.
Context (W : world) (fuel : nat).

Lemma string_app_nil_r (s : string) : s +:+ "" = s.
Proof. induction s as [|c s IH]; [done|]. by rewrite app_cons, IH. Qed.

Lemma format_unsupported (name : string) :
  format W "Unsupported event type: {}" [JStr name] = "Unsupported event type: " +:+ name.
Proof.
  unfold format. cbn [fmap list_fmap str].
  change (format_go false "Unsupported event type: {}" [name])
    with ("Unsupported event type: " +:+ (name +:+ "")).
  by rewrite string_app_nil_r.
Qed.

(** The first stage on a body that decodes to an object with an [event]. *)
Lemma read_event_decoded event text (m : gmap string json) v :
  getitem "body" event = Ret (JStr text) →
  json_loads W text = Some (JObj m) →
  m !! "event" = Some v →
  PostToDestination.read_event W event = Ret (JObj m, v)
  ∧ PostToSlack.read_event W event = Ret (JObj m, v).
Proof.
  intros Hbody Hloads Hevent.
  unfold PostToDestination.read_event, PostToSlack.read_event.
  rewrite Hbody. cbn [mbind outcome_bind obind loads]. rewrite Hloads.
  cbn [mbind outcome_bind obind getitem]. by rewrite Hevent.
Qed.

(** X6: an event whose kind is not in the static table, or whose kind is in
    the table but whose body lacks the address field of that kind, gets the
    error result [Unsupported event type: <kind>] from both entry points; no
    request is made. *)
Theorem handlers_unsupported_event event context text (m : gmap string json)
    (name : string) tr :
  getitem "body" event = Ret (JStr text) →
  json_loads W text = Some (JObj m) →
  m !! "event" = Some (JStr name) →
  (WEBHOOK_EVENTS !! name = None
   ∨ ∃ entry field,
       WEBHOOK_EVENTS !! name = Some entry
       ∧ entry !! "url" = Some field
       ∧ m !! field = None) →
  PostToDestination.lambda_function_handler W fuel event context tr
  = (Ret (PostToDestination._response W
            [("result", JStr "error");
             ("message", JStr ("Unsupported event type: " +:+ name))]),
     tr ++ [LogInfo (format W "Received payload: {}" [event]);
            LogError ("Unsupported event type: " +:+ name)])
  ∧ PostToSlack.lambda_function_handler W fuel event context tr
    = (Ret (PostToSlack._response W
              [("result", JStr "error");
               ("message", JStr ("Unsupported event type: " +:+ name))]),
       tr ++ [LogInfo (format W "Received payload {}" [event]);
              LogError ("Unsupported event type: " +:+ name)]).
Proof.
  intros Hbody Hloads Hevent Hkind.
  destruct (read_event_decoded event text m (JStr name) Hbody Hloads Hevent) as [Hd Hs].
  assert (∃ k, PostToDestination.read_event_url W (JObj m) (JStr name) = Raise (KeyError k))
    as [k Hk].
  { unfold PostToDestination.read_event_url, table_getitem, entry_getitem.
    destruct Hkind as [->|(entry & field & -> & Hf & Hm)]; [by eexists|].
    cbn [mbind outcome_bind obind]. rewrite Hf.
    cbn [mbind outcome_bind obind getitem]. rewrite Hm. by eexists. }
  assert (PostToSlack.read_event_url W (JObj m) (JStr name) = Raise (KeyError k)) as Hk'
    by exact Hk.
  split.
  - unfold PostToDestination.lambda_function_handler.
    unfold mbind at 1, M_bind, bind, emit. rewrite Hd, Hk, format_unsupported.
    unfold PostToDestination.error_response, mbind, M_bind, bind, emit, ret.
    by rewrite <- app_assoc.
  - unfold PostToSlack.lambda_function_handler.
    unfold mbind at 1, M_bind, bind, emit. rewrite Hs, Hk', format_unsupported.
    unfold PostToSlack.error_response, mbind, M_bind, bind, emit, ret.
    by rewrite <- app_assoc.
Qed.

(** X7: an [event] value that is a list or an object cannot be looked up in
    the static table; the [TypeError] is not among the exceptions of the
    second stage, and both entry points raise it. *)
Theorem handlers_raise_on_unhashable_event event context text (m : gmap string json) v tr :
  getitem "body" event = Ret (JStr text) →
  json_loads W text = Some (JObj m) →
  m !! "event" = Some v →
  ((∃ l, v = JArr l) ∨ (∃ o, v = JObj o)) →
  PostToDestination.lambda_function_handler W fuel event context tr
  = (Raise TypeError, tr ++ [LogInfo (format W "Received payload: {}" [event])])
  ∧ PostToSlack.lambda_function_handler W fuel event context tr
    = (Raise TypeError, tr ++ [LogInfo (format W "Received payload {}" [event])]).
Proof.
  intros Hbody Hloads Hevent Hv.
  destruct (read_event_decoded event text m v Hbody Hloads Hevent) as [Hd Hs].
  split.
  - unfold PostToDestination.lambda_function_handler.
    unfold mbind at 1, M_bind, bind, emit. rewrite Hd.
    unfold PostToDestination.read_event_url, table_getitem.
    by destruct Hv as [[l ->]|[o ->]].
  - unfold PostToSlack.lambda_function_handler.
    unfold mbind at 1, M_bind, bind, emit. rewrite Hs.
    unfold PostToSlack.read_event_url, table_getitem.
    by destruct Hv as [[l ->]|[o ->]].
Qed.

(** X8: once the event kind and its address are read, an entry point never
    raises: whatever exception the dispatch raises, it is logged and becomes
    the [message] of an error result; a dispatch that returns gives a success
    result with its reply. *)
Theorem handlers_catch_dispatch_errors event context body event_name event_url tr :
  PostToDestination.read_event W event = Ret (body, event_name) →
  PostToDestination.read_event_url W body event_name = Ret event_url →
  let started kind := tr ++ [LogInfo (format W kind [event])] in
  (∀ e, (PostToDestination.lambda_function_handler W fuel event context tr).1 ≠ Raise e)
  ∧ (∀ e, (PostToSlack.lambda_function_handler W fuel event context tr).1 ≠ Raise e)
  ∧ (∀ e tr',
       PostToDestination.post_to_destination W fuel event_name event_url
         (started "Received payload: {}") = (Raise e, tr') →
       PostToDestination.lambda_function_handler W fuel event context tr
       = (Ret (PostToDestination._response W
                 [("result", JStr "error"); ("message", JStr (exn_message W e))]),
          tr' ++ [LogError (exn_message W e)]))
  ∧ (∀ e tr',
       PostToSlack.post_to_slack W fuel event_name event_url
         (started "Received payload {}") = (Raise e, tr') →
       PostToSlack.lambda_function_handler W fuel event context tr
       = (Ret (PostToSlack._response W
                 [("result", JStr "error"); ("message", JStr (exn_message W e))]),
          tr' ++ [LogError (exn_message W e)]))
  ∧ (∀ reply tr',
       PostToDestination.post_to_destination W fuel event_name event_url
         (started "Received payload: {}") = (Ret reply, tr') →
       PostToDestination.lambda_function_handler W fuel event context tr
       = (Ret (PostToDestination._response W
                 [("result", JStr "success"); ("response", reply)]), tr'))
  ∧ (∀ reply tr',
       PostToSlack.post_to_slack W fuel event_name event_url
         (started "Received payload {}") = (Ret reply, tr') →
       PostToSlack.lambda_function_handler W fuel event context tr
       = (Ret (PostToSlack._response W
                 [("result", JStr "success"); ("response", JStr reply)]), tr')).
Proof.
  intros Hd Hu started.
  assert (PostToSlack.read_event W event = Ret (body, event_name)) as Hs by exact Hd.
  assert (PostToSlack.read_event_url W body event_name = Ret event_url) as Hu' by exact Hu.
  assert (
    PostToDestination.lambda_function_handler W fuel event context tr
    = try_except
        (response ← PostToDestination.post_to_destination W fuel event_name event_url;
         ret (PostToDestination._response W
                [("result", JStr "success"); ("response", response)]))
        (λ _, true)
        (λ error, PostToDestination.error_response W (exn_message W error))
        (started "Received payload: {}")) as Hdest.
  { unfold PostToDestination.lambda_function_handler.
    unfold mbind at 1, M_bind, bind, emit. by rewrite Hd, Hu. }
  assert (
    PostToSlack.lambda_function_handler W fuel event context tr
    = try_except
        (response ← PostToSlack.post_to_slack W fuel event_name event_url;
         ret (PostToSlack._response W
                [("result", JStr "success"); ("response", JStr response)]))
        (λ _, true)
        (λ error, PostToSlack.error_response W (exn_message W error))
        (started "Received payload {}")) as Hslack.
  { unfold PostToSlack.lambda_function_handler.
    unfold mbind at 1, M_bind, bind, emit. by rewrite Hs, Hu'. }
  rewrite Hdest, Hslack. clear Hdest Hslack.
  unfold try_except, mbind, M_bind, bind.
  repeat split.
  - intros e. by destruct (PostToDestination.post_to_destination _ _ _ _ _) as [[?|?|] ?].
  - intros e. by destruct (PostToSlack.post_to_slack _ _ _ _ _) as [[?|?|] ?].
  - by intros e tr' ->.
  - by intros e tr' ->.
  - by intros reply tr' ->.
  - by intros reply tr' ->.
Qed.

End HandlerStages.

(** ** The messages of the chat dispatcher *)

Section Messages.
Import Py Spec Traces PostToSlack.
Context (W : world).

(** The one attachment of a message, field by field. *)
Lemma attachment_fields message color title more :
  more = [] ∨ (∃ v, more = [("fields", v)]) →
  ∃ m, attachment message color title more = JArr [JObj m]
     ∧ m !! "text" = Some (JStr message)
     ∧ m !! "fallback" = Some (JStr message)
     ∧ m !! "author_name" = Some (JStr "Mode")
     ∧ m !! "author_link" = Some (JStr "https://modeanalytics.com/")
     ∧ m !! "color" = Some (JStr color)
     ∧ m !! "title" = Some (JStr title).
Proof.
  intros [->|[v ->]]; eexists; (split; [reflexivity|]);
    cbn [dict_of foldl app fst snd]; repeat split; by simplify_map_eq.
Qed.

(** An alert, when the loop builds one, is a warning with a [fields] list. *)
Lemma alert_rows_attachment message rows a :
  alert_rows message rows None = Ret (Some a) →
  ∃ v, a = attachment message "warning" "Threshold Alert :heavy_exclamation_mark:"
             [("fields", v)].
Proof.
  induction rows as [|row rows IH]; [done|]. cbn [alert_rows].
  intros (observed & _ & H)%obind_Ret_inv.
  apply obind_Ret_inv in H as (n & _ & H).
  destruct (alerts_threshold <? n); [|by apply IH].
  injection H as <-. by eexists.
Qed.

Lemma report_run_completed_message_attachment payload a :
  report_run_completed_message W payload = Ret a →
  ∃ message color title more,
    a = attachment message color title more
    ∧ color ∈ ["good"; "warning"; "danger"]
    ∧ (more = [] ∨ ∃ v, more = [("fields", v)]).
Proof.
  unfold report_run_completed_message.
  intros (? & _ & H)%obind_Ret_inv.
  apply obind_Ret_inv in H as (? & _ & H).
  apply obind_Ret_inv in H as (? & _ & H).
  apply obind_Ret_inv in H as (? & _ & H).
  apply obind_Ret_inv in H as (? & _ & H).
  apply obind_Ret_inv in H as (state & Hstate & H).
  apply obind_Ret_inv in H as (watched & _ & H).
  apply obind_Ret_inv in H as ([att|] & Hatt & H); [|done].
  injection H as <-.
  destruct watched.
  - apply obind_Ret_inv in Hatt as (results & _ & Hatt).
    apply obind_Ret_inv in Hatt as (rows & _ & Hatt).
    apply alert_rows_attachment in Hatt as [v ->].
    eexists _, "warning", _, _. split; [done|]. split; [set_solver|]. right. by eexists.
  - rewrite Hstate in Hatt. cbn [mbind outcome_bind obind] in Hatt.
    destruct (eq_str state "succeeded").
    + apply obind_Ret_inv in Hatt as (d & _ & [= <-]).
      eexists _, "good", _, _. split; [done|]. split; [set_solver|]. by left.
    + cbn [mbind outcome_bind obind] in Hatt.
      destruct (eq_str state "failed"); [|done].
      apply obind_Ret_inv in Hatt as (c & _ & [= <-]).
      eexists _, "danger", _, _. split; [done|]. split; [set_solver|]. by left.
Qed.

Lemma build_slack_message_attachment event_name payload a :
  build_slack_message W event_name payload = Ret a →
  ∃ message color title more,
    a = attachment message color title more
    ∧ color ∈ ["good"; "warning"; "danger"]
    ∧ (more = [] ∨ ∃ v, more = [("fields", v)]).
Proof.
  unfold build_slack_message.
  destruct (eq_str event_name "report_run_completed");
    [apply report_run_completed_message_attachment|].
  destruct (eq_str event_name "report_created").
  { unfold report_created_message.
    intros (? & _ & H)%obind_Ret_inv.
    apply obind_Ret_inv in H as (? & _ & H).
    apply obind_Ret_inv in H as (? & _ & H).
    apply obind_Ret_inv in H as (? & _ & H).
    apply obind_Ret_inv in H as (? & _ & [= <-]).
    eexists _, "good", _, _. split; [done|]. split; [set_solver|]. by left. }
  destruct (eq_str event_name "member_joined_organization").
  { unfold member_joined_organization_message.
    intros (? & _ & H)%obind_Ret_inv.
    apply obind_Ret_inv in H as (? & _ & H).
    apply obind_Ret_inv in H as (? & _ & H).
    apply obind_Ret_inv in H as (? & _ & [= <-]).
    eexists _, "good", _, _. split; [done|]. split; [set_solver|]. by left. }
  destruct (eq_str event_name "definition_created").
  { unfold definition_created_message.
    intros (? & _ & H)%obind_Ret_inv.
    apply obind_Ret_inv in H as (? & _ & H).
    apply obind_Ret_inv in H as (? & _ & [= <-]).
    eexists _, "good", _, _. split; [done|]. split; [set_solver|]. by left. }
  destruct (eq_str event_name "definition_updated").
  { unfold definition_updated_message.
    intros (? & _ & H)%obind_Ret_inv.
    apply obind_Ret_inv in H as (? & _ & [= <-]).
    eexists _, "warning", _, _. split; [done|]. split; [set_solver|]. by left. }
  destruct (eq_str event_name "new_database_connection"); [|done].
  unfold new_database_connection_message.
  intros (? & _ & H)%obind_Ret_inv.
  apply obind_Ret_inv in H as (? & _ & H).
  apply obind_Ret_inv in H as (? & _ & H).
  apply obind_Ret_inv in H as (? & _ & [= <-]).
  eexists _, "good", _, _. split; [done|]. split; [set_solver|]. right. by eexists.
Qed.

(** X9: whatever the event and the payload, a message that
    [build_slack_message] returns is a list of exactly one attachment whose
    [fallback] equals its [text], whose author is [Mode] with the Mode
    address, and whose colour is [good], [warning] or [danger]. *)
Theorem build_slack_message_single_attachment event_name payload a :
  build_slack_message W event_name payload = Ret a →
  ∃ m text color,
    a = JArr [JObj m]
    ∧ m !! "text" = Some (JStr text)
    ∧ m !! "fallback" = Some (JStr text)
    ∧ m !! "author_name" = Some (JStr "Mode")
    ∧ m !! "author_link" = Some (JStr "https://modeanalytics.com/")
    ∧ m !! "color" = Some (JStr color)
    ∧ color ∈ ["good"; "warning"; "danger"].
Proof.
  intros (message & color & title & more & -> & Hcolor & Hmore)%build_slack_message_attachment.
  destruct (attachment_fields message color title more Hmore)
    as (m & -> & Ht & Hf & Hn & Hl & Hc & _).
  by exists m, message, color.
Qed.

(** X10: for a failed run the message is the [danger] attachment whose text
    names the executor, the report and the space and ends with the number of
    consecutive failures taken from the payload. *)
Theorem report_run_completed_failed payload executor url name space_url space_name count :
  common_fields payload executor url name space_url space_name →
  pget payload "report_run" "state" = Ret (JStr "failed") →
  pget payload "report" "consecutive_run_failures" = Ret count →
  report_run_completed_message W payload
  = Ret (attachment
           ("Oh no! " +:+ str W executor +:+ " just ran the <" +:+ str W url +:+ "|"
            +:+ str W name +:+ "> report in the <" +:+ str W space_url +:+ "|"
            +:+ str W space_name +:+ "> space and it failed. It has failed the last "
            +:+ str W count +:+ " run(s).")
           "danger" "Failed Report Run :sad-error:" []).
Proof.
  intros (H1 & H2 & H3 & H4 & H5) Hstate Hcount.
  unfold report_run_completed_message.
  rewrite H1, H2, H3, H4, H5, Hstate, Hcount. reflexivity.
Qed.

(** X11: for a run that succeeded on a report other than the watched one,
    the message is the [good] attachment whose text gives the execution
    duration of the payload; the result rows are not read. *)
Theorem report_run_completed_succeeded payload executor url name space_url space_name
    id duration :
  common_fields payload executor url name space_url space_name →
  pget payload "report_run" "state" = Ret (JStr "succeeded") →
  pget payload "report" "id" = Ret id →
  eq_int id alerts_report_id = false →
  pget payload "report_run" "execution_duration" = Ret duration →
  report_run_completed_message W payload
  = Ret (attachment
           ("Good news! " +:+ str W executor +:+ " just ran the <" +:+ str W url +:+ "|"
            +:+ str W name +:+ "> report in the <" +:+ str W space_url +:+ "|"
            +:+ str W space_name +:+ "> space and it succeeded. It took "
            +:+ str W duration +:+ " seconds to run.")
           "good" "Successful Report Run :success:" []).
Proof.
  intros (H1 & H2 & H3 & H4 & H5) Hstate Hid Hother Hduration.
  unfold report_run_completed_message.
  rewrite H1, H2, H3, H4, H5, Hstate, Hid.
  cbn [mbind outcome_bind obind eq_str]. rewrite bool_decide_eq_true_2 by done.
  cbn [mbind outcome_bind obind]. rewrite Hother.
  cbn [mbind outcome_bind obind eq_str]. rewrite Hduration. reflexivity.
Qed.

Lemma alert_rows_first_exceeding message before row after n attachments :
  Forall (λ r, ∃ k, getitem alerts_field r = Ret (JNum k) ∧ k ≤ alerts_threshold) before →
  getitem alerts_field row = Ret (JNum n) →
  alerts_threshold < n →
  alert_rows message (before ++ row :: after) attachments
  = Ret (Some (attachment message "warning" "Threshold Alert :heavy_exclamation_mark:"
                 [("fields", JArr [field_entry "Observed Value" (JNum n);
                                   field_entry "Threshold Value" (JNum alerts_threshold)])])).
Proof.
  intros Hbefore Hrow Hn.
  induction Hbefore as [|r before (k & Hr & Hk) _ IH]; cbn [app alert_rows].
  - rewrite Hrow. cbn [mbind outcome_bind obind as_int].
    by replace (alerts_threshold <? n) with true by (symmetry; apply Z.ltb_lt; lia).
  - rewrite Hr. cbn [mbind outcome_bind obind as_int].
    by replace (alerts_threshold <? k) with false by (symmetry; apply Z.ltb_ge; lia).
Qed.

(** X12: for a succeeded run of the watched report, the message is the
    [warning] attachment that reports the value of the first row above the
    threshold, beside the threshold itself; the rows after that one are not
    read. *)
Theorem report_run_completed_alert payload executor url name space_url space_name
    before row after n :
  common_fields payload executor url name space_url space_name →
  pget payload "report_run" "state" = Ret (JStr "succeeded") →
  pget payload "report" "id" = Ret (JNum alerts_report_id) →
  pget payload "report_run" "results" = Ret (JArr (before ++ row :: after)) →
  Forall (λ r, ∃ k, getitem alerts_field r = Ret (JNum k) ∧ k ≤ alerts_threshold) before →
  getitem alerts_field row = Ret (JNum n) →
  alerts_threshold < n →
  report_run_completed_message W payload
  = Ret (attachment
           ("Heads up! " +:+ str W executor +:+ " just ran the <" +:+ str W url +:+ "|"
            +:+ str W name +:+ "> report in the <" +:+ str W space_url +:+ "|"
            +:+ str W space_name
            +:+ "> space and it succeeded, but the total_amt_usd field exceeded the alert threshold.")
           "warning" "Threshold Alert :heavy_exclamation_mark:"
           [("fields", JArr [field_entry "Observed Value" (JNum n);
                             field_entry "Threshold Value" (JNum 1000)])]).
Proof.
  intros (H1 & H2 & H3 & H4 & H5) Hstate Hid Hres Hbefore Hrow Hn.
  unfold report_run_completed_message.
  rewrite H1, H2, H3, H4, H5, Hstate, Hid.
  cbn [mbind outcome_bind obind eq_str eq_int]. rewrite !bool_decide_eq_true_2 by done.
  cbn [mbind outcome_bind obind]. rewrite Hres.
  cbn [mbind outcome_bind obind iter].
  rewrite (alert_rows_first_exceeding _ before row after n None Hbefore Hrow Hn).
  reflexivity.
Qed.

End Messages.

(** ** Durations and addresses *)

Section AddressProps.
Import Py Spec Hookrich Traces.
#[local] Arguments startswith : simpl never.

Lemma duration_in_day started_at completed_at d :
  report_run_duration started_at completed_at = Ret d → 0 ≤ d < 86400.
Proof.
  destruct (datetime_iso_convert started_at) as [ta| |] eqn:Ha;
    [|unfold report_run_duration; by rewrite Ha..].
  destruct (datetime_iso_convert completed_at) as [tb| |] eqn:Hb;
    [|unfold report_run_duration; by rewrite Ha, Hb..].
  rewrite (report_run_duration_parsed _ _ ta tb Ha Hb). intros [= <-].
  apply Z.mod_pos_bound. lia.
Qed.

(** X13: whenever [report_run_duration] returns, its result is between 0
    and 86399, also when the run is reported to complete before it was
    created. *)
Theorem report_run_duration_range started_at completed_at d :
  report_run_duration started_at completed_at = Ret d → 0 ≤ d < 86400.
Proof. apply duration_in_day. Qed.

Lemma str_drop_app p s : str_drop (String.length p) (p +:+ s) = s.
Proof. induction p as [|c p IH]; [done|]. by rewrite app_cons. Qed.

Lemma str_take_app p s : str_take (String.length p) (p +:+ s) = p.
Proof.
  induction p as [|c p IH]; [by destruct s|]. rewrite app_cons. simpl. by rewrite IH.
Qed.

(** [split] with a bound on the number of cuts. *)
Lemma split_go_find sep n s :
  sep ≠ "" →
  split_go sep (S n) 0 s =
    match find sep s with
    | None => [s]
    | Some i => str_take i s :: split_go sep n 0 (str_drop (i + String.length sep) s)
    end.
Proof.
  intros Hsep. induction s as [|c s IH]; simpl.
  - by rewrite startswith_nil_r.
  - destruct (startswith sep (String c s)) eqn:E.
    + destruct sep as [|a sep]; [done|]. simpl. f_equal. apply split_go_skip.
    + rewrite IH. by destruct (find sep s).
Qed.

Lemma split_go_none sep n s : sep ≠ "" → find sep s = None → split_go sep n 0 s = [s].
Proof.
  intros Hsep Hs. destruct n as [|n]; [|by rewrite split_go_find, Hs].
  clear Hs. induction s as [|c s IH]; [done|]. simpl. by rewrite IH.
Qed.

Lemma find_app_here sub s : find sub (sub +:+ s) = Some O.
Proof.
  pose proof (startswith_app sub s) as H. destruct (sub +:+ s); simpl; by rewrite H.
Qed.

Lemma find_char_app a (o rest : string) :
  contains (String a "") o = false →
  find (String a "") (o +:+ String a rest) = Some (String.length o).
Proof.
  induction o as [|c o IH]; simpl.
  - intros _. rewrite startswith_cons, startswith_nil_l.
    by rewrite bool_decide_eq_true_2.
  - rewrite !startswith_cons, !startswith_nil_l, !andb_true_r.
    case_bool_decide; [done|]. simpl. intros Ho. by rewrite IH.
Qed.

(** X14: for an API address, that is the base address followed by
    [api/<org>/<rest>] where the organisation name holds no slash, the event
    URL has the text after the base address as its path and the organisation
    name as its [org]. *)
Theorem EventURL_api_address (o rest : string) :
  contains MODE_BASE_URL ("api/" +:+ o +:+ "/" +:+ rest) = false →
  contains "/" o = false →
  ∃ e,
    EventURL_init (JStr (MODE_BASE_URL +:+ "api/" +:+ o +:+ "/" +:+ rest)) = Ret e
    ∧ url e = MODE_BASE_URL +:+ "api/" +:+ o +:+ "/" +:+ rest
    ∧ path e = "api/" +:+ o +:+ "/" +:+ rest
    ∧ org e = Ret o.
Proof.
  intros Hbase%find_None_contains Ho.
  set (tail := "api/" +:+ o +:+ "/" +:+ rest) in *.
  exists (mk_EventURL (MODE_BASE_URL +:+ tail) tail).
  assert (EventURL_init (JStr (MODE_BASE_URL +:+ tail))
          = Ret (mk_EventURL (MODE_BASE_URL +:+ tail) tail)) as Hinit.
  { unfold EventURL_init, split_max.
    rewrite split_go_find, find_app_here by done.
    change (0 + String.length MODE_BASE_URL)%nat with (String.length MODE_BASE_URL).
    rewrite str_drop_app, split_go_none by done. done. }
  split; [done|]. split; [done|]. split; [done|].
  rewrite org_second_segment. cbn [path]. unfold after, before.
  assert (find "/" tail = Some 3%nat) as ->
    by (subst tail; destruct o; vm_compute; reflexivity).
  change (str_drop (3 + String.length "/") tail) with (o +:+ String "/" rest).
  rewrite (find_char_app "/" o rest Ho). by rewrite str_take_app.
Qed.

(** X15: [org] raises [IndexError] exactly when the path holds no slash. *)
Theorem org_needs_a_slash (e : EventURL) :
  org e = Raise IndexError ↔ contains "/" (path e) = false.
Proof.
  rewrite org_second_segment, <- find_None_contains. unfold after.
  destruct (find "/" (path e)); split; congruence.
Qed.

Lemma replace_go_none old new s :
  old ≠ "" → find old s = None → replace_go old new 0 s = s.
Proof.
  intros Hold. induction s as [|c s IH]; [done|]. simpl.
  destruct (startswith old (String c s)); [done|].
  destruct (find old s); [done|]. intros _. by rewrite IH.
Qed.

(** X16: [connection_url] turns the API address of a data source into its
    web address, [/organizations/] taking the place of [/api/]; an address
    without [/api/] is returned as it is. *)
Theorem connection_url_of_api_address :
  (∀ (rest p : string),
     contains "/api/" rest = false →
     connection_url (mk_EventURL (MODE_BASE_URL +:+ "api/" +:+ rest) p)
     = "https://modeanalytics.com/organizations/" +:+ rest)
  ∧ (∀ e : EventURL, contains "/api/" (url e) = false → connection_url e = url e).
Proof.
  split.
  - intros rest p Hrest%find_None_contains. unfold connection_url, replace. cbn [url].
    assert (replace_go "/api/" "/organizations/" 0 (MODE_BASE_URL +:+ "api/" +:+ rest)
            = "https://modeanalytics.com/organizations/"
              +:+ replace_go "/api/" "/organizations/" 0 rest) as ->
      by (destruct rest; vm_compute; reflexivity).
    by rewrite replace_go_none.
  - intros e He%find_None_contains. unfold connection_url, replace.
    by apply replace_go_none.
Qed.

(** X17: [report_url] never fails; it returns the address up to its first
    [/runs/] marker, or all of it when there is none, and what it returns
    holds no [/runs/] marker. *)
Theorem report_url_cuts_at_runs (e : EventURL) :
  ∃ r,
    report_url e = Ret r
    ∧ contains "/runs/" r = false
    ∧ (contains "/runs/" (url e) = false → r = url e)
    ∧ (contains "/runs/" (url e) = true → ∃ rest, url e = r +:+ "/runs/" +:+ rest).
Proof.
  exists (before "/runs/" (url e)). split; [apply report_url_before|].
  split; [by apply before_clean|]. split.
  - intros H%find_None_contains. unfold before. by rewrite H.
  - intros H. destruct (after "/runs/" (url e)) as [rest|] eqn:Hafter.
    + exists rest. by apply before_app_after.
    + unfold after in Hafter.
      destruct (find "/runs/" (url e)) eqn:Hfind; [done|].
      apply find_None_contains in Hfind. congruence.
Qed.

End AddressProps.

(** ** The entry point of the CSV logger *)

Section CsvHandler.
Import Py Spec LogUsageCsv.
Context (W : world) (py : interpreter).
#[local] Arguments startswith : simpl never.

Lemma cells_length q cols r : cells W py q cols = Ret r → length r = length cols.
Proof.
  revert r. induction cols as [|col cols IH]; intros r; cbn [cells].
  - by intros [= <-].
  - intros (c & _ & H)%obind_Ret_inv.
    apply obind_Ret_inv in H as (cs & Hcs & [= <-]).
    cbn [length]. f_equal. by apply IH.
Qed.

Lemma rows_of_six queries data rows :
  Forall (λ r, length r = 6%nat) data →
  rows_of W py queries data = Ret rows →
  Forall (λ r, length r = 6%nat) rows.
Proof.
  revert data. induction queries as [|q queries IH]; intros data Hdata; cbn [rows_of].
  - by intros [= <-].
  - intros (r & Hr%cells_length & H)%obind_Ret_inv.
    apply (IH (data ++ [r])); [|done].
    apply Forall_app_2; [done|]. by apply Forall_singleton.
Qed.

Lemma bind_run {A B} (m : M A) (k : A → M B) tr :
  (m ≫= k) tr = match m tr with
                | (Ret a, tr') => k a tr'
                | (Raise e, tr') => (Raise e, tr')
                | (Diverge, tr') => (Diverge, tr')
                end.
Proof. done. Qed.

Lemma getitem_terminates key v : getitem key v ≠ Diverge.
Proof. destruct v; try done. simpl. by destruct (m !! key). Qed.

Lemma cells_terminates q cols : cells W py q cols ≠ Diverge.
Proof.
  induction cols as [|col cols IH]; [done|]. cbn [cells]. unfold cell.
  pose proof (getitem_terminates col q) as Hq.
  destruct (getitem col q) as [v| |]; [|by destruct (bool_decide _)..].
  assert (str_encoded W py v ≠ Diverge) as Hv.
  { unfold str_encoded. destruct py, v; try done. by destruct (is_ascii s). }
  destruct (bool_decide (col = "raw_source")); cbn [mbind outcome_bind obind].
  - destruct v; try done. unfold encoded_replace. destruct py; [|done].
    cbn [mbind outcome_bind obind]. by destruct (cells W Python2 q cols).
  - destruct (str_encoded W py v); try done.
    cbn [mbind outcome_bind obind]. by destruct (cells W py q cols).
Qed.

Lemma rows_of_terminates queries data : rows_of W py queries data ≠ Diverge.
Proof.
  revert data. induction queries as [|q queries IH]; intros data; [done|].
  cbn [rows_of]. pose proof (cells_terminates q columns_list) as Hq.
  destruct (cells W py q columns_list); try done. apply IH.
Qed.

(** What [get_queries_info] does, whatever the platform answers: a run
    address that is not a text fails before any request; otherwise one
    request is made, and when rows come back each has six cells. *)
Lemma get_queries_info_run run_url tr :
  (∃ e, get_queries_info W py run_url tr = (Raise e, tr))
  ∨ ∃ u, run_url = JStr u
       ∧ ((∃ e, get_queries_info W py run_url tr
                = (Raise e, tr ++ [HttpGet (u +:+ "/query_runs")]))
          ∨ ∃ rows, get_queries_info W py run_url tr
                    = (Ret rows, tr ++ [HttpGet (u +:+ "/query_runs")])
                  ∧ Forall (λ r, length r = 6%nat) rows).
Proof.
  destruct run_url as [| | |u| |]; try (left; by exists TypeError).
  right. exists u. split; [done|].
  unfold get_queries_info, mbind, M_bind, bind, lift, emit, ret, raise.
  destruct (http_get_json W (u +:+ "/query_runs")) as [doc|];
    [|left; by exists RequestException].
  match goal with
  | |- context [(?o, tr ++ [HttpGet _])] =>
      lazymatch o with
      | outcome_bind _ _ _ _ => destruct o as [rows|e|] eqn:Hrows
      end
  end.
  - right. exists rows. split; [done|].
    apply obind_Ret_inv in Hrows as (embedded & _ & Hrows).
    apply obind_Ret_inv in Hrows as (query_runs & _ & Hrows).
    apply obind_Ret_inv in Hrows as (queries & _ & Hrows).
    by apply (rows_of_six queries []).
  - left. by exists e.
  - exfalso. revert Hrows.
    destruct (getitem "_embedded" doc) as [embedded| |] eqn:H1; try done;
      [|by apply getitem_terminates in H1].
    cbn [mbind outcome_bind obind].
    destruct (getitem "query_runs" embedded) as [query_runs| |] eqn:H2; try done;
      [|by apply getitem_terminates in H2].
    cbn [mbind outcome_bind obind].
    destruct (iter query_runs) as [queries| |] eqn:Hiter; try done;
      [|by destruct query_runs].
    apply rows_of_terminates.
Qed.

(** X18: the logger acts on [report_run_completed] only.  For a body that
    decodes to an object with any other event name, or with none, it
    requests nothing, writes nothing and answers [success]. *)
Theorem log_usage_ignores_other_events event context raw (body : gmap string json) tr :
  dict_get "body" (JStr "{}") event = Ret raw →
  loads W raw = Ret (JObj body) →
  eq_str (default (JStr "") (body !! "event")) "report_run_completed" = false →
  lambda_handler W py event context tr = (Ret (JObj {[ "body" := JStr "success" ]}), tr).
Proof.
  intros Hraw Hbody Hname.
  unfold lambda_handler, mbind at 1, M_bind, bind, lift. rewrite Hraw.
  cbn [mbind outcome_bind obind]. rewrite Hbody.
  unfold mbind, M_bind, bind, lift. cbn [dict_get]. by rewrite Hname.
Qed.

(** The handler either stops before the fetch, or does what the fetch of the
    query runs does and then writes the rows. *)
Lemma lambda_handler_run event context tr :
  lambda_handler W py event context tr = (Ret (JObj {[ "body" := JStr "success" ]}), tr)
  ∨ (∃ e, lambda_handler W py event context tr = (Raise e, tr))
  ∨ ∃ run_url,
      lambda_handler W py event context tr
      = match get_queries_info W py run_url tr with
        | (Ret rows, tr') =>
            (Ret (JObj {[ "body" := JStr "success" ]}),
             tr' ++ (CsvWriteRow "file_name.csv" <$> rows))
        | (Raise e, tr') => (Raise e, tr')
        | (Diverge, tr') => (Diverge, tr')
        end.
Proof.
  destruct (lambda_handler W py event context tr) as [o tr'] eqn:Hrun.
  unfold lambda_handler in Hrun. rewrite bind_run in Hrun. unfold lift at 1 in Hrun.
  destruct (dict_get "body" (JStr "{}") event ≫= loads W) as [body|e|] eqn:Hbody.
  2:{ injection Hrun as <- <-. right; left. by exists e. }
  2:{ exfalso. revert Hbody. destruct event; try done.
      cbn [dict_get mbind outcome_bind obind].
      unfold loads. destruct (default (JStr "{}") (m !! "body")); try done.
      by destruct (json_loads W s). }
  rewrite bind_run in Hrun. unfold lift at 1 in Hrun.
  destruct (dict_get "event" (JStr "") body) as [event_name|e|] eqn:Hname.
  2:{ injection Hrun as <- <-. right; left. by exists e. }
  2:{ by destruct body. }
  rewrite bind_run in Hrun. unfold lift at 1 in Hrun.
  destruct (dict_get "report_run_url" (JStr "") body) as [run_url|e|] eqn:Hurl.
  2:{ injection Hrun as <- <-. right; left. by exists e. }
  2:{ by destruct body. }
  rewrite bind_run in Hrun.
  destruct (eq_str event_name "report_run_completed").
  2:{ injection Hrun as <- <-. by left. }
  right; right. exists run_url. rewrite bind_run in Hrun. rewrite <- Hrun.
  destruct (get_queries_info W py run_url tr) as [[rows|e|] tr1]; [|done..].
  by rewrite log_to_csv_trace.
Qed.

(** X19: the logger writes all rows or none, after at most one request.
    Whatever the event and whatever the platform answers, one of three things
    happens: the handler answers [success] having done nothing; it answers
    [success] after one request to [<run address>/query_runs] followed by the
    rows, of six cells each, written to [file_name.csv]; or it raises, with
    at most that one request made and nothing written. *)
Theorem log_usage_all_or_nothing event context tr :
  lambda_handler W py event context tr = (Ret (JObj {[ "body" := JStr "success" ]}), tr)
  ∨ (∃ u rows,
       lambda_handler W py event context tr
       = (Ret (JObj {[ "body" := JStr "success" ]}),
          tr ++ HttpGet (u +:+ "/query_runs") :: (CsvWriteRow "file_name.csv" <$> rows))
       ∧ Forall (λ r, length r = 6%nat) rows)
  ∨ ∃ e, lambda_handler W py event context tr = (Raise e, tr)
         ∨ ∃ u, lambda_handler W py event context tr
                = (Raise e, tr ++ [HttpGet (u +:+ "/query_runs")]).
Proof.
  destruct (lambda_handler_run event context tr) as [H|[[e H]|[run_url H]]].
  - by left.
  - right; right. exists e. by left.
  - right. rewrite H.
    destruct (get_queries_info_run run_url tr)
      as [[e ->]|(u & -> & [[e ->]|(rows & -> & Hrows)])].
    + right. exists e. by left.
    + right. exists e. right. by exists u.
    + left. exists u, rows. split; [|done]. by rewrite <- app_assoc.
Qed.

(** A complete row needs every cell. *)
Lemma cells_each q cols r col :
  cells W py q cols = Ret r → col ∈ cols → ∃ c, cell W py q col = Ret c.
Proof.
  revert r. induction cols as [|col' cols IH]; intros r; cbn [cells].
  - intros _ Hcol. by apply elem_of_nil in Hcol.
  - intros (c & Hc & H)%obind_Ret_inv.
    apply obind_Ret_inv in H as (cs & Hcs & _).
    intros [->|Hcol]%elem_of_cons; [by exists c|]. by apply (IH cs).
Qed.

End CsvHandler.

Section CsvPython3.
Import Py Spec LogUsageCsv.
Context (W : world).

(** Under Python 3 the [raw_source] cell is never built. *)
Lemma raw_source_cell_python3 q c : cell W Python3 q "raw_source" ≠ Ret c.
Proof.
  unfold cell. rewrite bool_decide_eq_true_2 by done.
  destruct (getitem "raw_source" q) as [[]| |]; done.
Qed.

Lemma rows_of_python3 queries data rows :
  rows_of W Python3 queries data = Ret rows → queries = [] ∧ rows = data.
Proof.
  destruct queries as [|q queries]; cbn [rows_of]; [by intros [= <-]|].
  intros (r & Hr & _)%obind_Ret_inv.
  apply (cells_each W Python3 q columns_list r "raw_source") in Hr as [c Hc].
  - by apply raw_source_cell_python3 in Hc.
  - unfold columns_list. set_solver.
Qed.

(** X20: read as Python 3, the logger never writes a row.  Whatever the
    event and whatever the platform answers, the handler sends at most one
    GET request and does nothing else: a fetched record makes line 45 raise
    before any row is complete, and the rows are written only after all of
    them are built. *)
Theorem log_usage_python3_writes_nothing event context tr :
  ∃ requests,
    (lambda_handler W Python3 event context tr).2 = tr ++ (HttpGet <$> requests)
    ∧ (length requests ≤ 1)%nat.
Proof.
  destruct (lambda_handler_run W Python3 event context tr) as [H|[[e H]|[run_url H]]].
  - exists []. rewrite H. split; [simpl; by rewrite app_nil_r|simpl; lia].
  - exists []. rewrite H. split; [simpl; by rewrite app_nil_r|simpl; lia].
  - rewrite H.
    destruct (get_queries_info_run W Python3 run_url tr)
      as [[e He]|(u & -> & [[e He]|(rows & He & _)])]; rewrite He.
    + exists []. split; [simpl; by rewrite app_nil_r|simpl; lia].
    + exists [u +:+ "/query_runs"]. split; [done|simpl; lia].
    + exists [u +:+ "/query_runs"]. split; [|simpl; lia]. cbn [snd].
      assert (rows = []) as ->; [|by rewrite app_nil_r].
      revert He. unfold get_queries_info.
      intros (a & ? & _ & H1)%bind_Ret_inv.
      apply bind_Ret_inv in H1 as (? & ? & _ & H1).
      apply bind_Ret_inv in H1 as (doc & ? & _ & (H1 & _)%lift_Ret_inv).
      apply obind_Ret_inv in H1 as (embedded & _ & H1).
      apply obind_Ret_inv in H1 as (query_runs & _ & H1).
      apply obind_Ret_inv in H1 as (queries & _ & H1).
      by apply rows_of_python3 in H1 as [_ ->].
Qed.

End CsvPython3.

(** ** The fields of the enriched payload *)

Section FieldProps.
Import Py Spec Hookrich Traces Fields.
Context (W : world) (fuel : nat).

Lemma holds_here name inner fields (q : gmap string json) :
  dom inner = list_to_set fields →
  holds (dict_update q (namespaced name inner)) name fields.
Proof.
  intros H. exists inner. split; [|done]. unfold dict_update, namespaced.
  apply lookup_union_Some_l, lookup_singleton_eq.
Qed.

Lemma holds_under name fields (p : gmap string json) name' inner' :
  name ≠ name' → holds p name fields →
  holds (dict_update p (namespaced name' inner')) name fields.
Proof.
  intros Hne (inner & Hp & Hd). exists inner. split; [|done].
  unfold dict_update, namespaced. rewrite lookup_union_r; [done|].
  by apply lookup_singleton_ne.
Qed.

Lemma holds_namespaced name inner fields :
  dom inner = list_to_set fields → holds (namespaced name inner) name fields.
Proof. intros H. exists inner. split; [apply lookup_singleton_eq|done]. Qed.

Lemma holds_pget p a fields b :
  holds p a fields → b ∈ fields → ∃ x, PostToSlack.pget p a b = Ret x.
Proof.
  intros (inner & Hp & Hd) Hb. unfold PostToSlack.pget. cbn [getitem]. rewrite Hp.
  cbn [mbind outcome_bind obind getitem].
  assert (is_Some (inner !! b)) as [x Hx].
  { apply elem_of_dom. rewrite Hd. by apply elem_of_list_to_set. }
  exists x. by rewrite Hx.
Qed.

(** Each fetcher returns one object under its own name, with the fields of
    its dict literal. *)
Ltac fetched :=
  repeat match goal with
         | H : _mode_api_get _ _ _ = (Ret _, _) |- _ => clear H
         | H : (_ ≫= _) _ = (Ret _, _) |- _ =>
             apply bind_Ret_inv in H as (? & ? & ? & H)
         | H : ret _ _ = (Ret _, _) |- _ => apply ret_inv in H as [<- ->]
         end;
  match goal with
  | H : build_dict _ [] _ = (Ret ?inner, _) |- _ =>
      apply build_dict_dom in H; exists inner; split; [done|];
      rewrite H; clear; cbn; set_solver
  end.

Lemma get_report_run_info_fields u tr p tr' :
  get_report_run_info W u tr = (Ret p, tr') →
  ∃ inner, p = namespaced "report_run" inner ∧ dom inner = list_to_set report_run_fields.
Proof. unfold get_report_run_info. intros H. fetched. Qed.

Lemma get_report_info_fields u tr p tr' :
  get_report_info W fuel u tr = (Ret p, tr') →
  ∃ inner, p = namespaced "report" inner ∧ dom inner = list_to_set report_fields.
Proof. unfold get_report_info. intros H. fetched. Qed.

Lemma get_space_info_fields u tr p tr' :
  get_space_info W u tr = (Ret p, tr') →
  ∃ inner, p = namespaced "space" inner ∧ dom inner = list_to_set space_fields.
Proof. unfold get_space_info. intros H. fetched. Qed.

Lemma get_definition_info_fields e tr p tr' :
  get_definition_info W e tr = (Ret p, tr') →
  ∃ inner, p = namespaced "definition" inner ∧ dom inner = list_to_set definition_fields.
Proof. unfold get_definition_info. intros H. fetched. Qed.

Lemma get_connection_info_fields e tr p tr' :
  get_connection_info W e tr = (Ret p, tr') →
  ∃ inner, p = namespaced "connection" inner ∧ dom inner = list_to_set connection_fields.
Proof. unfold get_connection_info. intros H. fetched. Qed.

Lemma get_org_info_fields o tr p tr' :
  get_org_info W o tr = (Ret p, tr') →
  ∃ inner, p = namespaced "organization" inner
         ∧ dom inner = list_to_set organization_fields.
Proof. unfold get_org_info. intros H. fetched. Qed.

Lemma get_user_info_fields u tr p tr' :
  get_user_info W u tr = (Ret p, tr') →
  ∃ inner, p = namespaced "user" inner ∧ dom inner = list_to_set user_fields.
Proof. unfold get_user_info. intros H. fetched. Qed.

Lemma get_membership_info_fields e tr p tr' :
  get_membership_info W e tr = (Ret p, tr') →
  holds p "membership" membership_fields
  ∧ holds p "user" user_fields
  ∧ holds p "organization" organization_fields.
Proof.
  unfold get_membership_info.
  intros (a & ? & _ & H)%bind_Ret_inv.
  apply bind_Ret_inv in H as (doc & ? & _ & H).
  apply bind_Ret_inv in H as (links & ? & _ & H).
  apply bind_Ret_inv in H as (organization & ? & _ & H).
  apply bind_Ret_inv in H as (username & ? & _ & H).
  apply bind_Ret_inv in H as (token & ? & _ & H).
  apply bind_Ret_inv in H as (inner & ? & Hdict%build_dict_dom & H).
  apply bind_Ret_inv in H as (user_info & ? & (iu & -> & Hu)%get_user_info_fields & H).
  apply bind_Ret_inv in H
    as (org_info & ? & (io & -> & Ho)%get_org_info_fields & (<- & ->)%ret_inv).
  split; [|split].
  - apply holds_under; [done|]. apply holds_under; [done|].
    apply holds_namespaced. rewrite Hdict. clear. cbn. set_solver.
  - apply holds_under; [done|]. by apply holds_here.
  - by apply holds_here.
Qed.

(** X21: whenever [enrich_payload] returns for an event of the static
    table, the payload holds, for each object of the event's scope, exactly
    the fields of the dict literal of the fetcher that builds it.  For a run
    event these include the five fields that every branch of the Slack
    message for a completed run reads first. *)
Theorem enrich_payload_fields (name : string) entry scope v payload tr tr' :
  WEBHOOK_EVENTS !! name = Some entry →
  entry !! "scope" = Some scope →
  enrich_payload W fuel (JStr name) v tr = (Ret payload, tr') →
  Forall (λ nf, holds payload nf.1 nf.2) (scope_fields scope)
  ∧ (scope = "report_run" → has_common_fields payload).
Proof.
  intros Hname Hscope. unfold enrich_payload.
  intros (e & ? & (He & ->)%lift_Ret_inv & H)%bind_Ret_inv.
  apply bind_Ret_inv in H as (scope' & ? & (Hs & ->)%lift_Ret_inv & H).
  unfold table_getitem, entry_getitem in Hs. rewrite Hname in Hs.
  cbn [mbind outcome_bind obind] in Hs. rewrite Hscope in Hs.
  injection Hs as <-.
  unfold scope_fields.
  repeat case_bool_decide; subst; try done.
  - apply bind_Ret_inv in H as (p1 & ? & (i1 & -> & H1)%get_report_run_info_fields & H).
    apply bind_Ret_inv in H as (r & ? & _ & H).
    apply bind_Ret_inv in H as (p2 & ? & (i2 & -> & H2)%get_report_info_fields & H).
    apply bind_Ret_inv in H as (sp & ? & _ & H).
    apply bind_Ret_inv in H
      as (p3 & ? & (i3 & -> & H3)%get_space_info_fields & (<- & ->)%ret_inv).
    assert (holds (dict_update (dict_update (namespaced "report_run" i1)
                                  (namespaced "report" i2)) (namespaced "space" i3))
              "report_run" report_run_fields) as Hrun.
    { apply holds_under; [done|]. apply holds_under; [done|]. by apply holds_namespaced. }
    assert (holds (dict_update (dict_update (namespaced "report_run" i1)
                                  (namespaced "report" i2)) (namespaced "space" i3))
              "report" report_fields) as Hreport.
    { apply holds_under; [done|]. by apply holds_here. }
    assert (holds (dict_update (dict_update (namespaced "report_run" i1)
                                  (namespaced "report" i2)) (namespaced "space" i3))
              "space" space_fields) as Hspace by by apply holds_here.
    split; [by repeat constructor|]. intros _.
    repeat split; eapply holds_pget; try eassumption;
      unfold report_fields, report_run_fields, space_fields; clear; set_solver.
  - apply bind_Ret_inv in H as (p2 & ? & (i2 & -> & H2)%get_report_info_fields & H).
    apply bind_Ret_inv in H as (sp & ? & _ & H).
    apply bind_Ret_inv in H
      as (p3 & ? & (i3 & -> & H3)%get_space_info_fields & (<- & ->)%ret_inv).
    split; [|done]. repeat constructor; cbn [fst snd].
    + apply holds_under; [done|]. by apply holds_namespaced.
    + by apply holds_here.
  - apply get_membership_info_fields in H as (Hm & Hu & Ho).
    split; [|done]. by repeat constructor.
  - apply get_connection_info_fields in H as (inner & -> & Hd).
    split; [|done]. repeat constructor. by apply holds_namespaced.
  - apply get_definition_info_fields in H as (inner & -> & Hd).
    split; [|done]. repeat constructor. by apply holds_namespaced.
Qed.

Lemma count_pages_ge pages c n : count_pages pages c = Ret n → c ≤ n.
Proof.
  revert c. induction pages as [|page pages IH]; intros c; cbn [count_pages].
  - intros [= <-]. lia.
  - intros (embedded & _ & H)%obind_Ret_inv.
    apply obind_Ret_inv in H as (runs & _ & H).
    apply obind_Ret_inv in H as (items & _ & H).
    apply obind_Ret_inv in H as (broke & _ & H).
    destruct broke; [injection H as <-; lia|].
    apply obind_Ret_inv in H as (k & Hk & H%IH).
    assert (0 ≤ k); [|lia].
    destruct runs; try done; injection Hk as <-; lia.
Qed.

Lemma pget_here (q : gmap string json) name inner b :
  PostToSlack.pget (dict_update q (namespaced name inner)) name b = getitem b (JObj inner).
Proof.
  unfold PostToSlack.pget, dict_update, namespaced. cbn [getitem].
  by rewrite (lookup_union_Some_l _ _ _ (JObj inner)) by apply lookup_singleton_eq.
Qed.

Lemma pget_under (p : gmap string json) name name' inner' b :
  name ≠ name' →
  PostToSlack.pget (dict_update p (namespaced name' inner')) name b
  = PostToSlack.pget p name b.
Proof.
  intros Hne. unfold PostToSlack.pget, dict_update, namespaced. cbn [getitem].
  rewrite lookup_union_r; [done|]. by apply lookup_singleton_ne.
Qed.

Lemma pget_namespaced name inner b :
  PostToSlack.pget (namespaced name inner) name b = getitem b (JObj inner).
Proof.
  unfold PostToSlack.pget, namespaced. cbn [getitem]. by rewrite lookup_singleton_eq.
Qed.

(** X22: the two numbers that the fetchers compute themselves.  In every
    enriched payload of a run event, [execution_duration] is a whole number
    of seconds from 0 to 86399 and [consecutive_run_failures] is a number
    that is not negative. *)
Theorem enrich_payload_run_numbers (name : string) entry v payload tr tr' :
  WEBHOOK_EVENTS !! name = Some entry →
  entry !! "scope" = Some "report_run" →
  enrich_payload W fuel (JStr name) v tr = (Ret payload, tr') →
  ∃ d n,
    PostToSlack.pget payload "report_run" "execution_duration" = Ret (JNum d)
    ∧ 0 ≤ d < 86400
    ∧ PostToSlack.pget payload "report" "consecutive_run_failures" = Ret (JNum n)
    ∧ 0 ≤ n.
Proof.
  intros Hname Hscope. unfold enrich_payload.
  intros (e & ? & (He & ->)%lift_Ret_inv & H)%bind_Ret_inv.
  apply bind_Ret_inv in H as (scope' & ? & (Hs & ->)%lift_Ret_inv & H).
  unfold table_getitem, entry_getitem in Hs. rewrite Hname in Hs.
  cbn [mbind outcome_bind obind] in Hs. rewrite Hscope in Hs.
  injection Hs as <-.
  rewrite bool_decide_eq_true_2 in H by done.
  apply bind_Ret_inv in H as (p1 & ? & H1 & H).
  apply bind_Ret_inv in H as (r & ? & _ & H).
  apply bind_Ret_inv in H as (p2 & ? & H2 & H).
  apply bind_Ret_inv in H as (sp & ? & _ & H).
  apply bind_Ret_inv in H
    as (p3 & ? & (i3 & -> & _)%get_space_info_fields & (<- & ->)%ret_inv).
  unfold get_report_run_info in H1.
  apply bind_Ret_inv in H1 as (data & ? & _ & H1).
  apply bind_Ret_inv in H1 as (results & ? & _ & H1).
  apply bind_Ret_inv in H1 as (i1 & ? & Hd1 & (<- & ->)%ret_inv).
  eapply (build_dict_lookup _ 12 "execution_duration") in Hd1 as (x & ? & ? & Hx & Hi1);
    [|reflexivity|cbn; clear; set_solver].
  apply lift_Ret_inv in Hx as [Hx _].
  apply obind_Ret_inv in Hx as (created_at & _ & Hx).
  apply obind_Ret_inv in Hx as (completed_at & _ & Hx).
  apply obind_Ret_inv in Hx as (d & Hd%duration_in_day & [= <-]).
  unfold get_report_info in H2.
  apply bind_Ret_inv in H2 as (data2 & ? & _ & H2).
  apply bind_Ret_inv in H2 as (i2 & ? & Hd2 & (<- & ->)%ret_inv).
  eapply (build_dict_lookup _ 16 "consecutive_run_failures") in Hd2
    as (y & ? & ? & Hy & Hi2); [|reflexivity|cbn; clear; set_solver].
  apply bind_Ret_inv in Hy as (n & ? & Hn & (<- & _)%ret_inv).
  unfold consecutive_run_failures in Hn.
  apply bind_Ret_inv in Hn as (pages & ? & _ & (Hn%count_pages_ge & _)%lift_Ret_inv).
  exists d, n.
  rewrite !pget_under, pget_namespaced, pget_here by done.
  cbn [getitem]. rewrite Hi1, Hi2. done.
Qed.

End FieldProps.

(** * Instances in the sample deployment *)

Section Instances.
Import Py Spec Hookrich.

Ltac by_evaluation := vm_compute; reflexivity.
Ltac is_set := eexists; by_evaluation.

(** [get_report_runs_bounded] on a history of twelve pages that announces
    twelve: ten requests. *)
Lemma get_report_runs_bounded_witness :
  let W := Sample.long_history_world 12 12 in
  let pages := Sample.history 12 12 in
  is_Some (environ W !! "api_token")
  ∧ is_Some (environ W !! "api_password")
  ∧ serves W (Sample.report_address +:+ "/runs") 1 pages
  ∧ head pages = Some (Sample.history_page 12 1)
  ∧ total_pages (Sample.history_page 12 1) = Ret (JNum 12)
  ∧ (Z.to_nat (Z.max 1 (Z.min 12 10)) ≤ length pages)%nat
  ∧ (10 ≤ 10)%nat
  ∧ ∃ requests,
      get_report_runs W 10 Sample.report_address []
      = (Ret (take (Z.to_nat (Z.max 1 (Z.min 12 10))) pages), [] ++ (HttpGet <$> requests))
      ∧ requests = take (Z.to_nat (Z.max 1 (Z.min 12 10)))
                     (addresses (Sample.report_address +:+ "/runs") pages)
      ∧ length requests = Z.to_nat (Z.max 1 (Z.min 12 10))
      ∧ (length requests ≤ 10)%nat
      ∧ (12 = 3 → length requests = 3%nat).
Proof.
  cbv zeta.
  assert (is_Some (environ (Sample.long_history_world 12 12) !! "api_token")) as H1 by is_set.
  assert (is_Some (environ (Sample.long_history_world 12 12) !! "api_password")) as H2 by is_set.
  assert (serves (Sample.long_history_world 12 12) (Sample.report_address +:+ "/runs") 1
            (Sample.history 12 12)) as H3.
  { change (Sample.history 12 12) with (Sample.history_page 12 <$> seq 1 12).
    cbn [seq fmap list_fmap serves].
    repeat (split; [by_evaluation|split; [by_evaluation|]];
            try (eexists; split; [by_evaluation|])).
    exact I. }
  assert (head (Sample.history 12 12) = Some (Sample.history_page 12 1)) as H4 by reflexivity.
  assert (total_pages (Sample.history_page 12 1) = Ret (JNum 12)) as H5 by by_evaluation.
  assert (Z.to_nat (Z.max 1 (Z.min 12 10)) ≤ length (Sample.history 12 12))%nat as H6
    by (vm_compute; lia).
  assert (10 ≤ 10)%nat as H7 by lia.
  repeat (split; [assumption|]).
  exact (get_report_runs_bounded (Sample.long_history_world 12 12) H1 H2 10
           Sample.report_address (Sample.history 12 12) (Sample.history_page 12 1) 12 []
           H3 H4 H5 H6 H7).
Defined.

(** [csv_one_row_per_record] on the query runs of the sample report run. *)
Example csv_one_row_per_record_sample :
  let W := Sample.sample_world "succeeded" in
  let q := Sample.obj
             [("query_token", JStr "q1"); ("state", JStr "succeeded");
              ("created_at", JStr "2020-01-01T00:00:00.000000Z");
              ("completed_at", JStr "2020-01-01T00:00:10.000000Z");
              ("raw_source", JStr ("select a,  b" +:+ LogUsageCsv.nl +:+ "    from t"));
              ("parameters", JNull)] in
  let r := mk_query_run "q1" "succeeded"
             "2020-01-01T00:00:00.000000Z" "2020-01-01T00:00:10.000000Z"
             ("select a,  b" +:+ LogUsageCsv.nl +:+ "    from t") "None" in
  http_get_json W (Sample.run_url +:+ "/query_runs") = Some Sample.query_runs_doc
  ∧ (embedded ← getitem "_embedded" Sample.query_runs_doc;
     getitem "query_runs" embedded) = Ret (JArr [q])
  ∧ Forall2 (carries W) [q] [r]
  ∧ (queries_info ← LogUsageCsv.get_queries_info W LogUsageCsv.Python2 (JStr Sample.run_url);
     LogUsageCsv.log_to_csv queries_info) []
    = (Ret tt,
       [] ++ HttpGet (Sample.run_url +:+ "/query_runs")
          :: (CsvWriteRow "file_name.csv" <$> (row <$> [r])))
  ∧ Forall (λ r, ∃ cell,
              row r !! 4%nat = Some cell
              ∧ cell = replace "    " "" (replace LogUsageCsv.nl " " (raw_source r))
              ∧ contains LogUsageCsv.nl cell = false) [r].
Proof.
  cbv zeta.
  split; [by_evaluation|]. split; [by_evaluation|].
  assert (Forall2 (carries (Sample.sample_world "succeeded"))
    [Sample.obj
       [("query_token", JStr "q1"); ("state", JStr "succeeded");
        ("created_at", JStr "2020-01-01T00:00:00.000000Z");
        ("completed_at", JStr "2020-01-01T00:00:10.000000Z");
        ("raw_source", JStr ("select a,  b" +:+ LogUsageCsv.nl +:+ "    from t"));
        ("parameters", JNull)]]
    [mk_query_run "q1" "succeeded"
       "2020-01-01T00:00:00.000000Z" "2020-01-01T00:00:10.000000Z"
       ("select a,  b" +:+ LogUsageCsv.nl +:+ "    from t") "None"]) as Hrecs.
  { repeat constructor. eexists. split; [reflexivity|].
    split; [eexists; split; by_evaluation|].
    split; [eexists; split; by_evaluation|].
    split; [eexists; split; by_evaluation|].
    split; [eexists; split; by_evaluation|].
    split; [by_evaluation|eexists; split; by_evaluation]. }
  split; [exact Hrecs|].
  refine (csv_one_row_per_record (Sample.sample_world "succeeded") Sample.run_url
            Sample.query_runs_doc _ _ [] _ _ Hrecs); by_evaluation.
Defined.

(** [enrich_payload_unknown_event] on an event name the table lacks. *)
Lemma enrich_payload_unknown_event_witness :
  let W := Sample.sample_world "succeeded" in
  WEBHOOK_EVENTS !! "report_deleted" = None
  ∧ (∀ u : string,
       enrich_payload W 10 (JStr "report_deleted") (JStr u) []
       = (Raise (KeyError "report_deleted"), []))
  ∧ (∀ v : json, ∃ e, enrich_payload W 10 (JStr "report_deleted") v [] = (Raise e, [])).
Proof.
  cbv zeta.
  assert (WEBHOOK_EVENTS !! "report_deleted" = None) as H by by_evaluation.
  split; [exact H|].
  exact (enrich_payload_unknown_event (Sample.sample_world "succeeded") 10
           "report_deleted" [] H).
Defined.



(** [report_run_completed_under_threshold_unbound] on the sample report,
    which is the watched one; its rows hold 500 and 900. *)
Lemma report_run_completed_under_threshold_unbound_witness :
  let W := Sample.sample_world "succeeded" in
  let payload := Sample.run_completed_payload "succeeded" in
  let rows := [Sample.obj [("total_amt_usd", JNum 500)];
               Sample.obj [("total_amt_usd", JNum 900)]] in
  has_common_fields payload
  ∧ PostToSlack.pget payload "report_run" "state" = Ret (JStr "succeeded")
  ∧ PostToSlack.pget payload "report" "id" = Ret (JNum PostToSlack.alerts_report_id)
  ∧ PostToSlack.pget payload "report_run" "results" = Ret (JArr rows)
  ∧ Forall (λ row, ∃ n, getitem PostToSlack.alerts_field row = Ret (JNum n)
                        ∧ n ≤ PostToSlack.alerts_threshold) rows
  ∧ PostToSlack.report_run_completed_message W payload
    = Raise (UnboundLocalError "attachments").
Proof.
  cbv zeta.
  assert (has_common_fields (Sample.run_completed_payload "succeeded")) as H0
    by (repeat split; eexists; by_evaluation).
  assert (PostToSlack.pget (Sample.run_completed_payload "succeeded") "report_run" "state"
          = Ret (JStr "succeeded")) as H1 by by_evaluation.
  assert (PostToSlack.pget (Sample.run_completed_payload "succeeded") "report" "id"
          = Ret (JNum PostToSlack.alerts_report_id)) as H2 by by_evaluation.
  assert (PostToSlack.pget (Sample.run_completed_payload "succeeded") "report_run" "results"
          = Ret (JArr [Sample.obj [("total_amt_usd", JNum 500)];
                       Sample.obj [("total_amt_usd", JNum 900)]])) as H3 by by_evaluation.
  assert (Forall (λ row, ∃ n, getitem PostToSlack.alerts_field row = Ret (JNum n)
                              ∧ n ≤ PostToSlack.alerts_threshold)
            [Sample.obj [("total_amt_usd", JNum 500)];
             Sample.obj [("total_amt_usd", JNum 900)]]) as H4.
  { repeat constructor.
    - exists 500. split; [by_evaluation|unfold PostToSlack.alerts_threshold; lia].
    - exists 900. split; [by_evaluation|unfold PostToSlack.alerts_threshold; lia]. }
  repeat (split; [assumption|]).
  exact (report_run_completed_under_threshold_unbound (Sample.sample_world "succeeded")
           _ _ H0 H1 H2 H3 H4).
Defined.

(** [report_run_completed_other_state] on a cancelled run. *)
Lemma report_run_completed_other_state_witness :
  let W := Sample.sample_world "cancelled" in
  let payload := Sample.run_completed_payload "cancelled" in
  has_common_fields payload
  ∧ PostToSlack.pget payload "report_run" "state" = Ret (JStr "cancelled")
  ∧ eq_str (JStr "cancelled") "succeeded" = false
  ∧ eq_str (JStr "cancelled") "failed" = false
  ∧ PostToSlack.report_run_completed_message W payload
    = Raise (UnboundLocalError "attachments")
  ∧ (∀ (p : gmap string json) a,
       PostToSlack.report_run_completed_message W p = Ret a →
       ∃ s, PostToSlack.pget p "report_run" "state" = Ret s
          ∧ (eq_str s "succeeded" = true ∨ eq_str s "failed" = true)).
Proof.
  cbv zeta.
  assert (has_common_fields (Sample.run_completed_payload "cancelled")) as H0
    by (repeat split; eexists; by_evaluation).
  assert (PostToSlack.pget (Sample.run_completed_payload "cancelled") "report_run" "state"
          = Ret (JStr "cancelled")) as H1 by by_evaluation.
  assert (eq_str (JStr "cancelled") "succeeded" = false) as H2 by by_evaluation.
  assert (eq_str (JStr "cancelled") "failed" = false) as H3 by by_evaluation.
  repeat (split; [assumption|]).
  exact (report_run_completed_other_state (Sample.sample_world "cancelled")
           _ _ H0 H1 H2 H3).
Defined.

(** [handlers_raise_on_invalid_json] on the body [not json]. *)
Lemma handlers_raise_on_invalid_json_witness :
  let W := Sample.sample_world "succeeded" in
  let event := Sample.event_with_body "not json" in
  getitem "body" event = Ret (JStr "not json")
  ∧ json_loads W "not json" = None
  ∧ PostToDestination.lambda_function_handler W 10 event JNull []
    = (Raise ValueError, [] ++ [LogInfo (format W "Received payload: {}" [event])])
  ∧ PostToSlack.lambda_function_handler W 10 event JNull []
    = (Raise ValueError, [] ++ [LogInfo (format W "Received payload {}" [event])]).
Proof.
  cbv zeta.
  assert (getitem "body" (Sample.event_with_body "not json") = Ret (JStr "not json")) as H1
    by by_evaluation.
  assert (json_loads (Sample.sample_world "succeeded") "not json" = None) as H2
    by by_evaluation.
  repeat (split; [assumption|]).
  exact (handlers_raise_on_invalid_json (Sample.sample_world "succeeded") 10
           (Sample.event_with_body "not json") JNull "not json" [] H1 H2).
Defined.

End Instances.

(** * The sample deployment, end to end *)

Section EndToEnd.
Import Py Spec Hookrich.

(** The static table, entry by entry. *)
Example WEBHOOK_EVENTS_scopes :
  (λ name, (name, entry ← WEBHOOK_EVENTS !! name; entry !! "scope"))
    <$> ["report_created"; "report_run_started"; "report_run_completed";
         "definition_created"; "definition_updated"; "new_database_connection";
         "member_joined_organization"]
  = [("report_created", Some "report");
     ("report_run_started", Some "report_run");
     ("report_run_completed", Some "report_run");
     ("definition_created", Some "definition");
     ("definition_updated", Some "definition");
     ("new_database_connection", Some "connection");
     ("member_joined_organization", Some "membership")]
  ∧ size WEBHOOK_EVENTS = 7%nat.
Proof. split; vm_compute; reflexivity. Qed.

(** The keys and the requests of the other scopes. *)
Example enrich_payload_other_scopes :
  let W := Sample.sample_world "succeeded" in
  let keys_and_requests (r : outcome (gmap string json) * list io_event) :=
    (match r.1 with Ret p => Some (dom p) | _ => None end, r.2) in
  keys_and_requests
    (enrich_payload W 10 (JStr "report_created") (JStr Sample.report_address) [])
  = (Some ({["report"]} ∪ {["space"]}),
     HttpGet <$> ["https://modeanalytics.com/api/acme/reports/r1";
                  "https://modeanalytics.com/api/acme/reports/r1/runs";
                  "https://modeanalytics.com/api/acme/reports/r1/runs?page=2";
                  "https://modeanalytics.com/api/acme/spaces/sp1"])
  ∧ keys_and_requests
      (enrich_payload W 10 (JStr "member_joined_organization") (JStr Sample.member_url) [])
    = (Some ({["membership"]} ∪ {["user"]} ∪ {["organization"]}),
       HttpGet <$> ["https://modeanalytics.com/api/acme/memberships/m1";
                    "https://modeanalytics.com/api/alice";
                    "https://modeanalytics.com/api/acme"])
  ∧ keys_and_requests
      (enrich_payload W 10 (JStr "new_database_connection")
         (JStr Sample.connection_address) [])
    = (Some {["connection"]},
       [HttpGet "https://modeanalytics.com/api/acme/data_sources/ds1"])
  ∧ keys_and_requests
      (enrich_payload W 10 (JStr "definition_created") (JStr Sample.definition_address) [])
    = (Some {["definition"]},
       [HttpGet "https://modeanalytics.com/api/acme/definitions/d1"])
  ∧ keys_and_requests
      (enrich_payload W 10 (JStr "report_run_completed") (JStr Sample.run_url) [])
    = (Some ({["report_run"]} ∪ {["report"]} ∪ {["space"]}),
       HttpGet <$> ["https://modeanalytics.com/api/acme/reports/r1/runs/run1";
                    "https://modeanalytics.com/api/acme/reports/r1/runs/run1/results/content.json";
                    "https://modeanalytics.com/api/acme/reports/r1";
                    "https://modeanalytics.com/api/acme/reports/r1/runs";
                    "https://modeanalytics.com/api/acme/reports/r1/runs?page=2";
                    "https://modeanalytics.com/api/acme/spaces/sp1"]).
Proof. cbv zeta. repeat split; vm_compute; reflexivity. Qed.

(** The Slack entry point on a completed run of the watched report whose rows
    stay under the threshold: the six requests of the enrichment, then an
    error result that carries the unbound variable; nothing is posted. *)
Example slack_handler_under_threshold :
  let W := Sample.sample_world "succeeded" in
  let msg := "local variable 'attachments' referenced before assignment" in
  ∃ received,
    PostToSlack.lambda_function_handler W 10
      (Sample.event_with_body Sample.run_completed_body) JNull []
    = (Ret (PostToSlack._response W [("result", JStr "error"); ("message", JStr msg)]),
       [LogInfo received;
        HttpGet "https://modeanalytics.com/api/acme/reports/r1/runs/run1";
        HttpGet "https://modeanalytics.com/api/acme/reports/r1/runs/run1/results/content.json";
        HttpGet "https://modeanalytics.com/api/acme/reports/r1";
        HttpGet "https://modeanalytics.com/api/acme/reports/r1/runs";
        HttpGet "https://modeanalytics.com/api/acme/reports/r1/runs?page=2";
        HttpGet "https://modeanalytics.com/api/acme/spaces/sp1";
        LogError msg]).
Proof. cbv zeta. eexists. vm_compute. reflexivity. Qed.

(** A body without [event] field: an error result and no request. *)
Example handlers_missing_event_field :
  let W := Sample.sample_world "succeeded" in
  let event := Sample.event_with_body "{}" in
  let msg := format W "Invalid webhook event: {}" [event] in
  PostToDestination.lambda_function_handler W 10 event JNull []
  = (Ret (PostToDestination._response W [("result", JStr "error"); ("message", JStr msg)]),
     [LogInfo (format W "Received payload: {}" [event]); LogError msg])
  ∧ PostToSlack.lambda_function_handler W 10 event JNull []
    = (Ret (PostToSlack._response W [("result", JStr "error"); ("message", JStr msg)]),
       [LogInfo (format W "Received payload {}" [event]); LogError msg]).
Proof. cbv zeta. split; vm_compute; reflexivity. Qed.

End EndToEnd.

(** * Instances of the further properties *)

Section FurtherInstances.
Import Py Spec Hookrich Traces Fields.

Ltac by_evaluation := vm_compute; reflexivity.
Ltac is_set := eexists; by_evaluation.

(** [enrich_payload_without_credentials] in a deployment whose environment
    is empty. *)
Lemma enrich_payload_without_credentials_witness :
  (environ Cases.bare_world !! "api_token" = None
   ∨ environ Cases.bare_world !! "api_password" = None)
  ∧ ∃ e, enrich_payload Cases.bare_world 10 (JStr "report_run_completed")
           (JStr Sample.run_url) [] = (Raise e, []).
Proof.
  assert (environ Cases.bare_world !! "api_token" = None
          ∨ environ Cases.bare_world !! "api_password" = None) as H
    by (left; by_evaluation).
  split; [exact H|].
  exact (enrich_payload_without_credentials Cases.bare_world 10 H
           (JStr "report_run_completed") (JStr Sample.run_url) []).
Defined.

(** [handlers_unsupported_event] on an event kind the table lacks. *)
Lemma handlers_unsupported_event_witness :
  let W := Sample.sample_world "succeeded" in
  let event := Sample.event_with_body Cases.deleted_body in
  let m := Cases.decoded Cases.deleted_body in
  getitem "body" event = Ret (JStr Cases.deleted_body)
  ∧ json_loads W Cases.deleted_body = Some (JObj m)
  ∧ m !! "event" = Some (JStr "report_deleted")
  ∧ (WEBHOOK_EVENTS !! "report_deleted" = None
     ∨ ∃ entry field,
         WEBHOOK_EVENTS !! "report_deleted" = Some entry
         ∧ entry !! "url" = Some field
         ∧ m !! field = None)
  ∧ PostToDestination.lambda_function_handler W 10 event JNull []
    = (Ret (PostToDestination._response W
              [("result", JStr "error");
               ("message", JStr ("Unsupported event type: " +:+ "report_deleted"))]),
       [] ++ [LogInfo (format W "Received payload: {}" [event]);
              LogError ("Unsupported event type: " +:+ "report_deleted")])
  ∧ PostToSlack.lambda_function_handler W 10 event JNull []
    = (Ret (PostToSlack._response W
              [("result", JStr "error");
               ("message", JStr ("Unsupported event type: " +:+ "report_deleted"))]),
       [] ++ [LogInfo (format W "Received payload {}" [event]);
              LogError ("Unsupported event type: " +:+ "report_deleted")]).
Proof.
  cbv zeta.
  assert (getitem "body" (Sample.event_with_body Cases.deleted_body)
          = Ret (JStr Cases.deleted_body)) as H1 by by_evaluation.
  assert (json_loads (Sample.sample_world "succeeded") Cases.deleted_body
          = Some (JObj (Cases.decoded Cases.deleted_body))) as H2 by by_evaluation.
  assert (Cases.decoded Cases.deleted_body !! "event" = Some (JStr "report_deleted")) as H3
    by by_evaluation.
  assert (WEBHOOK_EVENTS !! "report_deleted" = None
          ∨ ∃ entry field,
              WEBHOOK_EVENTS !! "report_deleted" = Some entry
              ∧ entry !! "url" = Some field
              ∧ Cases.decoded Cases.deleted_body !! field = None) as H4
    by (left; by_evaluation).
  repeat (split; [assumption|]).
  exact (handlers_unsupported_event (Sample.sample_world "succeeded") 10
           (Sample.event_with_body Cases.deleted_body) JNull Cases.deleted_body
           (Cases.decoded Cases.deleted_body) "report_deleted" [] H1 H2 H3 H4).
Defined.

(** [handlers_raise_on_unhashable_event] on an [event] field that is a
    list. *)
Lemma handlers_raise_on_unhashable_event_witness :
  let W := Sample.sample_world "succeeded" in
  let event := Sample.event_with_body Cases.list_body in
  let m := Cases.decoded Cases.list_body in
  getitem "body" event = Ret (JStr Cases.list_body)
  ∧ json_loads W Cases.list_body = Some (JObj m)
  ∧ m !! "event" = Some (JArr [JNum 1])
  ∧ ((∃ l, JArr [JNum 1] = JArr l) ∨ (∃ o, JArr [JNum 1] = JObj o))
  ∧ PostToDestination.lambda_function_handler W 10 event JNull []
    = (Raise TypeError, [] ++ [LogInfo (format W "Received payload: {}" [event])])
  ∧ PostToSlack.lambda_function_handler W 10 event JNull []
    = (Raise TypeError, [] ++ [LogInfo (format W "Received payload {}" [event])]).
Proof.
  cbv zeta.
  assert (getitem "body" (Sample.event_with_body Cases.list_body)
          = Ret (JStr Cases.list_body)) as H1 by by_evaluation.
  assert (json_loads (Sample.sample_world "succeeded") Cases.list_body
          = Some (JObj (Cases.decoded Cases.list_body))) as H2 by by_evaluation.
  assert (Cases.decoded Cases.list_body !! "event" = Some (JArr [JNum 1])) as H3
    by by_evaluation.
  assert ((∃ l, JArr [JNum 1] = JArr l) ∨ (∃ o, JArr [JNum 1] = JObj o)) as H4
    by (left; by eexists).
  repeat (split; [assumption|]).
  exact (handlers_raise_on_unhashable_event (Sample.sample_world "succeeded") 10
           (Sample.event_with_body Cases.list_body) JNull Cases.list_body
           (Cases.decoded Cases.list_body) (JArr [JNum 1]) [] H1 H2 H3 H4).
Defined.

(** [handlers_catch_dispatch_errors] on a completed run of the sample
    report. *)
Lemma handlers_catch_dispatch_errors_witness :
  let W := Sample.sample_world "failed" in
  let event := Sample.event_with_body Sample.run_completed_body in
  let body := JObj (Cases.decoded Sample.run_completed_body) in
  let event_name := JStr "report_run_completed" in
  let event_url := JStr Sample.run_url in
  PostToDestination.read_event W event = Ret (body, event_name)
  ∧ PostToDestination.read_event_url W body event_name = Ret event_url
  ∧ (∀ e, (PostToDestination.lambda_function_handler W 10 event JNull []).1 ≠ Raise e)
  ∧ (∀ e, (PostToSlack.lambda_function_handler W 10 event JNull []).1 ≠ Raise e).
Proof.
  cbv zeta.
  assert (PostToDestination.read_event (Sample.sample_world "failed")
            (Sample.event_with_body Sample.run_completed_body)
          = Ret (JObj (Cases.decoded Sample.run_completed_body),
                 JStr "report_run_completed")) as H1 by by_evaluation.
  assert (PostToDestination.read_event_url (Sample.sample_world "failed")
            (JObj (Cases.decoded Sample.run_completed_body)) (JStr "report_run_completed")
          = Ret (JStr Sample.run_url)) as H2 by by_evaluation.
  repeat (split; [assumption|]).
  pose proof (handlers_catch_dispatch_errors (Sample.sample_world "failed") 10
                (Sample.event_with_body Sample.run_completed_body) JNull
                _ _ _ [] H1 H2) as (Hd & Hs & _).
  split; [exact Hd|exact Hs].
Defined.

(** [build_slack_message_single_attachment] on a failed run of the sample
    report. *)
Lemma build_slack_message_single_attachment_witness :
  let W := Sample.sample_world "failed" in
  let payload := Sample.run_completed_payload "failed" in
  let a := match PostToSlack.build_slack_message W (JStr "report_run_completed") payload with
           | Ret a => a
           | _ => JNull
           end in
  PostToSlack.build_slack_message W (JStr "report_run_completed") payload = Ret a
  ∧ ∃ m text color,
      a = JArr [JObj m]
      ∧ m !! "text" = Some (JStr text)
      ∧ m !! "fallback" = Some (JStr text)
      ∧ m !! "author_name" = Some (JStr "Mode")
      ∧ m !! "author_link" = Some (JStr "https://modeanalytics.com/")
      ∧ m !! "color" = Some (JStr color)
      ∧ color ∈ ["good"; "warning"; "danger"].
Proof.
  cbv zeta.
  set (W := Sample.sample_world "failed").
  set (payload := Sample.run_completed_payload "failed").
  set (a := match PostToSlack.build_slack_message W (JStr "report_run_completed") payload with
            | Ret a => a
            | _ => JNull
            end).
  assert (PostToSlack.build_slack_message W (JStr "report_run_completed") payload = Ret a)
    as H by by_evaluation.
  split; [exact H|].
  exact (build_slack_message_single_attachment W (JStr "report_run_completed") payload a H).
Defined.

(** [report_run_completed_failed] on a failed run. *)
Lemma report_run_completed_failed_witness :
  let W := Sample.sample_world "failed" in
  let payload := Cases.run_payload 1 "failed" [] in
  let url := JStr "https://modeanalytics.com/acme/reports/r1" in
  let space_url := JStr "https://modeanalytics.com/acme/spaces/sp1" in
  common_fields payload (JStr "alice") url (JStr "Revenue") space_url (JStr "Finance")
  ∧ PostToSlack.pget payload "report_run" "state" = Ret (JStr "failed")
  ∧ PostToSlack.pget payload "report" "consecutive_run_failures" = Ret (JNum 2)
  ∧ PostToSlack.report_run_completed_message W payload
    = Ret (PostToSlack.attachment
             ("Oh no! " +:+ str W (JStr "alice") +:+ " just ran the <" +:+ str W url +:+ "|"
              +:+ str W (JStr "Revenue") +:+ "> report in the <" +:+ str W space_url +:+ "|"
              +:+ str W (JStr "Finance")
              +:+ "> space and it failed. It has failed the last "
              +:+ str W (JNum 2) +:+ " run(s).")
             "danger" "Failed Report Run :sad-error:" []).
Proof.
  cbv zeta.
  assert (common_fields (Cases.run_payload 1 "failed" []) (JStr "alice")
            (JStr "https://modeanalytics.com/acme/reports/r1") (JStr "Revenue")
            (JStr "https://modeanalytics.com/acme/spaces/sp1") (JStr "Finance")) as H0
    by (repeat split; by_evaluation).
  assert (PostToSlack.pget (Cases.run_payload 1 "failed" []) "report_run" "state"
          = Ret (JStr "failed")) as H1 by by_evaluation.
  assert (PostToSlack.pget (Cases.run_payload 1 "failed" []) "report"
            "consecutive_run_failures" = Ret (JNum 2)) as H2 by by_evaluation.
  repeat (split; [assumption|]).
  exact (report_run_completed_failed (Sample.sample_world "failed") _ _ _ _ _ _ _ H0 H1 H2).
Defined.

(** [report_run_completed_succeeded] on a report that is not watched. *)
Lemma report_run_completed_succeeded_witness :
  let W := Sample.sample_world "succeeded" in
  let payload := Cases.run_payload 1 "succeeded" [] in
  let url := JStr "https://modeanalytics.com/acme/reports/r1" in
  let space_url := JStr "https://modeanalytics.com/acme/spaces/sp1" in
  common_fields payload (JStr "alice") url (JStr "Revenue") space_url (JStr "Finance")
  ∧ PostToSlack.pget payload "report_run" "state" = Ret (JStr "succeeded")
  ∧ PostToSlack.pget payload "report" "id" = Ret (JNum 1)
  ∧ eq_int (JNum 1) PostToSlack.alerts_report_id = false
  ∧ PostToSlack.pget payload "report_run" "execution_duration" = Ret (JNum 10)
  ∧ PostToSlack.report_run_completed_message W payload
    = Ret (PostToSlack.attachment
             ("Good news! " +:+ str W (JStr "alice") +:+ " just ran the <" +:+ str W url
              +:+ "|" +:+ str W (JStr "Revenue") +:+ "> report in the <"
              +:+ str W space_url +:+ "|" +:+ str W (JStr "Finance")
              +:+ "> space and it succeeded. It took "
              +:+ str W (JNum 10) +:+ " seconds to run.")
             "good" "Successful Report Run :success:" []).
Proof.
  cbv zeta.
  assert (common_fields (Cases.run_payload 1 "succeeded" []) (JStr "alice")
            (JStr "https://modeanalytics.com/acme/reports/r1") (JStr "Revenue")
            (JStr "https://modeanalytics.com/acme/spaces/sp1") (JStr "Finance")) as H0
    by (repeat split; by_evaluation).
  assert (PostToSlack.pget (Cases.run_payload 1 "succeeded" []) "report_run" "state"
          = Ret (JStr "succeeded")) as H1 by by_evaluation.
  assert (PostToSlack.pget (Cases.run_payload 1 "succeeded" []) "report" "id"
          = Ret (JNum 1)) as H2 by by_evaluation.
  assert (eq_int (JNum 1) PostToSlack.alerts_report_id = false) as H3 by by_evaluation.
  assert (PostToSlack.pget (Cases.run_payload 1 "succeeded" []) "report_run"
            "execution_duration" = Ret (JNum 10)) as H4 by by_evaluation.
  repeat (split; [assumption|]).
  exact (report_run_completed_succeeded (Sample.sample_world "succeeded")
           _ _ _ _ _ _ _ _ H0 H1 H2 H3 H4).
Defined.

(** [report_run_completed_alert] on the watched report with the amounts
    400, 1500 and 3000: the alert reports 1500. *)
Lemma report_run_completed_alert_witness :
  let W := Sample.sample_world "succeeded" in
  let rows := [Cases.amount 400] ++ Cases.amount 1500 :: [Cases.amount 3000] in
  let payload := Cases.run_payload PostToSlack.alerts_report_id "succeeded" rows in
  let url := JStr "https://modeanalytics.com/acme/reports/r1" in
  let space_url := JStr "https://modeanalytics.com/acme/spaces/sp1" in
  common_fields payload (JStr "alice") url (JStr "Revenue") space_url (JStr "Finance")
  ∧ PostToSlack.pget payload "report_run" "state" = Ret (JStr "succeeded")
  ∧ PostToSlack.pget payload "report" "id" = Ret (JNum PostToSlack.alerts_report_id)
  ∧ PostToSlack.pget payload "report_run" "results" = Ret (JArr rows)
  ∧ Forall (λ r, ∃ k, getitem PostToSlack.alerts_field r = Ret (JNum k)
                      ∧ k ≤ PostToSlack.alerts_threshold) [Cases.amount 400]
  ∧ getitem PostToSlack.alerts_field (Cases.amount 1500) = Ret (JNum 1500)
  ∧ PostToSlack.alerts_threshold < 1500
  ∧ PostToSlack.report_run_completed_message W payload
    = Ret (PostToSlack.attachment
             ("Heads up! " +:+ str W (JStr "alice") +:+ " just ran the <" +:+ str W url
              +:+ "|" +:+ str W (JStr "Revenue") +:+ "> report in the <"
              +:+ str W space_url +:+ "|" +:+ str W (JStr "Finance")
              +:+ "> space and it succeeded, but the total_amt_usd field exceeded the alert threshold.")
             "warning" "Threshold Alert :heavy_exclamation_mark:"
             [("fields", JArr [PostToSlack.field_entry "Observed Value" (JNum 1500);
                               PostToSlack.field_entry "Threshold Value" (JNum 1000)])]).
Proof.
  cbv zeta.
  set (rows := [Cases.amount 400] ++ Cases.amount 1500 :: [Cases.amount 3000]).
  set (payload := Cases.run_payload PostToSlack.alerts_report_id "succeeded" rows).
  assert (common_fields payload (JStr "alice")
            (JStr "https://modeanalytics.com/acme/reports/r1") (JStr "Revenue")
            (JStr "https://modeanalytics.com/acme/spaces/sp1") (JStr "Finance")) as H0
    by (repeat split; by_evaluation).
  assert (PostToSlack.pget payload "report_run" "state" = Ret (JStr "succeeded")) as H1
    by by_evaluation.
  assert (PostToSlack.pget payload "report" "id" = Ret (JNum PostToSlack.alerts_report_id))
    as H2 by by_evaluation.
  assert (PostToSlack.pget payload "report_run" "results" = Ret (JArr rows)) as H3
    by by_evaluation.
  assert (Forall (λ r, ∃ k, getitem PostToSlack.alerts_field r = Ret (JNum k)
                            ∧ k ≤ PostToSlack.alerts_threshold) [Cases.amount 400]) as H4.
  { repeat constructor. exists 400.
    split; [by_evaluation|unfold PostToSlack.alerts_threshold; lia]. }
  assert (getitem PostToSlack.alerts_field (Cases.amount 1500) = Ret (JNum 1500)) as H5
    by by_evaluation.
  assert (PostToSlack.alerts_threshold < 1500) as H6
    by (unfold PostToSlack.alerts_threshold; lia).
  repeat (split; [assumption|]).
  exact (report_run_completed_alert (Sample.sample_world "succeeded") payload
           _ _ _ _ _ [Cases.amount 400] (Cases.amount 1500) [Cases.amount 3000] 1500
           H0 H1 H2 H3 H4 H5 H6).
Defined.

(** [report_run_duration_range] on a run reported to complete ten seconds
    before it was created. *)
Lemma report_run_duration_range_witness :
  report_run_duration (JStr "2020-01-02T00:00:00.000000Z")
                      (JStr "2020-01-01T23:59:50.000000Z") = Ret 86390
  ∧ 0 ≤ 86390 < 86400.
Proof.
  assert (report_run_duration (JStr "2020-01-02T00:00:00.000000Z")
                              (JStr "2020-01-01T23:59:50.000000Z") = Ret 86390) as H
    by by_evaluation.
  split; [exact H|].
  exact (report_run_duration_range _ _ 86390 H).
Defined.

(** [EventURL_api_address] on the address of the sample report. *)
Lemma EventURL_api_address_witness :
  contains MODE_BASE_URL ("api/" +:+ "acme" +:+ "/" +:+ "reports/r1") = false
  ∧ contains "/" "acme" = false
  ∧ ∃ e,
      EventURL_init (JStr (MODE_BASE_URL +:+ "api/" +:+ "acme" +:+ "/" +:+ "reports/r1"))
      = Ret e
      ∧ url e = MODE_BASE_URL +:+ "api/" +:+ "acme" +:+ "/" +:+ "reports/r1"
      ∧ path e = "api/" +:+ "acme" +:+ "/" +:+ "reports/r1"
      ∧ org e = Ret "acme".
Proof.
  assert (contains MODE_BASE_URL ("api/" +:+ "acme" +:+ "/" +:+ "reports/r1") = false)
    as H1 by by_evaluation.
  assert (contains "/" "acme" = false) as H2 by by_evaluation.
  repeat (split; [assumption|]).
  exact (EventURL_api_address "acme" "reports/r1" H1 H2).
Defined.

(** [connection_url_of_api_address] on the sample data source. *)
Lemma connection_url_of_api_address_witness :
  contains "/api/" "acme/data_sources/ds1" = false
  ∧ connection_url (mk_EventURL (MODE_BASE_URL +:+ "api/" +:+ "acme/data_sources/ds1")
                      "api/acme/data_sources/ds1")
    = "https://modeanalytics.com/organizations/" +:+ "acme/data_sources/ds1".
Proof.
  assert (contains "/api/" "acme/data_sources/ds1" = false) as H by by_evaluation.
  split; [exact H|].
  exact (proj1 connection_url_of_api_address "acme/data_sources/ds1"
           "api/acme/data_sources/ds1" H).
Defined.

(** [report_url_cuts_at_runs] on the address of the sample run. *)
Lemma report_url_cuts_at_runs_witness :
  let e := mk_EventURL Sample.run_url "api/acme/reports/r1/runs/run1" in
  contains "/runs/" (url e) = true
  ∧ ∃ r,
      report_url e = Ret r
      ∧ contains "/runs/" r = false
      ∧ (contains "/runs/" (url e) = false → r = url e)
      ∧ (contains "/runs/" (url e) = true → ∃ rest, url e = r +:+ "/runs/" +:+ rest).
Proof.
  cbv zeta. split; [by_evaluation|].
  exact (report_url_cuts_at_runs (mk_EventURL Sample.run_url "api/acme/reports/r1/runs/run1")).
Defined.

(** [log_usage_ignores_other_events] on a [report_created] event. *)
Lemma log_usage_ignores_other_events_witness :
  let W := Sample.sample_world "succeeded" in
  let event := Sample.event_with_body Cases.created_body in
  let body := Cases.decoded Cases.created_body in
  dict_get "body" (JStr "{}") event = Ret (JStr Cases.created_body)
  ∧ loads W (JStr Cases.created_body) = Ret (JObj body)
  ∧ eq_str (default (JStr "") (body !! "event")) "report_run_completed" = false
  ∧ LogUsageCsv.lambda_handler W LogUsageCsv.Python3 event JNull []
    = (Ret (JObj {[ "body" := JStr "success" ]}), []).
Proof.
  cbv zeta.
  assert (dict_get "body" (JStr "{}") (Sample.event_with_body Cases.created_body)
          = Ret (JStr Cases.created_body)) as H1 by by_evaluation.
  assert (loads (Sample.sample_world "succeeded") (JStr Cases.created_body)
          = Ret (JObj (Cases.decoded Cases.created_body))) as H2 by by_evaluation.
  assert (eq_str (default (JStr "") (Cases.decoded Cases.created_body !! "event"))
            "report_run_completed" = false) as H3 by by_evaluation.
  repeat (split; [assumption|]).
  exact (log_usage_ignores_other_events (Sample.sample_world "succeeded")
           LogUsageCsv.Python3 (Sample.event_with_body Cases.created_body) JNull _ _ []
           H1 H2 H3).
Defined.

(** [enrich_payload_fields] on a completed run of the sample report. *)
Lemma enrich_payload_fields_witness :
  let W := Sample.sample_world "succeeded" in
  let run := enrich_payload W 10 (JStr "report_run_completed") (JStr Sample.run_url) [] in
  let entry := default ∅ (WEBHOOK_EVENTS !! "report_run_completed") in
  let payload := match run.1 with Ret p => p | _ => ∅ end in
  WEBHOOK_EVENTS !! "report_run_completed" = Some entry
  ∧ entry !! "scope" = Some "report_run"
  ∧ run = (Ret payload, run.2)
  ∧ Forall (λ nf, holds payload nf.1 nf.2) (scope_fields "report_run")
  ∧ ("report_run" = "report_run" → has_common_fields payload).
Proof.
  cbv zeta.
  set (W := Sample.sample_world "succeeded").
  set (run := enrich_payload W 10 (JStr "report_run_completed") (JStr Sample.run_url) []).
  set (entry := default ∅ (WEBHOOK_EVENTS !! "report_run_completed")).
  set (payload := match run.1 with Ret p => p | _ => ∅ end).
  assert (WEBHOOK_EVENTS !! "report_run_completed" = Some entry) as H1 by by_evaluation.
  assert (entry !! "scope" = Some "report_run") as H2 by by_evaluation.
  assert (run = (Ret payload, run.2)) as H3 by by_evaluation.
  split; [exact H1|]. split; [exact H2|]. split; [exact H3|].
  exact (enrich_payload_fields W 10 "report_run_completed" entry "report_run"
           (JStr Sample.run_url) payload [] run.2 H1 H2 H3).
Defined.

(** [enrich_payload_run_numbers] on a failed run of the sample report. *)
Lemma enrich_payload_run_numbers_witness :
  let W := Sample.sample_world "failed" in
  let run := enrich_payload W 10 (JStr "report_run_completed") (JStr Sample.run_url) [] in
  let entry := default ∅ (WEBHOOK_EVENTS !! "report_run_completed") in
  let payload := match run.1 with Ret p => p | _ => ∅ end in
  WEBHOOK_EVENTS !! "report_run_completed" = Some entry
  ∧ entry !! "scope" = Some "report_run"
  ∧ run = (Ret payload, run.2)
  ∧ ∃ d n,
      PostToSlack.pget payload "report_run" "execution_duration" = Ret (JNum d)
      ∧ 0 ≤ d < 86400
      ∧ PostToSlack.pget payload "report" "consecutive_run_failures" = Ret (JNum n)
      ∧ 0 ≤ n.
Proof.
  cbv zeta.
  set (W := Sample.sample_world "failed").
  set (run := enrich_payload W 10 (JStr "report_run_completed") (JStr Sample.run_url) []).
  set (entry := default ∅ (WEBHOOK_EVENTS !! "report_run_completed")).
  set (payload := match run.1 with Ret p => p | _ => ∅ end).
  assert (WEBHOOK_EVENTS !! "report_run_completed" = Some entry) as H1 by by_evaluation.
  assert (entry !! "scope" = Some "report_run") as H2 by by_evaluation.
  assert (run = (Ret payload, run.2)) as H3 by by_evaluation.
  split; [exact H1|]. split; [exact H2|]. split; [exact H3|].
  exact (enrich_payload_run_numbers W 10 "report_run_completed" entry
           (JStr Sample.run_url) payload [] run.2 H1 H2 H3).
Defined.

(** [handlers_report_missing_event] on a body without [event] field. *)
Lemma handlers_report_missing_event_witness :
  let W := Sample.sample_world "succeeded" in
  let event := Sample.event_with_body "{}" in
  let msg := format W "Invalid webhook event: {}" [event] in
  (PostToDestination.read_event W event = Raise TypeError
   ∨ ∃ k, PostToDestination.read_event W event = Raise (KeyError k))
  ∧ PostToDestination.lambda_function_handler W 10 event JNull []
    = (Ret (PostToDestination._response W [("result", JStr "error"); ("message", JStr msg)]),
       [] ++ [LogInfo (format W "Received payload: {}" [event]); LogError msg])
  ∧ PostToSlack.lambda_function_handler W 10 event JNull []
    = (Ret (PostToSlack._response W [("result", JStr "error"); ("message", JStr msg)]),
       [] ++ [LogInfo (format W "Received payload {}" [event]); LogError msg]).
Proof.
  cbv zeta.
  assert (PostToDestination.read_event (Sample.sample_world "succeeded")
            (Sample.event_with_body "{}") = Raise TypeError
          ∨ ∃ k, PostToDestination.read_event (Sample.sample_world "succeeded")
                   (Sample.event_with_body "{}") = Raise (KeyError k)) as H
    by (right; exists "event"; by_evaluation).
  split; [exact H|].
  exact (handlers_report_missing_event (Sample.sample_world "succeeded") 10
           (Sample.event_with_body "{}") JNull [] H).
Defined.

(** [member_token_clean] on the address of the sample membership. *)
Lemma member_token_clean_witness :
  let e := mk_EventURL Sample.member_url "api/acme/memberships/m1?embed[user]" in
  member_token e = Ret "m1"
  ∧ contains "/memberships/" "m1" = false
  ∧ contains "?embed[user]" "m1" = false.
Proof.
  cbv zeta.
  assert (member_token (mk_EventURL Sample.member_url "api/acme/memberships/m1?embed[user]")
          = Ret "m1") as H by by_evaluation.
  split; [exact H|].
  exact (member_token_clean _ "m1" H).
Defined.

(** [report_run_duration_within_a_day] on a run of ten seconds and a
    half. *)
Lemma report_run_duration_within_a_day_witness :
  let ta := mk_datetime 2020 1 1 0 0 0 0 in
  let tb := mk_datetime 2020 1 1 0 0 10 500000 in
  datetime_iso_convert (JStr "2020-01-01T00:00:00.000000Z") = Ret ta
  ∧ datetime_iso_convert (JStr "2020-01-01T00:00:10.500000Z") = Ret tb
  ∧ 0 ≤ whole_seconds_between ta tb < 86400
  ∧ report_run_duration (JStr "2020-01-01T00:00:00.000000Z")
                        (JStr "2020-01-01T00:00:10.500000Z")
    = Ret (whole_seconds_between ta tb)
  ∧ whole_seconds_between ta tb = 10.
Proof.
  cbv zeta.
  assert (datetime_iso_convert (JStr "2020-01-01T00:00:00.000000Z")
          = Ret (mk_datetime 2020 1 1 0 0 0 0)) as H1 by by_evaluation.
  assert (datetime_iso_convert (JStr "2020-01-01T00:00:10.500000Z")
          = Ret (mk_datetime 2020 1 1 0 0 10 500000)) as H2 by by_evaluation.
  assert (whole_seconds_between (mk_datetime 2020 1 1 0 0 0 0)
            (mk_datetime 2020 1 1 0 0 10 500000) = 10) as H4 by by_evaluation.
  assert (0 ≤ whole_seconds_between (mk_datetime 2020 1 1 0 0 0 0)
                (mk_datetime 2020 1 1 0 0 10 500000) < 86400) as H3
    by (rewrite H4; lia).
  split; [exact H1|]. split; [exact H2|]. split; [exact H3|].
  split; [|exact H4].
  exact (report_run_duration_within_a_day _ _ _ _ H1 H2 H3).
Defined.

(** [consecutive_run_failures_whole_pages] on the sample report, whose
    history is [[failed, failed], [failed, succeeded, failed]]: the count is
    the size of the first page. *)
Lemma consecutive_run_failures_whole_pages_witness :
  let W := Sample.sample_world "failed" in
  let pages := [Sample.runs_page_1; Sample.runs_page_2] in
  let states := [["failed"; "failed"]; ["failed"; "succeeded"; "failed"]] in
  is_Some (environ W !! "api_token")
  ∧ is_Some (environ W !! "api_password")
  ∧ serves W (Sample.report_address +:+ "/runs") 1 pages
  ∧ head pages = Some Sample.runs_page_1
  ∧ total_pages Sample.runs_page_1 = Ret (JNum 2)
  ∧ (Z.to_nat (Z.max 1 (Z.min 2 10)) ≤ length pages)%nat
  ∧ (10 ≤ 10)%nat
  ∧ Forall2 has_runs pages states
  ∧ (consecutive_run_failures W 10 Sample.report_address []).1
    = Ret (whole_failed_pages (take (Z.to_nat (Z.max 1 (Z.min 2 10))) states))
  ∧ whole_failed_pages (take (Z.to_nat (Z.max 1 (Z.min 2 10))) states) = 2.
Proof.
  cbv zeta.
  assert (is_Some (environ (Sample.sample_world "failed") !! "api_token")) as H1 by is_set.
  assert (is_Some (environ (Sample.sample_world "failed") !! "api_password")) as H2
    by is_set.
  assert (serves (Sample.sample_world "failed") (Sample.report_address +:+ "/runs") 1
            [Sample.runs_page_1; Sample.runs_page_2]) as H3.
  { cbn [serves]. split; [by_evaluation|]. split; [by_evaluation|].
    eexists. split; [by_evaluation|]. split; [by_evaluation|]. split; [by_evaluation|].
    exact I. }
  assert (head [Sample.runs_page_1; Sample.runs_page_2] = Some Sample.runs_page_1) as H4
    by reflexivity.
  assert (total_pages Sample.runs_page_1 = Ret (JNum 2)) as H5 by by_evaluation.
  assert (Z.to_nat (Z.max 1 (Z.min 2 10))
          ≤ length [Sample.runs_page_1; Sample.runs_page_2])%nat as H6
    by (vm_compute; lia).
  assert (10 ≤ 10)%nat as H7 by lia.
  assert (Forall2 has_runs [Sample.runs_page_1; Sample.runs_page_2]
            [["failed"; "failed"]; ["failed"; "succeeded"; "failed"]]) as H8.
  { repeat constructor.
    - eexists. split; [by_evaluation|]. repeat constructor.
    - eexists. split; [by_evaluation|]. repeat constructor. }
  repeat (split; [assumption|]).
  split; [|by_evaluation].
  exact (consecutive_run_failures_whole_pages (Sample.sample_world "failed") H1 H2 10
           Sample.report_address _ Sample.runs_page_1 2 _ [] H3 H4 H5 H6 H7 H8).
Defined.

End FurtherInstances.
